(** * toolbar_api.py: the desktop-stack reconciliation core

    A shallow embedding of [defaults/scripts/toolbar_api.py] and the
    properties of its service registry, supervisor client, mode applicator
    and [ensure_ready], followed by the HTTP front: the client log and
    [do_GET].

    Conventions of the embedding.
    - Python [str] values are Rocq strings; the characters are read as code
      points below 256, which is where [strip], [split], [splitlines] and
      [lower] are modelled.
    - Wall-clock time and durations are integers in milliseconds (the source
      uses floating-point seconds, of which only the order is used).
    - Module-level globals that the code mutates live in [Globals]; the
      outside world (clock, processes spawned so far) lives in [World]; what
      external processes and the file system answer is an [Oracle].
    - Functions that spawn processes or touch globals are written in a state
      and exception monad [M]. *)

From Stdlib Require Import ZArith List String Ascii Bool Lia.
From stdpp Require Import base gmap strings list fin_maps.
Import ListNotations.
Open Scope string_scope.
Open Scope Z_scope.

(** ** Python string operations used by the program *)

Module PyStr.

Definition code (c : ascii) : N := N_of_ascii c.

(** [str.isspace] on one character. *)
Definition isspace (c : ascii) : bool :=
  let n := code c in
  (((9 <=? n) && (n <=? 13)) || ((28 <=? n) && (n <=? 32))
   || (n =? 133) || (n =? 160))%N.

(** The line boundaries of [str.splitlines]. *)
Definition is_linebreak (c : ascii) : bool :=
  let n := code c in
  (((10 <=? n) && (n <=? 13)) || ((28 <=? n) && (n <=? 30)) || (n =? 133))%N.

Definition lower_char (c : ascii) : ascii :=
  let n := code c in
  if (((65 <=? n) && (n <=? 90))
      || ((192 <=? n) && (n <=? 222) && negb (n =? 215)))%N
  then ascii_of_N (n + 32) else c.

(** [s.lower()] *)
Fixpoint lower (s : string) : string :=
  match s with
  | EmptyString => EmptyString
  | String c r => String (lower_char c) (lower r)
  end.

Fixpoint lstrip (s : string) : string :=
  match s with
  | EmptyString => EmptyString
  | String c r => if isspace c then lstrip r else s
  end.

Fixpoint rstrip (s : string) : string :=
  match s with
  | EmptyString => EmptyString
  | String c r =>
      match rstrip r with
      | EmptyString => if isspace c then EmptyString else String c EmptyString
      | r' => String c r'
      end
  end.

(** [s.strip()] *)
Definition strip (s : string) : string := rstrip (lstrip s).

(** [s.split()]: the maximal runs of non-whitespace characters. *)
Fixpoint split (s : string) : list string :=
  match s with
  | EmptyString => []
  | String c r =>
      if isspace c then split r
      else match split r with
           | [] => [String c EmptyString]
           | w :: ws =>
               match r with
               | String c' _ =>
                   if isspace c' then String c EmptyString :: w :: ws
                   else String c w :: ws
               | EmptyString => String c EmptyString :: w :: ws
               end
           end
  end.

(** [s.splitlines()]: a carriage return followed by a line feed is one
    boundary; a final boundary does not open an empty last line. *)
Fixpoint splitlines (s : string) : list string :=
  match s with
  | EmptyString => []
  | String c r =>
      if is_linebreak c then
        EmptyString ::
          match r with
          | String c2 r2 =>
              if ((code c =? 13) && (code c2 =? 10))%N
              then splitlines r2 else splitlines r
          | EmptyString => []
          end
      else match splitlines r with
           | [] => [String c EmptyString]
           | l :: ls => String c l :: ls
           end
  end.

(** Truth value of a string: [bool(s)], as in [s or d] and [if not s]. *)
Definition truthy (s : string) : bool :=
  match s with EmptyString => false | _ => true end.

(** [s or d] *)
Definition or_else (s d : string) : string := if truthy s then s else d.

End PyStr.

(** ** Static configuration (module-level constants, lines 30-53) *)

Record Config := {
  SUPERVISORCTL : string;
  WM_SERVICE : string;
  DESKTOP_SERVICE : string;
  KIOSK_SCRIPT : string;
  WAIT_MAX_SEC : Z;
  WAIT_POLL_SEC : Z;
  MODE_APPLY_DELAY_SEC : Z;
  X_READY_MAX_SEC : Z;
  X_READY_POLL_SEC : Z;
  X_READY_CMD : string
}.

(** Seconds written in the source, in the model's milliseconds. *)
Definition sec (n : Z) : Z := 1000 * n.

(** [os.environ.get(key, dflt)] *)
Definition environ_get (environ : gmap string string) (key dflt : string) : string :=
  default dflt (environ !! key).

(** The numeric settings are read with [float(...)]; number parsing is not
    modelled, so they are given already converted. *)
Record Timings := {
  t_wait_max : Z; t_wait_poll : Z; t_mode_apply_delay : Z;
  t_x_ready_max : Z; t_x_ready_poll : Z
}.

Definition default_timings : Timings :=
  {| t_wait_max := 8000; t_wait_poll := 200; t_mode_apply_delay := 800;
     t_x_ready_max := 6000; t_x_ready_poll := 200 |}.

Definition load_config (environ : gmap string string) (t : Timings) : Config :=
  {| SUPERVISORCTL := environ_get environ "SUPERVISORCTL" "supervisorctl";
     WM_SERVICE :=
       PyStr.or_else (PyStr.strip (environ_get environ "WM_SERVICE" "xfce")) "xfce";
     DESKTOP_SERVICE := PyStr.strip (environ_get environ "DESKTOP_SERVICE" "none");
     KIOSK_SCRIPT :=
       environ_get environ "KIOSK_SCRIPT" "/data/conf/scripts/kiosk_mode.sh";
     WAIT_MAX_SEC := t_wait_max t;
     WAIT_POLL_SEC := t_wait_poll t;
     MODE_APPLY_DELAY_SEC := t_mode_apply_delay t;
     X_READY_MAX_SEC := t_x_ready_max t;
     X_READY_POLL_SEC := t_x_ready_poll t;
     X_READY_CMD := PyStr.strip (environ_get environ "X_READY_CMD" "") |}.

(** ** Service registry (lines 75-95) *)

Definition disabled_sentinels : list string := ["none"; "null"; "0"; "false"].

Definition _desktop_service_enabled (cfg : Config) : bool :=
  let ds := PyStr.strip (PyStr.or_else (DESKTOP_SERVICE cfg) "") in
  if negb (PyStr.truthy ds) then false
  else if bool_decide (PyStr.lower ds ∈ disabled_sentinels) then false
  else if String.eqb ds (WM_SERVICE cfg) then false
  else true.

Definition services_start_order (cfg : Config) : list string :=
  if _desktop_service_enabled cfg
  then [WM_SERVICE cfg; DESKTOP_SERVICE cfg]
  else [WM_SERVICE cfg].

Definition services_stop_order (cfg : Config) : list string :=
  if _desktop_service_enabled cfg
  then [DESKTOP_SERVICE cfg; WM_SERVICE cfg]
  else [WM_SERVICE cfg].

(** ** Status snapshots (lines 127-144) *)

(** [is_running(service_name, status_map)] with the map given. *)
Definition is_running (service_name : string) (status_map : gmap string string) : bool :=
  bool_decide (status_map !! service_name = Some "RUNNING").

(** [stack_running(status_map)] with the map given; [not status_map] holds
    of the empty dict only. *)
Definition stack_running (cfg : Config) (status_map : gmap string string) : bool :=
  if bool_decide (status_map = ∅) then true
  else if _desktop_service_enabled cfg
  then is_running (WM_SERVICE cfg) status_map
       && is_running (DESKTOP_SERVICE cfg) status_map
  else is_running (WM_SERVICE cfg) status_map.

(** ** The process and its environment *)

(** The exceptions the standard library raises on the paths modelled:
    [subprocess.TimeoutExpired], [FileNotFoundError], any other [OSError] of
    a failed spawn, and the [ValueError] of [time.sleep] on a negative
    length. *)
Inductive exn := TimeoutExpired | FileNotFoundError | OSError | ValueError.

Inductive outcome (A : Type) :=
| Returned (a : A)
| Raised (e : exn).
Arguments Returned {A} a.
Arguments Raised {A} e.

(** What the process did to the outside: each [subprocess.run] with its
    argument vector and deadline, each [os.path.exists]. *)
Inductive event :=
| Spawn (args : list string) (timeout : Z)
| PathExists (path : string).

(** Most recent event first. *)
Record World := { now : Z; history : list event }.

(** The module-level mutable state (lines 67-72); [_switch_lock] is [true]
    while the lock is held. *)
Record Globals := {
  _switch_lock : bool;
  _last_switch_ts : Z;
  _current_mode : string;
  _last_apply_ts : Z
}.

Record Sys := { globals : Globals; world : World }.

(** [subprocess.CompletedProcess] with text output. *)
Record completed := { returncode : Z; stdout : string; stderr : string }.

Inductive spawned :=
| Exits (p : completed)
| SpawnFails (e : exn).

(** The environment's answers. A child process asked for in a given world
    would run for [fst] milliseconds (at least one) and end as [snd] says. *)
Record Oracle := {
  respond : World -> list string -> positive * spawned;
  path_exists : World -> string -> bool
}.

(** ** State and exception monad *)

Definition M (A : Type) : Type := Sys -> outcome A * Sys.

Definition ret {A} (a : A) : M A := fun s => (Returned a, s).

Definition raise {A} (e : exn) : M A := fun s => (Raised e, s).

Definition bind {A B} (m : M A) (k : A -> M B) : M B :=
  fun s =>
    match m s with
    | (Returned a, s') => k a s'
    | (Raised e, s') => (Raised e, s')
    end.

Notation "x <- m ;; k" := (bind m (fun x => k))
  (at level 63, m at next level, right associativity).
Notation "m ;;; k" := (bind m (fun _ => k))
  (at level 63, right associativity).

(** [try: body finally: handler] *)
Definition try_finally {A} (body : M A) (handler : M unit) : M A :=
  fun s =>
    match body s with
    | (r, s') =>
        match handler s' with
        | (Returned _, s'') => (r, s'')
        | (Raised e, s'') => (Raised e, s'')
        end
    end.

Definition read_globals : M Globals := fun s => (Returned (globals s), s).

Definition write_globals (f : Globals -> Globals) : M unit :=
  fun s => (Returned tt, {| globals := f (globals s); world := world s |}).

(** [for x in l: body(x)] *)
Fixpoint for_each {A} (body : A -> M unit) (l : list A) : M unit :=
  match l with
  | [] => ret tt
  | x :: l' => body x ;;; for_each body l'
  end.

Definition set_last_switch_ts (t : Z) (g : Globals) : Globals :=
  {| _switch_lock := _switch_lock g; _last_switch_ts := t;
     _current_mode := _current_mode g; _last_apply_ts := _last_apply_ts g |}.

Definition set_current_mode (m : string) (g : Globals) : Globals :=
  {| _switch_lock := _switch_lock g; _last_switch_ts := _last_switch_ts g;
     _current_mode := m; _last_apply_ts := _last_apply_ts g |}.

Definition set_last_apply_ts (t : Z) (g : Globals) : Globals :=
  {| _switch_lock := _switch_lock g; _last_switch_ts := _last_switch_ts g;
     _current_mode := _current_mode g; _last_apply_ts := t |}.

Definition set_switch_lock (b : bool) (g : Globals) : Globals :=
  {| _switch_lock := b; _last_switch_ts := _last_switch_ts g;
     _current_mode := _current_mode g; _last_apply_ts := _last_apply_ts g |}.

(** ** JSON-like payload values *)

Inductive pyval :=
| PyBool (b : bool)
| PyStr (s : string)
| PyFloat (t : Z)
| PyDict (d : gmap string string).

(** [bool(d.get(k))] *)
Definition py_bool (v : option pyval) : bool :=
  match v with
  | None => false
  | Some (PyBool b) => b
  | Some (PyStr s) => PyStr.truthy s
  | Some (PyFloat t) => negb (t =? 0)
  | Some (PyDict d) => negb (bool_decide (d = ∅))
  end.

(** [d.update(u)]: the keys of [u] win. *)
Definition dict_update (d u : gmap string pyval) : gmap string pyval := u ∪ d.

(** ** The program *)

Section Program.

Variable cfg : Config.
Variable orc : Oracle.

(** [time.time()] *)
Definition time_time : M Z := fun s => (Returned (now (world s)), s).

Definition advance (d : Z) (w : World) : World :=
  {| now := now w + d; history := history w |}.

(** [time.sleep(d)] *)
Definition time_sleep (d : Z) : M unit :=
  fun s =>
    if d <? 0 then (Raised ValueError, s)
    else (Returned tt, {| globals := globals s; world := advance d (world s) |}).

(** [os.path.exists(path)] *)
Definition os_path_exists (path : string) : M bool :=
  fun s =>
    (Returned (path_exists orc (world s) path),
     {| globals := globals s;
        world := {| now := now (world s);
                    history := PathExists path :: history (world s) |} |}).

(** [run_cmd(args, timeout)] (lines 98-109): [subprocess.run] raises when
    the child cannot be spawned and raises [TimeoutExpired] when it is
    still running at the deadline; otherwise the exit code and the two
    output texts come back. The child's environment copy is the oracle's
    business. *)
Definition run_cmd (args : list string) (timeout : Z) : M completed :=
  fun s =>
    let w := world s in
    let (d, r) := respond orc w args in
    let after (t : Z) :=
      {| globals := globals s;
         world := {| now := now w + t;
                     history := Spawn args timeout :: history w |} |} in
    match r with
    | SpawnFails e => (Raised e, after (Z.pos d))
    | Exits p =>
        if timeout <? Z.pos d then (Raised TimeoutExpired, after timeout)
        else (Returned p, after (Z.pos d))
    end.

(** The body of the loop of [supervisor_status_map]. *)
Definition status_line (m : gmap string string) (line : string) : gmap string string :=
  match PyStr.split line with
  | name :: state :: _ => <[PyStr.strip name := PyStr.strip state]> m
  | _ => m
  end.

Definition parse_status (out : string) : gmap string string :=
  fold_left status_line (PyStr.splitlines out) ∅.

(** [supervisor_status_map()] (lines 112-124) *)
Definition supervisor_status_map : M (gmap string string) :=
  p <- run_cmd [SUPERVISORCTL cfg; "status"] (sec 5) ;;
  if negb (returncode p =? 0) then ret ∅
  else ret (parse_status (stdout p)).

(** [supervisor_stop] and [supervisor_start] (lines 147-152) *)
Definition supervisor_stop (service_name : string) : M unit :=
  run_cmd [SUPERVISORCTL cfg; "stop"; service_name] (sec 10) ;;; ret tt.

Definition supervisor_start (service_name : string) : M unit :=
  run_cmd [SUPERVISORCTL cfg; "start"; service_name] (sec 10) ;;; ret tt.

(** The [while time.time() < end] loop of [wait_stack_ready]. Every pass
    spawns a process, which takes at least a millisecond, so [end_ - now]
    passes are never exceeded: [fuel] only makes the recursion
    structural (see [wait_stack_loop_fuel]). *)
Fixpoint wait_stack_loop (fuel : nat) (end_ : Z) : M bool :=
  match fuel with
  | O => ret false
  | S fuel' =>
      t <- time_time ;;
      if t <? end_ then
        st <- supervisor_status_map ;;
        if stack_running cfg st then ret true
        else time_sleep (WAIT_POLL_SEC cfg) ;;; wait_stack_loop fuel' end_
      else ret false
  end.

(** [wait_stack_ready(max_sec)] (lines 155-162) *)
Definition wait_stack_ready (max_sec : Z) : M bool :=
  t <- time_time ;;
  let end_ := t + max_sec in
  wait_stack_loop (Z.to_nat (end_ - t)) end_.

(** [desktop_stack(action)] (lines 165-183) *)
Definition desktop_stack (action : string) : M bool :=
  let action := PyStr.strip (PyStr.lower (PyStr.or_else action "")) in
  if String.eqb action "stop" then
    for_each supervisor_stop (services_stop_order cfg) ;;;
    ret true
  else if String.eqb action "start" then
    for_each supervisor_start (services_start_order cfg) ;;;
    wait_stack_ready (WAIT_MAX_SEC cfg)
  else
    for_each supervisor_stop (services_stop_order cfg) ;;;
    for_each supervisor_start (services_start_order cfg) ;;;
    wait_stack_ready (WAIT_MAX_SEC cfg).

(** The custom-command loop of [wait_x_ready] (lines 189-195). *)
Fixpoint wait_x_custom_loop (fuel : nat) (end_ : Z) : M bool :=
  match fuel with
  | O => ret false
  | S fuel' =>
      t <- time_time ;;
      if t <? end_ then
        p <- run_cmd ["/bin/sh"; "-lc"; X_READY_CMD cfg] (sec 3) ;;
        if returncode p =? 0 then ret true
        else time_sleep (X_READY_POLL_SEC cfg) ;;; wait_x_custom_loop fuel' end_
      else ret false
  end.

Definition probes : list (list string) := [["xset"; "q"]; ["xdpyinfo"]].

(** [try: rc, _, _ = run_cmd(cmd, timeout=3)
    except FileNotFoundError: rc = 127] *)
Definition probe_rc (cmd : list string) : M Z :=
  fun s =>
    match run_cmd cmd (sec 3) s with
    | (Returned p, s') => (Returned (returncode p), s')
    | (Raised FileNotFoundError, s') => (Returned 127, s')
    | (Raised e, s') => (Raised e, s')
    end.

(** [for cmd in probes: ...; if rc == 0: return True]; the result says
    whether the function returned from inside the loop. *)
Fixpoint run_probes (cmds : list (list string)) : M bool :=
  match cmds with
  | [] => ret false
  | cmd :: rest =>
      rc <- probe_rc cmd ;;
      if rc =? 0 then ret true else run_probes rest
  end.

(** The default-probe loop of [wait_x_ready] (lines 203-214). *)
Fixpoint wait_x_probe_loop (fuel : nat) (end_ : Z) : M bool :=
  match fuel with
  | O => ret false
  | S fuel' =>
      t <- time_time ;;
      if t <? end_ then
        hit <- run_probes probes ;;
        if hit then ret true
        else time_sleep (X_READY_POLL_SEC cfg) ;;; wait_x_probe_loop fuel' end_
      else ret false
  end.

(** [wait_x_ready(max_sec)] (lines 186-214) *)
Definition wait_x_ready (max_sec : Z) : M bool :=
  if PyStr.truthy (X_READY_CMD cfg) then
    t <- time_time ;;
    let end_ := t + max_sec in
    wait_x_custom_loop (Z.to_nat (end_ - t)) end_
  else
    t <- time_time ;;
    let end_ := t + max_sec in
    wait_x_probe_loop (Z.to_nat (end_ - t)) end_.

(** [set_kiosk_mode(mode)] (lines 217-225) *)
Definition set_kiosk_mode (mode : string) : M (bool * string) :=
  present <- os_path_exists (KIOSK_SCRIPT cfg) ;;
  if negb present then ret (false, "missing_script:" ++ KIOSK_SCRIPT cfg)
  else
    p <- run_cmd [KIOSK_SCRIPT cfg; mode] (sec 20) ;;
    let ok := returncode p =? 0 in
    let msg :=
      if PyStr.truthy (PyStr.strip (stdout p)) then PyStr.strip (stdout p)
      else PyStr.strip (stderr p) in
    ret (ok, if PyStr.truthy msg then msg else "ok").

(** [build_status_payload()] (lines 228-244) *)
Definition build_status_payload : M (gmap string pyval) :=
  st <- supervisor_status_map ;;
  let svc_states : gmap string string :=
    {[ WM_SERVICE cfg := default "UNKNOWN" (st !! WM_SERVICE cfg) ]} in
  let svc_states :=
    if _desktop_service_enabled cfg
    then <[ DESKTOP_SERVICE cfg := default "UNKNOWN" (st !! DESKTOP_SERVICE cfg) ]> svc_states
    else svc_states in
  g <- read_globals ;;
  ret (list_to_map
         [ ("services", PyDict svc_states);
           ("running", PyBool (stack_running cfg st));
           ("last_switch_ts", PyFloat (_last_switch_ts g));
           ("kiosk_script", PyStr (KIOSK_SCRIPT cfg));
           ("wm_service", PyStr (WM_SERVICE cfg));
           ("desktop_service",
             PyStr (if _desktop_service_enabled cfg then DESKTOP_SERVICE cfg else "none"));
           ("current_mode", PyStr (_current_mode g));
           ("last_apply_ts", PyFloat (_last_apply_ts g)) ]).

(** [_switch_lock.acquire(blocking=False)] *)
Definition lock_acquire_nonblocking : M bool :=
  g <- read_globals ;;
  if _switch_lock g then ret false
  else write_globals (set_switch_lock true) ;;; ret true.

(** [_switch_lock.release()] *)
Definition lock_release : M unit := write_globals (set_switch_lock false).

Definition desired_mode_of (want_kiosk : bool) : string :=
  if want_kiosk then "on" else "off".

(** The [try] block of [ensure_ready] (lines 261-311). *)
Definition ensure_ready_locked (force want_kiosk : bool) : M (Z * gmap string pyval) :=
  let desired_mode := desired_mode_of want_kiosk in
  st <- supervisor_status_map ;;
  let running := stack_running cfg st in
  restarted <-
    (if force || negb running then
       ok_stack <- desktop_stack (if force then "restart" else "start") ;;
       t <- time_time ;;
       write_globals (set_last_switch_ts t) ;;;
       (if ok_stack then wait_x_ready (X_READY_MAX_SEC cfg) ;;; ret tt else ret tt) ;;;
       ret true
     else ret false) ;;
  g <- read_globals ;;
  let apply_needed :=
    force || restarted || negb (String.eqb (_current_mode g) desired_mode) in
  applied <-
    (if apply_needed then
       res <- set_kiosk_mode desired_mode ;;
       let '(ok_mode, msg_mode) := res in
       (if ok_mode then
          write_globals (set_current_mode desired_mode) ;;;
          t <- time_time ;;
          write_globals (set_last_apply_ts t) ;;;
          (if 0 <? MODE_APPLY_DELAY_SEC cfg
           then time_sleep (MODE_APPLY_DELAY_SEC cfg) else ret tt)
        else ret tt) ;;;
       ret (ok_mode, msg_mode)
     else ret (true, "skipped")) ;;
  let '(ok_mode, msg_mode) := applied in
  payload <- build_status_payload ;;
  let running_now := py_bool (payload !! "running") in
  g <- read_globals ;;
  let ok_all := running_now && ok_mode && String.eqb (_current_mode g) desired_mode in
  ret (if ok_all then 200 else 202,
       dict_update payload
         (list_to_map
            [ ("ok", PyBool ok_all);
              ("busy", PyBool false);
              ("changed", PyBool restarted);
              ("requested_mode", PyStr desired_mode);
              ("applied", PyBool apply_needed);
              ("mode_ok", PyBool ok_mode);
              ("mode_msg", PyStr msg_mode);
              ("message",
                PyStr (if ok_all then "ready"
                       else if negb running_now then "starting" else "applying")) ])).

(** [ensure_ready(force, want_kiosk)] (lines 247-314) *)
Definition ensure_ready (force want_kiosk : bool) : M (Z * gmap string pyval) :=
  acquired <- lock_acquire_nonblocking ;;
  if negb acquired then
    payload <- build_status_payload ;;
    ret (202,
         dict_update payload
           (list_to_map
              [ ("ok", PyBool false);
                ("busy", PyBool true);
                ("changed", PyBool false);
                ("message", PyStr "switch_in_progress") ]))
  else
    try_finally (ensure_ready_locked force want_kiosk) lock_release.

End Program.

(** * Vocabulary of the specification *)

(** ** Observations on a run *)

(** An invocation of the mode-toggle program: the configured script spawned
    with a mode argument, which is what [set_kiosk_mode] runs. *)
Definition is_toggle (cfg : Config) (e : event) : bool :=
  match e with
  | Spawn args _ =>
      bool_decide (args = [KIOSK_SCRIPT cfg; "on"] ∨ args = [KIOSK_SCRIPT cfg; "off"])
  | PathExists _ => false
  end.

(** Every entry into [set_kiosk_mode] starts with the existence check. *)
Definition is_path_check (e : event) : bool :=
  match e with
  | PathExists _ => true
  | Spawn _ _ => false
  end.

Fixpoint count_events (f : event -> bool) (h : list event) : nat :=
  match h with
  | [] => 0%nat
  | e :: h' => ((if f e then 1 else 0) + count_events f h')%nat
  end.

Definition toggle_calls (cfg : Config) (s : Sys) : nat :=
  count_events (is_toggle cfg) (history (world s)).

Definition apply_attempts (s : Sys) : nat :=
  count_events is_path_check (history (world s)).

(** Events of the supervisor client and the readiness prober. *)
Definition aux_event (cfg : Config) (e : event) : bool :=
  negb (is_toggle cfg e) && negb (is_path_check e).

(** The response fields every result carries. *)
Definition well_formed_result (r : Z * gmap string pyval) : Prop :=
  let (code, payload) := r in
  exists ok busy changed msg,
    payload !! "ok" = Some (PyBool ok)
    /\ payload !! "busy" = Some (PyBool busy)
    /\ payload !! "changed" = Some (PyBool changed)
    /\ payload !! "message" = Some (PyStr msg)
    /\ msg ∈ ["ready"; "starting"; "applying"; "switch_in_progress"]
    /\ code = (if ok then 200 else 202)
    /\ is_Some (payload !! "running")
    /\ is_Some (payload !! "current_mode").

(** A command answers in time: in every world it can be spawned and exits
    within the deadline [run_cmd] is given for it. *)
Definition in_time (orc : Oracle) (args : list string) (timeout : Z) : Prop :=
  forall w, exists d p, respond orc w args = (d, Exits p) /\ Z.pos d <= timeout.

(** A command exceeds its deadline, in every world. *)
Definition too_slow (orc : Oracle) (args : list string) (timeout : Z) : Prop :=
  forall w, exists d p, respond orc w args = (d, Exits p) /\ timeout < Z.pos d.

(** The supervisor commands the program issues, each within its own
    deadline: five seconds for [status], ten for [stop] and for [start]
    (lines 113, 148, 152). *)
Definition supervisor_in_time (cfg : Config) (orc : Oracle) : Prop :=
  in_time orc [SUPERVISORCTL cfg; "status"] (sec 5)
  /\ (forall name, name ∈ services_stop_order cfg ->
        in_time orc [SUPERVISORCTL cfg; "stop"; name] (sec 10))
  /\ (forall name, name ∈ services_start_order cfg ->
        in_time orc [SUPERVISORCTL cfg; "start"; name] (sec 10)).

(** A default probe exits within its three seconds, or its tool is not
    installed, which the loop counts as a failed probe (lines 207-210). *)
Definition probe_answers (orc : Oracle) (cmd : list string) : Prop :=
  forall w,
    (exists d p, respond orc w cmd = (d, Exits p) /\ Z.pos d <= sec 3)
    \/ (exists d, respond orc w cmd = (d, SpawnFails FileNotFoundError)).

(** The probes of the display the program issues, each within its three
    seconds: the custom command when one is configured, the two default
    probes otherwise. *)
Definition probes_in_time (cfg : Config) (orc : Oracle) : Prop :=
  if PyStr.truthy (X_READY_CMD cfg)
  then in_time orc ["/bin/sh"; "-lc"; X_READY_CMD cfg] (sec 3)
  else forall cmd, cmd ∈ probes -> probe_answers orc cmd.

(** The kiosk script within its twenty seconds (line 222), for the mode of
    a request. *)
Definition toggle_in_time (cfg : Config) (orc : Oracle) (want_kiosk : bool) : Prop :=
  in_time orc [KIOSK_SCRIPT cfg; desired_mode_of want_kiosk] (sec 20).

Section Vocabulary.

Variable cfg : Config.
Variable orc : Oracle.

(** [s'] is reached from [s] by supervisor and probe commands only: the
    mode state is as before and no toggle was spawned. *)
Record service_step (s s' : Sys) : Prop := {
  ss_mode : _current_mode (globals s') = _current_mode (globals s);
  ss_apply_ts : _last_apply_ts (globals s') = _last_apply_ts (globals s);
  ss_history : exists evs, history (world s') = (evs ++ history (world s))%list
                           /\ forallb (aux_event cfg) evs = true
}.

Definition services_only {A} (m : M A) : Prop :=
  forall s, service_step s (snd (m s)).

(** *** The three phases of the locked section

    [ensure_ready_locked] is one function in the source; the proofs follow
    it phase by phase. The phases are cut out of its body and their
    composition is the body again ([ensure_ready_locked_phases]). *)

(** Lines 266-275. *)
Definition restart_phase (force running : bool) : M bool :=
  if force || negb running then
    ok_stack <- desktop_stack cfg orc (if force then "restart" else "start") ;;
    t <- time_time ;;
    write_globals (set_last_switch_ts t) ;;;
    (if ok_stack then wait_x_ready cfg orc (X_READY_MAX_SEC cfg) ;;; ret tt else ret tt) ;;;
    ret true
  else ret false.

(** Lines 281-289. *)
Definition apply_phase (apply_needed : bool) (desired_mode : string) : M (bool * string) :=
  if apply_needed then
    res <- set_kiosk_mode cfg orc desired_mode ;;
    let '(ok_mode, msg_mode) := res in
    (if ok_mode then
       write_globals (set_current_mode desired_mode) ;;;
       t <- time_time ;;
       write_globals (set_last_apply_ts t) ;;;
       (if 0 <? MODE_APPLY_DELAY_SEC cfg
        then time_sleep (MODE_APPLY_DELAY_SEC cfg) else ret tt)
     else ret tt) ;;;
    ret (ok_mode, msg_mode)
  else ret (true, "skipped").

(** The argument of [payload.update] on lines 300-309. *)
Definition result_fields (restarted apply_needed : bool) (desired_mode : string)
    (ok_mode : bool) (msg_mode : string) (running_now ok_all : bool) : gmap string pyval :=
  list_to_map
    [ ("ok", PyBool ok_all);
      ("busy", PyBool false);
      ("changed", PyBool restarted);
      ("requested_mode", PyStr desired_mode);
      ("applied", PyBool apply_needed);
      ("mode_ok", PyBool ok_mode);
      ("mode_msg", PyStr msg_mode);
      ("message",
        PyStr (if ok_all then "ready"
               else if negb running_now then "starting" else "applying")) ].

(** Lines 291-311. *)
Definition report_phase (restarted apply_needed : bool) (desired_mode : string)
    (applied : bool * string) : M (Z * gmap string pyval) :=
  let '(ok_mode, msg_mode) := applied in
  payload <- build_status_payload cfg orc ;;
  let running_now := py_bool (payload !! "running") in
  g <- read_globals ;;
  let ok_all := running_now && ok_mode && String.eqb (_current_mode g) desired_mode in
  ret (if ok_all then 200 else 202,
       dict_update payload
         (result_fields restarted apply_needed desired_mode ok_mode msg_mode
            running_now ok_all)).

(** The events and the status payload the phases produce. *)
Definition status_event : event := Spawn [SUPERVISORCTL cfg; "status"] (sec 5).

Definition exists_event : event := PathExists (KIOSK_SCRIPT cfg).

Definition toggle_event (mode : string) : event :=
  Spawn [KIOSK_SCRIPT cfg; mode] (sec 20).

Definition status_payload (st : gmap string string) (g : Globals) : gmap string pyval :=
  list_to_map
    [ ("services",
        PyDict (let wm : gmap string string :=
                  {[ WM_SERVICE cfg := default "UNKNOWN" (st !! WM_SERVICE cfg) ]} in
                if _desktop_service_enabled cfg
                then <[ DESKTOP_SERVICE cfg := default "UNKNOWN" (st !! DESKTOP_SERVICE cfg) ]> wm
                else wm));
      ("running", PyBool (stack_running cfg st));
      ("last_switch_ts", PyFloat (_last_switch_ts g));
      ("kiosk_script", PyStr (KIOSK_SCRIPT cfg));
      ("wm_service", PyStr (WM_SERVICE cfg));
      ("desktop_service",
        PyStr (if _desktop_service_enabled cfg then DESKTOP_SERVICE cfg else "none"));
      ("current_mode", PyStr (_current_mode g));
      ("last_apply_ts", PyFloat (_last_apply_ts g)) ].

End Vocabulary.

(** The companion desktop service is switched off by configuration: the
    variable is absent from the environment, or its value is empty, one of
    the sentinels, or the window-manager service. *)
Definition companion_disabled (cfg : Config) : Prop :=
  (exists environ t, cfg = load_config environ t /\ environ !! "DESKTOP_SERVICE" = None)
  \/ PyStr.strip (DESKTOP_SERVICE cfg) = ""
  \/ PyStr.lower (PyStr.strip (DESKTOP_SERVICE cfg)) ∈ disabled_sentinels
  \/ PyStr.strip (DESKTOP_SERVICE cfg) = WM_SERVICE cfg.

Definition with_lock (b : bool) (s : Sys) : Sys :=
  {| globals := set_switch_lock b (globals s); world := world s |}.

(** The fields a busy answer adds (lines 252-257). *)
Definition busy_fields : gmap string pyval :=
  list_to_map
    [ ("ok", PyBool false);
      ("busy", PyBool true);
      ("changed", PyBool false);
      ("message", PyStr "switch_in_progress") ].

(** A status query in the present world answers, and with a snapshot on
    which the stack counts as running. *)
Definition stack_up (cfg : Config) (orc : Oracle) (s : Sys) : Prop :=
  exists st s1,
    supervisor_status_map cfg orc s = (Returned st, s1) /\ stack_running cfg st = true.

(** The call has to apply the mode: it is forced, or the remembered mode is
    not the desired one, or the status query reports the stack down. *)
Definition needs_apply (cfg : Config) (orc : Oracle) (force want_kiosk : bool) (s : Sys) : Prop :=
  force = true
  \/ _current_mode (globals s) <> desired_mode_of want_kiosk
  \/ exists st s1,
       supervisor_status_map cfg orc s = (Returned st, s1) /\ stack_running cfg st = false.

(** The computation returns, from every state. *)
Definition returns {A} (m : M A) : Prop :=
  forall s, exists a s', m s = (Returned a, s').

(** The payload of a returned result (empty when the call raised), and the
    test that a call returned with a given status hint. *)
Definition payload_of (r : outcome (Z * gmap string pyval) * Sys) : gmap string pyval :=
  match fst r with
  | Returned (_, payload) => payload
  | Raised _ => ∅
  end.

Definition returned_with (code : Z) (r : outcome (Z * gmap string pyval) * Sys) : bool :=
  match fst r with
  | Returned (c, _) => c =? code
  | Raised _ => false
  end.

(** ** A concrete environment for the examples *)

Module Demo.

Definition nl : string := String "010" EmptyString.

(** Has [supervisorctl start] been issued? *)
Definition started (h : list event) : bool :=
  existsb (fun e => match e with
                    | Spawn [_; "start"; _] _ => true
                    | _ => false
                    end) h.

Definition apply_seen (h : list event) : bool := existsb is_path_check h.

Record scenario := {
  up_at_start : bool;        (* the supervisor reports xfce RUNNING from the start *)
  script_present : bool;     (* the kiosk script exists *)
  toggle_rc : Z;             (* exit status of the kiosk script *)
  status_ms : positive;      (* duration of a status query *)
  late_status_ms : positive; (* the same, once an apply was attempted *)
  stop_ms : positive;        (* duration of [supervisorctl stop] *)
  toggle_ms : positive       (* duration of the kiosk script *)
}.

Definition answer (rc : Z) (out : string) : spawned :=
  Exits {| returncode := rc; stdout := out; stderr := "" |}.

Definition demo_respond (sc : scenario) (w : World) (args : list string)
  : positive * spawned :=
  match args with
  | [_; "status"] =>
      (if apply_seen (history w) then late_status_ms sc else status_ms sc,
       answer 0
         (if up_at_start sc || started (history w)
          then "xfce      RUNNING   pid 42, uptime 0:01:00" ++ nl
          else "xfce      STOPPED   Not started" ++ nl))
  | [_; "stop"; _] => (stop_ms sc, answer 0 ("xfce: stopped" ++ nl))
  | [_; "start"; _] => (40%positive, answer 0 ("xfce: started" ++ nl))
  | [_; "on"] | [_; "off"] => (toggle_ms sc, answer (toggle_rc sc) "")
  | _ => (20%positive, answer 0 "")
  end.

Definition oracle (sc : scenario) : Oracle :=
  {| respond := demo_respond sc; path_exists := fun _ _ => script_present sc |}.

(** Everything works and answers quickly. *)
Definition healthy (up : bool) : scenario :=
  {| up_at_start := up; script_present := true; toggle_rc := 0;
     status_ms := 30; late_status_ms := 30; stop_ms := 60; toggle_ms := 150 |}.


(** The kiosk script needs twenty-five seconds; its deadline is twenty. *)
Definition slow_toggle : scenario :=
  {| up_at_start := true; script_present := true; toggle_rc := 0;
     status_ms := 30; late_status_ms := 30; stop_ms := 60; toggle_ms := 25000 |}.

(** [supervisorctl stop] needs twelve seconds; its deadline is ten. *)
Definition slow_stop : scenario :=
  {| up_at_start := true; script_present := true; toggle_rc := 0;
     status_ms := 30; late_status_ms := 30; stop_ms := 12000; toggle_ms := 150 |}.

(** The kiosk script is not installed, and the status query that follows the
    apply attempt needs six seconds. *)
Definition no_script_slow_report : scenario :=
  {| up_at_start := true; script_present := false; toggle_rc := 0;
     status_ms := 30; late_status_ms := 6000; stop_ms := 60; toggle_ms := 150 |}.

(** The kiosk script is not installed. *)
Definition no_script : scenario :=
  {| up_at_start := true; script_present := false; toggle_rc := 0;
     status_ms := 30; late_status_ms := 30; stop_ms := 60; toggle_ms := 150 |}.

Definition cfg : Config := load_config ∅ default_timings.

Definition fresh (locked : bool) (mode : string) : Sys :=
  {| globals := {| _switch_lock := locked; _last_switch_ts := 0;
                   _current_mode := mode; _last_apply_ts := 0 |};
     world := {| now := 1000; history := [] |} |}.

End Demo.

(** A configuration whose environment does not set the companion service. *)
Definition env_companion_absent : gmap string string := {[ "WM_SERVICE" := " xfce4 " ]}.

(** The stack is down and the mode unknown; a non-forced request for kiosk
    mode in a healthy environment. *)
Definition run_cold_start : outcome (Z * gmap string pyval) * Sys :=
  ensure_ready Demo.cfg (Demo.oracle (Demo.healthy false)) false true
    (Demo.fresh false "unknown").

(** A forced request for normal mode while the kiosk script is missing. *)
Definition run_missing_script : outcome (Z * gmap string pyval) * Sys :=
  ensure_ready Demo.cfg (Demo.oracle Demo.no_script) true false (Demo.fresh false "on").

(** A forced request for kiosk mode on a running stack already in it. *)
Definition run_forced : outcome (Z * gmap string pyval) * Sys :=
  ensure_ready Demo.cfg (Demo.oracle (Demo.healthy true)) true true (Demo.fresh false "on").

(** Nothing is quick, but every command meets its own deadline: a stop of
    four seconds, a status query of four, a kiosk script of fifteen. *)
Definition unhurried : Demo.scenario :=
  {| Demo.up_at_start := true; Demo.script_present := true; Demo.toggle_rc := 0;
     Demo.status_ms := 4000; Demo.late_status_ms := 4000;
     Demo.stop_ms := 4000; Demo.toggle_ms := 15000 |}.

(** A forced request for kiosk mode in that environment. *)
Definition run_unhurried : outcome (Z * gmap string pyval) * Sys :=
  ensure_ready Demo.cfg (Demo.oracle unhurried) true true (Demo.fresh false "off").

(** * Further vocabulary: the classes of external events *)

#[global] Instance event_eq_dec : EqDecision event.
Proof. solve_decision. Defined.

Definition stop_event (cfg : Config) (name : string) : event :=
  Spawn [SUPERVISORCTL cfg; "stop"; name] (sec 10).

Definition start_event (cfg : Config) (name : string) : event :=
  Spawn [SUPERVISORCTL cfg; "start"; name] (sec 10).

Definition is_status (cfg : Config) (e : event) : bool :=
  bool_decide (e = status_event cfg).

Definition is_stop (cfg : Config) (e : event) : bool :=
  match e with
  | Spawn [_; _; name] _ => bool_decide (e = stop_event cfg name)
  | _ => false
  end.

Definition is_start (cfg : Config) (e : event) : bool :=
  match e with
  | Spawn [_; _; name] _ => bool_decide (e = start_event cfg name)
  | _ => false
  end.

(** The custom readiness command and the two default probes. *)
Definition custom_probe_event (cfg : Config) : event :=
  Spawn ["/bin/sh"; "-lc"; X_READY_CMD cfg] (sec 3).

Definition is_default_probe (e : event) : bool :=
  bool_decide (e = Spawn ["xset"; "q"] (sec 3))
  || bool_decide (e = Spawn ["xdpyinfo"] (sec 3)).

Definition is_x_probe (cfg : Config) (e : event) : bool :=
  if PyStr.truthy (X_READY_CMD cfg)
  then bool_decide (e = custom_probe_event cfg)
  else is_default_probe e.

(** [s'] is reached from [s] by external actions of class [P] only. *)
Definition only_events (P : event -> bool) (s s' : Sys) : Prop :=
  exists evs,
    history (world s') = (evs ++ history (world s))%list /\ forallb P evs = true.

Definition emits {A} (P : event -> bool) (m : M A) : Prop :=
  forall s, only_events P s (snd (m s)).

(** The events a call added to the history (most recent first). *)
Definition events_since (s s' : Sys) (evs : list event) : Prop :=
  history (world s') = (evs ++ history (world s))%list.

(** The action [desktop_stack] acts on (line 166). *)
Definition normal_action (action : string) : string :=
  PyStr.strip (PyStr.lower (PyStr.or_else action "")).

(** The commands of a restart phase, most recent first: the probes of the
    display, the polls of the stack status, the starts, and the stops when
    the call is forced. *)
Definition restart_events (cfg : Config) (force : bool) (probes polls : list event)
  : list event :=
  (probes ++ polls
   ++ rev (map (start_event cfg) (services_start_order cfg))
   ++ (if force then rev (map (stop_event cfg) (services_stop_order cfg)) else []))%list.

(** Neither a stop nor a start of a service. *)
Definition leaves_services (cfg : Config) (e : event) : bool :=
  negb (is_stop cfg e) && negb (is_start cfg e).

Definition not_stop (cfg : Config) (e : event) : bool := negb (is_stop cfg e).

(** The external actions of one call that took the lock and returned, most
    recent first: the closing status query, the apply, the restart, the
    opening status query. *)
Definition call_events (cfg : Config) (force restarted applied : bool)
    (probes polls apply_evs : list event) : list event :=
  ([status_event cfg]
   ++ (if applied then apply_evs else [])
   ++ (if restarted then restart_events cfg force probes polls else [])
   ++ [status_event cfg])%list.

(** [supervisorctl status] always answers in time, with a failure status. *)
Definition status_fails (cfg : Config) (orc : Oracle) : Prop :=
  forall w, exists d p,
    respond orc w [SUPERVISORCTL cfg; "status"] = (d, Exits p)
    /\ Z.pos d <= sec 5 /\ returncode p <> 0.

(** [supervisorctl status] fails at once; everything else is healthy. *)
Definition failing_status_oracle : Oracle :=
  {| respond := fun w args =>
       match args with
       | [_; "status"] =>
           (30%positive,
            Exits {| returncode := 2; stdout := ""; stderr := "refused" |})
       | _ => respond (Demo.oracle (Demo.healthy true)) w args
       end;
     path_exists := fun _ _ => true |}.

Definition has_returned {A} (r : outcome A) : bool :=
  match r with
  | Returned _ => true
  | Raised _ => false
  end.

(** * Further vocabulary: well-formed supervisor output *)

Fixpoint no_space (s : string) : bool :=
  match s with
  | EmptyString => true
  | String c r => negb (PyStr.isspace c) && no_space r
  end.

Fixpoint no_linebreak (s : string) : bool :=
  match s with
  | EmptyString => true
  | String c r => negb (PyStr.is_linebreak c) && no_linebreak r
  end.

(** One line of [supervisorctl status]: the name, the state and the rest
    (pid, uptime or a reason). *)
Record status_row := { row_name : string; row_state : string; row_rest : string }.

Definition row_ok (r : status_row) : Prop :=
  row_name r <> "" /\ no_space (row_name r) = true
  /\ row_state r <> "" /\ no_space (row_state r) = true
  /\ no_linebreak (row_rest r) = true.

Definition render_row (r : status_row) : string :=
  row_name r ++ " " ++ row_state r ++ " " ++ row_rest r ++ Demo.nl.

Fixpoint render_rows (rows : list status_row) : string :=
  match rows with
  | [] => ""
  | r :: rows' => render_row r ++ render_rows rows'
  end.

(** * Further vocabulary: probing the display *)

(** Neither [xset] nor [xdpyinfo] is installed: spawning a default probe
    fails with [FileNotFoundError]. *)
Definition tools_missing (orc : Oracle) : Prop :=
  forall w cmd, In cmd probes ->
    exists d, respond orc w cmd = (d, SpawnFails FileNotFoundError).

(** The healthy demonstration host, without the two probe tools. *)
Definition no_tools_oracle : Oracle :=
  {| respond := fun w args =>
       match args with
       | ["xset"; "q"] | ["xdpyinfo"] => (5%positive, SpawnFails FileNotFoundError)
       | _ => respond (Demo.oracle (Demo.healthy true)) w args
       end;
     path_exists := fun _ _ => true |}.

(** The last action before [s'] was a probe of the display that exited with
    status 0. *)
Definition probe_succeeded (cfg : Config) (orc : Oracle) (s' : Sys) : Prop :=
  exists sq cmd p,
    run_cmd orc cmd (sec 3) sq = (Returned p, s')
    /\ returncode p = 0
    /\ is_x_probe cfg (Spawn cmd (sec 3)) = true.

(** * The HTTP front (lines 55-63 and 317-435) *)

(** ** Client logging settings (lines 59-62) *)

Record LogConfig := {
  LOG_CLIENT : bool;
  LOG_CLIENT_TTL_SEC : Z;
  LOG_CLIENT_MAX_UA : Z;
  LOG_CLIENT_MAX_REF : Z
}.

Definition log_off_words : list string := ["0"; "false"; "no"; "off"].

(** The switch is read from the environment; the three numbers are read
    with [float(...)] and [int(...)] and given already converted, the
    window in milliseconds. *)
Definition load_log_config (environ : gmap string string) (ttl max_ua max_ref : Z)
  : LogConfig :=
  {| LOG_CLIENT :=
       negb (bool_decide
               (PyStr.lower (PyStr.strip (environ_get environ "TOOLBAR_LOG_CLIENT" "1"))
                ∈ log_off_words));
     LOG_CLIENT_TTL_SEC := ttl;
     LOG_CLIENT_MAX_UA := max_ua;
     LOG_CLIENT_MAX_REF := max_ref |}.

(** ** Strings of the HTTP front *)

(** [s[:k]] for [k >= 0] *)
Fixpoint str_take (k : nat) (s : string) : string :=
  match k, s with
  | S k', String c r => String c (str_take k' r)
  | _, _ => EmptyString
  end.

(** [s.split(sep)] for a separator of one character: never an empty list. *)
Fixpoint split_on (sep : ascii) (s : string) : list string :=
  match s with
  | EmptyString => [EmptyString]
  | String c r =>
      if Ascii.eqb c sep then EmptyString :: split_on sep r
      else match split_on sep r with
           | w :: ws => String c w :: ws
           | [] => [String c EmptyString]
           end
  end.

(** [_clip(s, n)] (lines 317-323); [None] is the absent text. *)
Definition _clip (s : option string) (n : Z) : string :=
  match s with
  | None => ""
  | Some s =>
      if Z.of_nat (String.length s) <=? n then s
      else str_take (Z.to_nat (Z.max 0 (n - 3))) s ++ "..."
  end.

(** ** Requests, and the state of the server *)

(** A request as the handler sees it: [urlparse] and [parse_qs] are the
    library's, so the path and the values of [force] come parsed (no value
    when the query has none; [parse_qs] drops blank ones), the headers are
    a lookup by name, and the peer address is [self.client_address[0]]. *)
Record Request := {
  url_path : string;
  force_values : list string;
  headers : string -> option string;
  client_address : string
}.

(** [self.headers.get(name, dflt)] *)
Definition headers_get (req : Request) (name dflt : string) : string :=
  default dflt (headers req name).

(** One printed line of the client log, field by field (the time stamp of
    [_now_iso] and the quoting of [!r] are left out). *)
Record LogLine := {
  log_ip : string;
  log_path : string;
  log_force : Z;
  log_host : string;
  log_ua : string;
  log_lang : string;
  log_origin : string;
  log_referer : string
}.

(** The process state with the two things the handler adds to it: the
    table [_seen_clients] (line 64) and what went out, most recent first:
    the lines printed and the responses sent. *)
Record Server := {
  sys : Sys;
  _seen_clients : gmap string Z;
  printed : list LogLine;
  sent : list (Z * gmap string pyval)
}.

Definition set_sys (s : Sys) (sv : Server) : Server :=
  {| sys := s; _seen_clients := _seen_clients sv;
     printed := printed sv; sent := sent sv |}.

(** Running a function of the program inside a request. *)
Definition lift {A} (m : M A) (sv : Server) : outcome A * Server :=
  let (r, s') := m (sys sv) in (r, set_sys s' sv).

(** [Handler._send_json(code, payload)] (lines 333-344): the response goes
    out; a peer that has gone is ignored by the source and not modelled. *)
Definition _send_json (code : Z) (payload : gmap string pyval) (sv : Server) : Server :=
  {| sys := sys sv; _seen_clients := _seen_clients sv;
     printed := printed sv; sent := (code, payload) :: sent sv |}.

(** [Handler._client_ip()] (lines 349-357) *)
Definition _client_ip (req : Request) : string :=
  let xff := headers_get req "X-Forwarded-For" "" in
  if PyStr.truthy xff then PyStr.strip (hd "" (split_on "," xff))
  else
    let xri := headers_get req "X-Real-IP" "" in
    if PyStr.truthy xri then PyStr.strip xri
    else client_address req.

(** The key of a client in [_seen_clients] (line 371). *)
Definition client_key (req : Request) : string :=
  _client_ip req ++ "|" ++ headers_get req "User-Agent" "".

(** Lines 380-384: the table after the opportunistic cleanup. *)
Definition cleanup (ttl now : Z) (seen : gmap string Z) : gmap string Z :=
  if 2000 <? Z.of_nat (size seen)
  then filter (fun kv => now - ttl <= kv.2) seen
  else seen.

(** [Handler._maybe_log_client(path, force_flag)] (lines 359-395).
    [_seen_lock] is taken around the update of the table and released
    before the line is printed; requests are taken one at a time here, so
    the lock is always free and is left out. *)
Definition _maybe_log_client (lc : LogConfig) (req : Request) (path : string)
    (force_flag : bool) (sv : Server) : Server :=
  if negb (LOG_CLIENT lc) then sv
  else
    let ip := _client_ip req in
    let ua := headers_get req "User-Agent" "" in
    let ref := PyStr.or_else (headers_get req "Referer" "")
                 (headers_get req "Referrer" "") in
    let origin := headers_get req "Origin" "" in
    let lang := headers_get req "Accept-Language" "" in
    let host := headers_get req "Host" "" in
    let key := ip ++ "|" ++ ua in
    let now := now (world (sys sv)) in
    let last := default 0 (_seen_clients sv !! key) in
    if now - last <? LOG_CLIENT_TTL_SEC lc then sv
    else
      {| sys := sys sv;
         _seen_clients :=
           cleanup (LOG_CLIENT_TTL_SEC lc) now (<[key := now]> (_seen_clients sv));
         printed :=
           {| log_ip := ip; log_path := path;
              log_force := if force_flag then 1 else 0;
              log_host := _clip (Some host) 120;
              log_ua := _clip (Some ua) (LOG_CLIENT_MAX_UA lc);
              log_lang := _clip (Some lang) 120;
              log_origin := _clip (Some origin) 200;
              log_referer := _clip (Some ref) (LOG_CLIENT_MAX_REF lc) |}
           :: printed sv;
         sent := sent sv |}.

(** [force] of a request (line 402). *)
Definition force_of (req : Request) : bool :=
  String.eqb (PyStr.strip (hd "0" (force_values req))) "1".

Section Http.

Variable cfg : Config.
Variable orc : Oracle.
Variable lc : LogConfig.

(** [str(e)] of a raised exception; the text is the library's. *)
Variable str_exn : exn -> string.

(** The [try] block of [do_GET] (lines 399-431). *)
Definition do_GET_body (req : Request) (sv : Server) : outcome unit * Server :=
  let path := url_path req in
  let force := force_of req in
  let sv := _maybe_log_client lc req path force sv in
  if bool_decide (path ∈ ["/"; "/debug"; "/mode"]) then
    match lift (build_status_payload cfg orc) sv with
    | (Returned payload, sv') =>
        (Returned tt,
         _send_json 200 (dict_update payload (list_to_map [("ok", PyBool true)])) sv')
    | (Raised e, sv') => (Raised e, sv')
    end
  else if bool_decide (path ∈ ["/kiosk"; "/hide"]) then
    match lift (ensure_ready cfg orc force true) sv with
    | (Returned (code, payload), sv') => (Returned tt, _send_json code payload sv')
    | (Raised e, sv') => (Raised e, sv')
    end
  else if bool_decide (path ∈ ["/show"; "/desktop"]) then
    match lift (ensure_ready cfg orc force false) sv with
    | (Returned (code, payload), sv') => (Returned tt, _send_json code payload sv')
    | (Raised e, sv') => (Raised e, sv')
    end
  else if bool_decide (path ∈ ["/restart"; "/reset"]) then
    match lift (desktop_stack cfg orc "restart") sv with
    | (Returned _, sv1) =>
        match lift (build_status_payload cfg orc) sv1 with
        | (Returned payload, sv') =>
            (Returned tt,
             _send_json 200
               (dict_update payload
                  (list_to_map [("ok", PyBool true); ("message", PyStr "restarted")]))
               sv')
        | (Raised e, sv') => (Raised e, sv')
        end
    | (Raised e, sv1) => (Raised e, sv1)
    end
  else
    (Returned tt,
     _send_json 404
       (list_to_map [("ok", PyBool false); ("error", PyStr "not_found");
                     ("path", PyStr path)])
       sv).

(** [Handler.do_GET()] (lines 397-435): whatever the block raises is
    answered with status 500. *)
Definition do_GET (req : Request) (sv : Server) : Server :=
  match do_GET_body req sv with
  | (Returned _, sv') => sv'
  | (Raised e, sv') =>
      _send_json 500
        (list_to_map [("ok", PyBool false); ("error", PyStr "exception");
                      ("message", PyStr (str_exn e))])
        sv'
  end.

End Http.

(** The mode routes, the status routes and the restart routes. *)
Definition mode_paths : list string := ["/kiosk"; "/hide"; "/show"; "/desktop"].
Definition status_paths : list string := ["/"; "/debug"; "/mode"].
Definition restart_paths : list string := ["/restart"; "/reset"].

(** A function of the program that writes no global, whatever it returns. *)
Definition keeps_globals {A} (m : M A) : Prop :=
  forall s, globals (snd (m s)) = globals s.

Definition no_comma (s : string) : bool :=
  forallb (fun c => negb (Ascii.eqb c ",")) (list_ascii_of_string s).

(** A request from behind the proxy, and a server that has seen nobody. *)
Definition demo_request (path : string) (force : list string) : Request :=
  {| url_path := path; force_values := force;
     headers := fun name =>
       if String.eqb name "X-Forwarded-For" then Some " 10.0.0.7 , 192.168.1.1"
       else if String.eqb name "X-Real-IP" then Some "192.168.1.1"
       else if String.eqb name "User-Agent" then Some "Mozilla/5.0"
       else None;
     client_address := "127.0.0.1" |}.

Definition demo_log_config : LogConfig := load_log_config ∅ 120000 220 300.

Definition demo_server (locked : bool) (mode : string) : Server :=
  {| sys := {| globals := globals (Demo.fresh locked mode);
               world := {| now := 1700000000000; history := [] |} |};
     _seen_clients := ∅; printed := []; sent := [] |}.

Definition demo_str_exn (e : exn) : string :=
  match e with
  | TimeoutExpired => "timed out"
  | FileNotFoundError => "No such file or directory"
  | OSError => "OS error"
  | ValueError => "sleep length must be non-negative"
  end.

(** * Proofs *)

(** ** The model on sample inputs *)

Example strip_example : PyStr.strip "  xfce4  " = "xfce4".
Proof. reflexivity. Qed.

Example lower_example : PyStr.lower "NoNe" = "none".
Proof. reflexivity. Qed.

Example split_example :
  PyStr.split "xfce      RUNNING   pid 42, uptime 0:01:00"
  = ["xfce"; "RUNNING"; "pid"; "42,"; "uptime"; "0:01:00"].
Proof. reflexivity. Qed.

Example splitlines_example :
  PyStr.splitlines ("a" ++ String "013" (String "010" "b") ++ Demo.nl ++ Demo.nl ++ "c" ++ Demo.nl)
  = ["a"; "b"; ""; "c"].
Proof. reflexivity. Qed.

Example parse_status_example :
  parse_status ("xfce      RUNNING   pid 42, uptime 0:01:00" ++ Demo.nl
                ++ "desk      STOPPED   Not started" ++ Demo.nl ++ "stray" ++ Demo.nl)
  = {[ "xfce" := "RUNNING"; "desk" := "STOPPED" ]}.
Proof. vm_compute. reflexivity. Qed.

Example start_order_pair :
  services_start_order
    (load_config {[ "DESKTOP_SERVICE" := " desk " ]} default_timings) = ["xfce"; "desk"].
Proof. reflexivity. Qed.

Example start_order_sentinel :
  services_start_order
    (load_config {[ "DESKTOP_SERVICE" := "FALSE" ]} default_timings) = ["xfce"].
Proof. reflexivity. Qed.

(** The stack is down: a non-forced request for kiosk mode starts it, probes
    the display, applies the mode and answers 200. *)
Example cold_start_history :
  history (world (snd run_cold_start))
  = [ Spawn ["supervisorctl"; "status"] 5000;
      Spawn ["/data/conf/scripts/kiosk_mode.sh"; "on"] 20000;
      PathExists "/data/conf/scripts/kiosk_mode.sh";
      Spawn ["xset"; "q"] 3000;
      Spawn ["supervisorctl"; "status"] 5000;
      Spawn ["supervisorctl"; "start"; "xfce"] 10000;
      Spawn ["supervisorctl"; "status"] 5000 ].
Proof. vm_compute. reflexivity. Qed.

Example cold_start_result :
  returned_with 200 run_cold_start = true
  /\ payload_of run_cold_start !! "ok" = Some (PyBool true)
  /\ payload_of run_cold_start !! "changed" = Some (PyBool true)
  /\ payload_of run_cold_start !! "requested_mode" = Some (PyStr "on")
  /\ payload_of run_cold_start !! "message" = Some (PyStr "ready").
Proof. repeat split; vm_compute; reflexivity. Qed.

(** ** Monad laws of use in the proofs *)

Lemma bind_inv {A B} (m : M A) (k : A -> M B) s r s' :
  bind m k s = (r, s') ->
  (exists a s1, m s = (Returned a, s1) /\ k a s1 = (r, s'))
  \/ (exists e, m s = (Raised e, s') /\ r = Raised e).
Proof.
  unfold bind. destruct (m s) as [[a|e] s1]; intros H.
  - left. eauto.
  - right. inversion H; subst. eauto.
Qed.

Lemma bind_returned {A B} (m : M A) (k : A -> M B) s a s1 :
  m s = (Returned a, s1) -> bind m k s = k a s1.
Proof. unfold bind. intros ->. reflexivity. Qed.

Lemma bind_raised {A B} (m : M A) (k : A -> M B) s e s1 :
  m s = (Raised e, s1) -> bind m k s = (Raised e, s1).
Proof. unfold bind. intros ->. reflexivity. Qed.

Lemma count_events_app f h1 h2 :
  count_events f (h1 ++ h2)%list = (count_events f h1 + count_events f h2)%nat.
Proof. induction h1 as [|e h1 IH]; simpl; [reflexivity | rewrite IH; lia]. Qed.

Lemma count_events_none f g h :
  forallb g h = true -> (forall e, g e = true -> f e = false) ->
  count_events f h = 0%nat.
Proof.
  intros Hall Hfg. induction h as [|e h IH]; simpl in *; [reflexivity|].
  apply andb_true_iff in Hall as [He Hh]. rewrite (Hfg e He), IH; auto.
Qed.

(** ** The supervisor client and the prober leave the mode alone *)

Section Frame.

Variable cfg : Config.
Variable orc : Oracle.

Lemma service_step_refl s : service_step cfg s s.
Proof. split; auto. exists []. auto. Qed.

Lemma service_step_trans s1 s2 s3 :
  service_step cfg s1 s2 -> service_step cfg s2 s3 -> service_step cfg s1 s3.
Proof.
  intros [M1 T1 (e1 & H1 & A1)] [M2 T2 (e2 & H2 & A2)].
  split; try congruence.
  exists (e2 ++ e1)%list. split.
  - rewrite H2, H1. apply app_assoc.
  - rewrite forallb_app, A1, A2. reflexivity.
Qed.

Lemma service_step_toggles s s' :
  service_step cfg s s' -> toggle_calls cfg s' = toggle_calls cfg s.
Proof.
  intros [_ _ (evs & H & A)]. unfold toggle_calls.
  rewrite H, count_events_app.
  rewrite (count_events_none _ _ _ A); [reflexivity|].
  intros e He. unfold aux_event in He.
  apply andb_true_iff in He as [He _]. now apply negb_true_iff in He.
Qed.

Lemma service_step_attempts s s' :
  service_step cfg s s' -> apply_attempts s' = apply_attempts s.
Proof.
  intros [_ _ (evs & H & A)]. unfold apply_attempts.
  rewrite H, count_events_app.
  rewrite (count_events_none _ _ _ A); [reflexivity|].
  intros e He. unfold aux_event in He.
  apply andb_true_iff in He as [_ He]. now apply negb_true_iff in He.
Qed.

Lemma services_only_ret {A} (a : A) : services_only cfg (ret a).
Proof. intros s. apply service_step_refl. Qed.

Lemma services_only_bind {A B} (m : M A) (k : A -> M B) :
  services_only cfg m -> (forall a, services_only cfg (k a)) -> services_only cfg (bind m k).
Proof.
  intros Hm Hk s. unfold bind. specialize (Hm s).
  destruct (m s) as [[a|e] s1]; simpl in *; [|exact Hm].
  eapply service_step_trans; [exact Hm | apply Hk].
Qed.

Lemma services_only_time : services_only cfg time_time.
Proof. intros s. apply service_step_refl. Qed.

Lemma services_only_sleep d : services_only cfg (time_sleep d).
Proof.
  intros s. unfold time_sleep. destruct (d <? 0); simpl.
  - apply service_step_refl.
  - split; auto. exists []. auto.
Qed.

Lemma services_only_read : services_only cfg read_globals.
Proof. intros s. apply service_step_refl. Qed.

Lemma services_only_run_cmd args timeout :
  aux_event cfg (Spawn args timeout) = true ->
  services_only cfg (run_cmd orc args timeout).
Proof.
  intros Haux s. unfold run_cmd.
  destruct (respond orc (world s) args) as [d [p|e]];
    [destruct (timeout <? Z.pos d)|]; simpl;
    (split; auto; exists [Spawn args timeout]; simpl; rewrite Haux; auto).
Qed.

Lemma aux_status : aux_event cfg (Spawn [SUPERVISORCTL cfg; "status"] (sec 5)) = true.
Proof.
  unfold aux_event. simpl. rewrite bool_decide_eq_false_2; [reflexivity|].
  intros [H|H]; inversion H.
Qed.

Lemma aux_three a b c t : aux_event cfg (Spawn [a; b; c] t) = true.
Proof.
  unfold aux_event. simpl. rewrite bool_decide_eq_false_2; [reflexivity|].
  intros [H|H]; inversion H.
Qed.

Lemma aux_xset : aux_event cfg (Spawn ["xset"; "q"] (sec 3)) = true.
Proof.
  unfold aux_event. simpl. rewrite bool_decide_eq_false_2; [reflexivity|].
  intros [H|H]; inversion H.
Qed.

Lemma aux_xdpyinfo : aux_event cfg (Spawn ["xdpyinfo"] (sec 3)) = true.
Proof.
  unfold aux_event. simpl. rewrite bool_decide_eq_false_2; [reflexivity|].
  intros [H|H]; inversion H.
Qed.

Lemma services_only_status : services_only cfg (supervisor_status_map cfg orc).
Proof.
  unfold supervisor_status_map. apply services_only_bind.
  - apply services_only_run_cmd, aux_status.
  - intros p. destruct (negb _); apply services_only_ret.
Qed.

Lemma services_only_stop name : services_only cfg (supervisor_stop cfg orc name).
Proof.
  unfold supervisor_stop. apply services_only_bind.
  - apply services_only_run_cmd, aux_three.
  - intros _. apply services_only_ret.
Qed.

Lemma services_only_start name : services_only cfg (supervisor_start cfg orc name).
Proof.
  unfold supervisor_start. apply services_only_bind.
  - apply services_only_run_cmd, aux_three.
  - intros _. apply services_only_ret.
Qed.

Lemma services_only_for_each {A} (body : A -> M unit) l :
  (forall x, services_only cfg (body x)) -> services_only cfg (for_each body l).
Proof.
  intros Hb. induction l as [|x l IH]; simpl.
  - apply services_only_ret.
  - apply services_only_bind; [apply Hb | intros _; exact IH].
Qed.

Lemma services_only_wait_stack_loop fuel end_ :
  services_only cfg (wait_stack_loop cfg orc fuel end_).
Proof.
  induction fuel as [|fuel IH]; simpl.
  - apply services_only_ret.
  - apply services_only_bind; [apply services_only_time|]. intros t.
    destruct (t <? end_); [|apply services_only_ret].
    apply services_only_bind; [apply services_only_status|]. intros st.
    destruct (stack_running cfg st); [apply services_only_ret|].
    apply services_only_bind; [apply services_only_sleep | intros _; exact IH].
Qed.

Lemma services_only_wait_stack_ready max_sec :
  services_only cfg (wait_stack_ready cfg orc max_sec).
Proof.
  unfold wait_stack_ready. apply services_only_bind; [apply services_only_time|].
  intros t. apply services_only_wait_stack_loop.
Qed.

Lemma services_only_desktop_stack action :
  services_only cfg (desktop_stack cfg orc action).
Proof.
  unfold desktop_stack.
  repeat match goal with
         | |- services_only cfg (if ?b then _ else _) => destruct b
         | |- services_only cfg (bind _ _) => apply services_only_bind
         | |- forall _, _ => intros ?
         | |- services_only cfg (for_each _ _) =>
             apply services_only_for_each; intros ?;
             first [apply services_only_stop | apply services_only_start]
         | |- services_only cfg (wait_stack_ready _ _ _) => apply services_only_wait_stack_ready
         | |- services_only cfg (ret _) => apply services_only_ret
         end.
Qed.

Lemma services_only_probe_rc cmd :
  aux_event cfg (Spawn cmd (sec 3)) = true -> services_only cfg (probe_rc orc cmd).
Proof.
  intros Haux s. unfold probe_rc.
  pose proof (services_only_run_cmd cmd (sec 3) Haux s) as H.
  destruct (run_cmd orc cmd (sec 3) s) as [[p|[]] s1]; exact H.
Qed.

Lemma services_only_run_probes : services_only cfg (run_probes orc probes).
Proof.
  unfold probes. simpl.
  apply services_only_bind; [apply services_only_probe_rc, aux_xset|].
  intros rc. destruct (rc =? 0); [apply services_only_ret|].
  apply services_only_bind; [apply services_only_probe_rc, aux_xdpyinfo|].
  intros rc'. destruct (rc' =? 0); apply services_only_ret.
Qed.

Lemma services_only_wait_x_ready max_sec :
  services_only cfg (wait_x_ready cfg orc max_sec).
Proof.
  unfold wait_x_ready. destruct (PyStr.truthy _).
  - apply services_only_bind; [apply services_only_time|]. intros t.
    generalize (Z.to_nat (t + max_sec - t)). intros fuel.
    induction fuel as [|fuel IH]; simpl; [apply services_only_ret|].
    apply services_only_bind; [apply services_only_time|]. intros t'.
    destruct (t' <? t + max_sec); [|apply services_only_ret].
    apply services_only_bind; [apply services_only_run_cmd, aux_three|]. intros p.
    destruct (returncode p =? 0); [apply services_only_ret|].
    apply services_only_bind; [apply services_only_sleep | intros _; exact IH].
  - apply services_only_bind; [apply services_only_time|]. intros t.
    generalize (Z.to_nat (t + max_sec - t)). intros fuel.
    induction fuel as [|fuel IH]; simpl; [apply services_only_ret|].
    apply services_only_bind; [apply services_only_time|]. intros t'.
    destruct (t' <? t + max_sec); [|apply services_only_ret].
    apply services_only_bind; [apply services_only_run_probes|]. intros hit.
    destruct hit; [apply services_only_ret|].
    apply services_only_bind; [apply services_only_sleep | intros _; exact IH].
Qed.

End Frame.

(** ** Service registry and stack status *)

Lemma or_else_empty s : PyStr.or_else s "" = s.
Proof. destruct s; reflexivity. Qed.

Lemma truthy_false s : PyStr.truthy s = false <-> s = "".
Proof. destruct s; simpl; split; congruence. Qed.

Lemma desktop_service_enabled_false cfg :
  _desktop_service_enabled cfg = false <->
  PyStr.strip (DESKTOP_SERVICE cfg) = ""
  \/ PyStr.lower (PyStr.strip (DESKTOP_SERVICE cfg)) ∈ disabled_sentinels
  \/ PyStr.strip (DESKTOP_SERVICE cfg) = WM_SERVICE cfg.
Proof.
  unfold _desktop_service_enabled. rewrite or_else_empty.
  destruct (PyStr.truthy (PyStr.strip (DESKTOP_SERVICE cfg))) eqn:Ht; simpl.
  - assert (PyStr.strip (DESKTOP_SERVICE cfg) <> "") as Hne.
    { intros E. apply truthy_false in E. congruence. }
    case_bool_decide as Hs; [tauto|].
    destruct (String.eqb_spec (PyStr.strip (DESKTOP_SERVICE cfg)) (WM_SERVICE cfg)).
    + tauto.
    + split; [discriminate | tauto].
  - apply truthy_false in Ht. tauto.
Qed.

Lemma companion_disabled_not_enabled cfg :
  companion_disabled cfg -> _desktop_service_enabled cfg = false.
Proof.
  intros [(environ & t & -> & Habs)|H]; apply desktop_service_enabled_false.
  - right; left. simpl. unfold environ_get. rewrite Habs. simpl.
    vm_compute. repeat constructor.
  - exact H.
Qed.

(** C8. The stop order is the start order reversed, for every
    configuration; when the companion desktop service is disabled (absent,
    empty or a sentinel) or names the window-manager service, both orders
    are the one-element list of the window-manager service. *)
Theorem stop_order_is_reversed_start_order (cfg : Config) :
  services_stop_order cfg = rev (services_start_order cfg)
  /\ (companion_disabled cfg ->
      length (services_start_order cfg) = 1%nat
      /\ services_stop_order cfg = services_start_order cfg
      /\ services_start_order cfg = [WM_SERVICE cfg]).
Proof.
  split.
  - unfold services_stop_order, services_start_order.
    destruct (_desktop_service_enabled cfg); reflexivity.
  - intros H. apply companion_disabled_not_enabled in H.
    unfold services_stop_order, services_start_order. rewrite H. auto.
Qed.

Lemma stop_order_is_reversed_start_order_witness :
  companion_disabled (load_config env_companion_absent default_timings)
  /\ services_start_order (load_config env_companion_absent default_timings) = ["xfce4"]
  /\ services_stop_order (load_config env_companion_absent default_timings) = ["xfce4"].
Proof.
  assert (companion_disabled (load_config env_companion_absent default_timings)) as H.
  { left. exists env_companion_absent, default_timings. split; reflexivity. }
  split; [exact H|].
  destruct (stop_order_is_reversed_start_order
              (load_config env_companion_absent default_timings)) as [_ Hd].
  destruct (Hd H) as (_ & E1 & E2). rewrite E1, E2. split; reflexivity.
Defined.

Lemma is_running_true name (st : gmap string string) :
  is_running name st = true <-> st !! name = Some "RUNNING".
Proof. unfold is_running. apply bool_decide_eq_true. Qed.

(** C7. [stack_running] is true of the empty snapshot, and of any other
    snapshot exactly when every service of the start order has the status
    RUNNING in it. *)
Theorem stack_running_spec (cfg : Config) (status_map : gmap string string) :
  stack_running cfg status_map = true <->
  status_map = ∅
  \/ Forall (fun name => status_map !! name = Some "RUNNING") (services_start_order cfg).
Proof.
  unfold stack_running, services_start_order.
  case_bool_decide as Hempty.
  - split; auto.
  - destruct (_desktop_service_enabled cfg).
    + rewrite andb_true_iff, !is_running_true. split.
      * intros [H1 H2]. right. repeat constructor; assumption.
      * intros [H|H]; [contradiction|].
        inversion H as [|? ? H1 H']; subst. inversion H' as [|? ? H2 _]; subst. auto.
    + rewrite is_running_true. split.
      * intros H1. right. repeat constructor; assumption.
      * intros [H|H]; [contradiction|]. inversion H; subst. auto.
Qed.

(** ** The three phases of the locked section

    [ensure_ready_locked] is one function in the source; the proofs follow
    it phase by phase. The phases are cut out of its body and their
    composition is the body again ([ensure_ready_locked_phases]). *)

Section Phases.

Variable cfg : Config.
Variable orc : Oracle.

Lemma ensure_ready_locked_phases force want_kiosk :
  ensure_ready_locked cfg orc force want_kiosk =
  (st <- supervisor_status_map cfg orc ;;
   restarted <- restart_phase cfg orc force (stack_running cfg st) ;;
   g <- read_globals ;;
   let apply_needed :=
     force || restarted
     || negb (String.eqb (_current_mode g) (desired_mode_of want_kiosk)) in
   applied <- apply_phase cfg orc apply_needed (desired_mode_of want_kiosk) ;;
   report_phase cfg orc restarted apply_needed (desired_mode_of want_kiosk) applied).
Proof. reflexivity. Qed.

(** *** The status query *)

Lemma status_effect s r s' :
  supervisor_status_map cfg orc s = (r, s') ->
  globals s' = globals s
  /\ history (world s') = status_event cfg :: history (world s).
Proof.
  unfold supervisor_status_map, bind, run_cmd, ret.
  destruct (respond orc (world s) _) as [d [p|e]];
    [destruct (sec 5 <? Z.pos d); [|destruct (negb _)]|];
    intros H; inversion H; subst; simpl; auto.
Qed.

(** The answer depends on the world only, not on the globals. *)
Lemma status_world s1 s2 :
  world s1 = world s2 ->
  fst (supervisor_status_map cfg orc s1) = fst (supervisor_status_map cfg orc s2)
  /\ world (snd (supervisor_status_map cfg orc s1))
     = world (snd (supervisor_status_map cfg orc s2)).
Proof.
  intros Hw. unfold supervisor_status_map, bind, run_cmd, ret. rewrite Hw.
  destruct (respond orc (world s2) _) as [d [p|e]];
    [destruct (sec 5 <? Z.pos d); [|destruct (negb _)]|]; simpl; auto.
Qed.

(** *** The restart phase *)

Lemma services_only_set_switch_ts t :
  services_only cfg (write_globals (set_last_switch_ts t)).
Proof. intros s. split; auto. exists []. auto. Qed.

Lemma services_only_restart_phase force running :
  services_only cfg (restart_phase cfg orc force running).
Proof.
  unfold restart_phase. destruct (force || negb running); [|apply services_only_ret].
  apply services_only_bind; [apply services_only_desktop_stack|]. intros ok_stack.
  apply services_only_bind; [apply services_only_time|]. intros t.
  apply services_only_bind; [apply services_only_set_switch_ts|]. intros _.
  apply services_only_bind; [|intros _; apply services_only_ret].
  destruct ok_stack; [|apply services_only_ret].
  apply services_only_bind;
    [apply services_only_wait_x_ready | intros _; apply services_only_ret].
Qed.

Lemma restart_phase_result force running s b s' :
  restart_phase cfg orc force running s = (Returned b, s') -> b = force || negb running.
Proof.
  unfold restart_phase. destruct (force || negb running).
  - intros H.
    repeat (apply bind_inv in H as [(? & ? & _ & H)|(? & _ & H)]; [|discriminate]).
    inversion H. reflexivity.
  - intros H. inversion H. reflexivity.
Qed.

Lemma restart_phase_idle s :
  restart_phase cfg orc false true s = (Returned false, s).
Proof. reflexivity. Qed.

(** *** The mode applicator *)

Lemma set_kiosk_mode_effect mode s r s' :
  set_kiosk_mode cfg orc mode s = (r, s') ->
  globals s' = globals s
  /\ if path_exists orc (world s) (KIOSK_SCRIPT cfg)
     then history (world s') = toggle_event cfg mode :: exists_event cfg :: history (world s)
     else history (world s') = exists_event cfg :: history (world s)
          /\ now (world s') = now (world s)
          /\ r = Returned (false, "missing_script:" ++ KIOSK_SCRIPT cfg).
Proof.
  unfold set_kiosk_mode, bind, os_path_exists, run_cmd, ret. simpl.
  destruct (path_exists orc (world s) (KIOSK_SCRIPT cfg)); simpl.
  - destruct (respond orc _ _) as [d [p|e]];
      [destruct (sec 20 <? Z.pos d)|];
      intros H; inversion H; subst; simpl; auto.
  - intros H; inversion H; subst; simpl; auto.
Qed.

Lemma apply_phase_skipped desired s :
  apply_phase cfg orc false desired s = (Returned (true, "skipped"), s).
Proof. reflexivity. Qed.

(** What an attempted apply does, read off the answer of [set_kiosk_mode]:
    only its success writes the mode state. *)
Lemma apply_phase_attempted desired s r s' :
  apply_phase cfg orc true desired s = (r, s') ->
  exists rk sk,
    set_kiosk_mode cfg orc desired s = (rk, sk)
    /\ history (world s') = history (world sk)
    /\ match rk with
       | Returned (true, msg) =>
           r = Returned (true, msg)
           /\ globals s' =
              set_last_apply_ts (now (world sk)) (set_current_mode desired (globals s))
       | Returned (false, msg) => r = Returned (false, msg) /\ s' = sk
       | Raised e => r = Raised e /\ s' = sk
       end.
Proof.
  unfold apply_phase. intros H.
  destruct (set_kiosk_mode cfg orc desired s) as [rk sk] eqn:Hk.
  exists rk, sk. split; [reflexivity|].
  pose proof (set_kiosk_mode_effect _ _ _ _ Hk) as [Hg _].
  unfold bind in H. rewrite Hk in H.
  destruct rk as [[[|] msg]|e]; simpl in H.
  - unfold write_globals, time_time, time_sleep, ret in H. simpl in H.
    destruct (0 <? MODE_APPLY_DELAY_SEC cfg) eqn:Hd; simpl in H.
    + assert ((MODE_APPLY_DELAY_SEC cfg <? 0) = false) as Hn by lia.
      rewrite Hn in H. simpl in H. inversion H; subst; simpl.
      rewrite Hg. auto.
    + inversion H; subst; simpl. rewrite Hg. auto.
  - inversion H; subst. auto.
  - inversion H; subst. auto.
Qed.

Lemma is_toggle_event want :
  is_toggle cfg (toggle_event cfg (desired_mode_of want)) = true.
Proof.
  unfold toggle_event, is_toggle. apply bool_decide_eq_true.
  destruct want; simpl; auto.
Qed.

(** *** The report *)

Lemma build_status_payload_eq s :
  build_status_payload cfg orc s =
  match supervisor_status_map cfg orc s with
  | (Returned st, s') => (Returned (status_payload cfg st (globals s')), s')
  | (Raised e, s') => (Raised e, s')
  end.
Proof.
  unfold build_status_payload, bind.
  destruct (supervisor_status_map cfg orc s) as [[st|e] s']; [|reflexivity].
  unfold read_globals, ret, status_payload. simpl.
  destruct (_desktop_service_enabled cfg); reflexivity.
Qed.

Lemma report_phase_eq restarted an desired ok_mode msg_mode s :
  report_phase cfg orc restarted an desired (ok_mode, msg_mode) s =
  match supervisor_status_map cfg orc s with
  | (Returned st, s') =>
      let running_now := stack_running cfg st in
      let ok_all :=
        running_now && ok_mode && String.eqb (_current_mode (globals s')) desired in
      (Returned (if ok_all then 200 else 202,
                 dict_update (status_payload cfg st (globals s'))
                   (result_fields restarted an desired ok_mode msg_mode
                      running_now ok_all)), s')
  | (Raised e, s') => (Raised e, s')
  end.
Proof.
  unfold report_phase, bind. rewrite build_status_payload_eq.
  destruct (supervisor_status_map cfg orc s) as [[st|e] s']; reflexivity.
Qed.

End Phases.

(** ** The shape of every run of [ensure_ready] *)

Section Runs.

Variable cfg : Config.
Variable orc : Oracle.

Lemma service_step_with_lock b s : service_step cfg s (with_lock b s).
Proof. split; auto. exists []. auto. Qed.

Lemma ensure_ready_busy force want s :
  _switch_lock (globals s) = true ->
  ensure_ready cfg orc force want s =
  match supervisor_status_map cfg orc s with
  | (Returned st, s') =>
      (Returned (202, dict_update (status_payload cfg st (globals s')) busy_fields), s')
  | (Raised e, s') => (Raised e, s')
  end.
Proof.
  intros Hl. unfold ensure_ready, lock_acquire_nonblocking, bind at 1 2, read_globals.
  rewrite Hl. unfold ret at 1. simpl. unfold bind. rewrite build_status_payload_eq.
  destruct (supervisor_status_map cfg orc s) as [[st|e] s']; reflexivity.
Qed.

Lemma ensure_ready_free force want s :
  _switch_lock (globals s) = false ->
  ensure_ready cfg orc force want s =
  (fst (ensure_ready_locked cfg orc force want (with_lock true s)),
   with_lock false (snd (ensure_ready_locked cfg orc force want (with_lock true s)))).
Proof.
  intros Hl. unfold ensure_ready, lock_acquire_nonblocking, bind at 1 2 3, read_globals.
  rewrite Hl. unfold write_globals at 1, ret at 1. simpl.
  unfold try_finally, lock_release, write_globals, with_lock.
  destruct (ensure_ready_locked cfg orc force want _) as [r s1]. reflexivity.
Qed.

(** A call that took the lock either is aborted by an exception before the
    apply phase, having run supervisor and probe commands only, or reaches
    the apply phase with [apply_needed] computed from the first snapshot and
    the remembered mode; an exception of the apply phase ends the call, and
    otherwise the report phase gives the result. *)
Lemma ensure_ready_run force want s r s' :
  _switch_lock (globals s) = false ->
  ensure_ready cfg orc force want s = (r, s') ->
  (exists e, r = Raised e /\ service_step cfg s s')
  \/ exists st0 s1 ra s2,
       fst (supervisor_status_map cfg orc s) = Returned st0
       /\ service_step cfg s s1
       /\ let restarted := force || negb (stack_running cfg st0) in
          let apply_needed :=
            force || restarted
            || negb (String.eqb (_current_mode (globals s)) (desired_mode_of want)) in
          apply_phase cfg orc apply_needed (desired_mode_of want) s1 = (ra, s2)
          /\ match ra with
             | Raised e => r = Raised e /\ s' = with_lock false s2
             | Returned applied =>
                 exists s3,
                   report_phase cfg orc restarted apply_needed (desired_mode_of want)
                     applied s2 = (r, s3)
                   /\ s' = with_lock false s3
             end.
Proof.
  intros Hl H. rewrite (ensure_ready_free _ _ _ Hl) in H.
  set (sl := with_lock true s) in *.
  destruct (ensure_ready_locked cfg orc force want sl) as [rb sb] eqn:Hb.
  simpl in H. inversion H; subst r s'; clear H.
  rewrite ensure_ready_locked_phases in Hb.
  pose proof (service_step_with_lock true s) as Hsl. fold sl in Hsl.
  destruct (status_world cfg orc sl s eq_refl) as [Hfst _].
  pose proof (services_only_status cfg orc sl) as Hstep0.
  apply bind_inv in Hb as [(st0 & s0 & H0 & Hb)|(e & H0 & ->)].
  2:{ left. exists e. split; [reflexivity|]. rewrite H0 in Hstep0.
      eapply service_step_trans; [exact Hsl|].
      eapply service_step_trans; [exact Hstep0|]. apply service_step_with_lock. }
  rewrite H0 in Hstep0, Hfst. simpl in Hstep0, Hfst.
  pose proof (services_only_restart_phase cfg orc force (stack_running cfg st0) s0) as Hstep1.
  apply bind_inv in Hb as [(b & s1 & H1 & Hb)|(e & H1 & ->)].
  2:{ left. exists e. split; [reflexivity|]. rewrite H1 in Hstep1.
      eapply service_step_trans; [exact Hsl|].
      eapply service_step_trans; [exact Hstep0|].
      eapply service_step_trans; [exact Hstep1|]. apply service_step_with_lock. }
  rewrite H1 in Hstep1. simpl in Hstep1.
  apply restart_phase_result in H1. subst b.
  assert (service_step cfg s s1) as Hs1.
  { eapply service_step_trans; [exact Hsl|].
    eapply service_step_trans; [exact Hstep0|]. exact Hstep1. }
  right. exists st0, s1.
  unfold bind at 1, read_globals at 1 in Hb. simpl in Hb.
  rewrite (ss_mode _ _ _ Hs1) in Hb.
  apply bind_inv in Hb as [(applied & s2 & H2 & Hb)|(e & H2 & ->)].
  - exists (Returned applied), s2. split; [symmetry; exact Hfst|]. split; [exact Hs1|].
    simpl. split; [exact H2|]. exists sb. auto.
  - exists (Raised e), sb. split; [symmetry; exact Hfst|]. split; [exact Hs1|].
    simpl. auto.
Qed.

End Runs.

Section Effects.

Variable cfg : Config.
Variable orc : Oracle.

(** The fields of a result of the locked section, read back. *)
Lemma result_lookup st g restarted an desired ok_mode msg_mode rn ok_all :
  let payload :=
    dict_update (status_payload cfg st g)
      (result_fields restarted an desired ok_mode msg_mode rn ok_all) in
  payload !! "ok" = Some (PyBool ok_all)
  /\ payload !! "busy" = Some (PyBool false)
  /\ payload !! "changed" = Some (PyBool restarted)
  /\ payload !! "requested_mode" = Some (PyStr desired)
  /\ payload !! "applied" = Some (PyBool an)
  /\ payload !! "mode_ok" = Some (PyBool ok_mode)
  /\ payload !! "mode_msg" = Some (PyStr msg_mode)
  /\ payload !! "message" =
       Some (PyStr (if ok_all then "ready"
                    else if negb rn then "starting" else "applying"))
  /\ payload !! "running" = Some (PyBool (stack_running cfg st))
  /\ payload !! "current_mode" = Some (PyStr (_current_mode g)).
Proof.
  unfold dict_update, result_fields, status_payload. simpl.
  repeat split; simplify_map_eq; reflexivity.
Qed.

Lemma busy_lookup st g :
  let payload := dict_update (status_payload cfg st g) busy_fields in
  payload !! "ok" = Some (PyBool false)
  /\ payload !! "busy" = Some (PyBool true)
  /\ payload !! "changed" = Some (PyBool false)
  /\ payload !! "message" = Some (PyStr "switch_in_progress")
  /\ payload !! "applied" = None
  /\ payload !! "mode_ok" = None
  /\ payload !! "running" = Some (PyBool (stack_running cfg st))
  /\ payload !! "current_mode" = Some (PyStr (_current_mode g)).
Proof.
  unfold dict_update, busy_fields, status_payload. simpl.
  repeat split; simplify_map_eq; reflexivity.
Qed.

(** A returned result of a call that took the lock, spelled out. *)
Lemma ensure_ready_returned force want s code payload s' :
  _switch_lock (globals s) = false ->
  ensure_ready cfg orc force want s = (Returned (code, payload), s') ->
  exists st0 s1 ok_mode msg_mode s2 st s3,
    fst (supervisor_status_map cfg orc s) = Returned st0
    /\ service_step cfg s s1
    /\ let restarted := force || negb (stack_running cfg st0) in
       let apply_needed :=
         force || restarted
         || negb (String.eqb (_current_mode (globals s)) (desired_mode_of want)) in
       apply_phase cfg orc apply_needed (desired_mode_of want) s1
         = (Returned (ok_mode, msg_mode), s2)
       /\ supervisor_status_map cfg orc s2 = (Returned st, s3)
       /\ globals s3 = globals s2
       /\ s' = with_lock false s3
       /\ let ok_all :=
            stack_running cfg st && ok_mode
            && String.eqb (_current_mode (globals s3)) (desired_mode_of want) in
          code = (if ok_all then 200 else 202)
          /\ payload =
             dict_update (status_payload cfg st (globals s3))
               (result_fields restarted apply_needed (desired_mode_of want)
                  ok_mode msg_mode (stack_running cfg st) ok_all).
Proof.
  intros Hl H.
  destruct (ensure_ready_run cfg orc _ _ _ _ _ Hl H)
    as [(e & He & _)|(st0 & s1 & ra & s2 & Hst0 & Hs1 & Hap & Hra)]; [discriminate|].
  destruct ra as [[ok_mode msg_mode]|e]; [|destruct Hra; discriminate].
  destruct Hra as (s3 & Hrep & ->).
  rewrite report_phase_eq in Hrep.
  destruct (supervisor_status_map cfg orc s2) as [[st|e] s3'] eqn:Hsnap;
    [|discriminate].
  simpl in Hrep. inversion Hrep; subst; clear Hrep.
  destruct (status_effect cfg orc _ _ _ Hsnap) as [Hg _].
  exists st0, s1, ok_mode, msg_mode, s2, st, s3. simpl. auto 10.
Qed.

(** How often the apply phase checks for the script and spawns it. *)
Lemma apply_phase_counts an want s1 ra s2 :
  apply_phase cfg orc an (desired_mode_of want) s1 = (ra, s2) ->
  apply_attempts s2 = (apply_attempts s1 + (if an then 1 else 0))%nat
  /\ toggle_calls cfg s2 =
     (toggle_calls cfg s1
      + (if an && path_exists orc (world s1) (KIOSK_SCRIPT cfg) then 1 else 0))%nat.
Proof.
  destruct an.
  - intros H. apply apply_phase_attempted in H as (rk & sk & Hk & Hh & _).
    apply set_kiosk_mode_effect in Hk as [_ Hk].
    unfold apply_attempts, toggle_calls. rewrite Hh. simpl.
    destruct (path_exists orc (world s1) (KIOSK_SCRIPT cfg)).
    + rewrite Hk. cbn [count_events]. rewrite is_toggle_event. simpl. lia.
    + destruct Hk as (-> & _). simpl. lia.
  - rewrite apply_phase_skipped. intros H. inversion H; subst. simpl. lia.
Qed.

(** The apply phase writes the mode state exactly when [set_kiosk_mode]
    reported success. *)
Lemma apply_phase_mode an desired s1 ra s2 :
  apply_phase cfg orc an desired s1 = (ra, s2) ->
  (_current_mode (globals s2) = _current_mode (globals s1)
   /\ _last_apply_ts (globals s2) = _last_apply_ts (globals s1)
   /\ (an = false \/ forall msg, ra <> Returned (true, msg)))
  \/ (an = true
      /\ exists msg sk,
           ra = Returned (true, msg)
           /\ set_kiosk_mode cfg orc desired s1 = (Returned (true, msg), sk)
           /\ _current_mode (globals s2) = desired
           /\ _last_apply_ts (globals s2) = now (world sk)).
Proof.
  destruct an.
  - intros H. apply apply_phase_attempted in H as (rk & sk & Hk & Hh & Hm).
    pose proof (set_kiosk_mode_effect _ _ _ _ _ _ Hk) as [Hg _].
    destruct rk as [[[|] msg]|e].
    + right. split; [reflexivity|]. exists msg, sk. destruct Hm as [-> Hm].
      rewrite Hm. simpl. auto.
    + left. destruct Hm as [-> ->]. rewrite Hg.
      repeat split; auto; try (right; intros m; congruence).
    + left. destruct Hm as [-> ->]. rewrite Hg.
      repeat split; auto; try (right; intros m; congruence).
  - rewrite apply_phase_skipped. intros H. inversion H; subst. left. auto.
Qed.

End Effects.

Section Claims.

Variable cfg : Config.
Variable orc : Oracle.

Lemma report_phase_step restarted an desired applied s2 r s3 :
  report_phase cfg orc restarted an desired applied s2 = (r, s3) ->
  service_step cfg s2 s3.
Proof.
  destruct applied as [ok_mode msg_mode]. rewrite report_phase_eq.
  pose proof (services_only_status cfg orc s2) as Hstep.
  destruct (supervisor_status_map cfg orc s2) as [[st|e] s3']; simpl in *;
    intros H; inversion H; subst; exact Hstep.
Qed.

(** After the apply phase only the closing status query follows. *)
Lemma run_tail restarted an desired (ra : outcome (bool * string)) s2
    (r : outcome (Z * gmap string pyval)) s' :
  match ra with
  | Raised e => r = Raised e /\ s' = with_lock false s2
  | Returned applied =>
      exists s3,
        report_phase cfg orc restarted an desired applied s2 = (r, s3)
        /\ s' = with_lock false s3
  end ->
  service_step cfg s2 s'.
Proof.
  destruct ra as [applied|e].
  - intros (s3 & Hrep & ->). apply report_phase_step in Hrep.
    eapply service_step_trans; [exact Hrep | apply service_step_with_lock].
  - intros [_ ->]. apply service_step_with_lock.
Qed.

Lemma ensure_ready_busy_step force want s r s' :
  _switch_lock (globals s) = true ->
  ensure_ready cfg orc force want s = (r, s') ->
  service_step cfg s s'.
Proof.
  intros Hl. rewrite (ensure_ready_busy _ _ _ _ _ Hl).
  pose proof (services_only_status cfg orc s) as Hstep.
  destruct (supervisor_status_map cfg orc s) as [[st|e] s1]; simpl in *;
    intros H; inversion H; subst; exact Hstep.
Qed.



End Claims.



(** C2. In every result of a call that took the lock, [ok] is the
    conjunction of: the stack running in a snapshot queried after the apply
    phase (the last thing the call does), the mode apply having succeeded or
    having been skipped, and the remembered mode being the desired one. The
    status hint is 200 when [ok] is true and 202 otherwise. After a
    successful apply with the stack running the remembered mode is the
    requested one and the result is [ok] with 200. *)
Theorem ok_field_spec (cfg : Config) (orc : Oracle) force want s code payload s' :
  _switch_lock (globals s) = false ->
  ensure_ready cfg orc force want s = (Returned (code, payload), s') ->
  exists (apply_needed ok_mode : bool) (s1 s_apply s_snap : Sys) (st : gmap string string),
    (* the apply was skipped, or [set_kiosk_mode] answered [ok_mode] *)
    (if apply_needed
     then exists msg sk,
            set_kiosk_mode cfg orc (desired_mode_of want) s1 = (Returned (ok_mode, msg), sk)
            /\ history (world s_apply) = history (world sk)
     else ok_mode = true /\ s_apply = s1)
    (* the snapshot is taken after it and ends the call *)
    /\ supervisor_status_map cfg orc s_apply = (Returned st, s_snap)
    /\ s' = with_lock false s_snap
    /\ payload !! "applied" = Some (PyBool apply_needed)
    /\ payload !! "mode_ok" = Some (PyBool ok_mode)
    /\ payload !! "running" = Some (PyBool (stack_running cfg st))
    /\ payload !! "current_mode" = Some (PyStr (_current_mode (globals s')))
    /\ let ok_all :=
         stack_running cfg st && ok_mode
         && String.eqb (_current_mode (globals s')) (desired_mode_of want) in
       payload !! "ok" = Some (PyBool ok_all)
       /\ code = (if ok_all then 200 else 202)
       /\ (apply_needed = true -> ok_mode = true -> stack_running cfg st = true ->
           _current_mode (globals s') = desired_mode_of want
           /\ ok_all = true /\ code = 200).
Proof.
  intros Hl H.
  destruct (ensure_ready_returned cfg orc _ _ _ _ _ _ Hl H)
    as (st0 & s1 & ok_mode & msg_mode & s2 & st & s3
        & _ & _ & Hap & Hsnap & Hg & -> & Hcode & ->).
  cbv zeta in Hap, Hcode.
  set (an := force || (force || negb (stack_running cfg st0))
             || negb (String.eqb (_current_mode (globals s)) (desired_mode_of want))) in *.
  exists an, ok_mode, s1, s2, s3, st.
  match goal with
  | |- context [dict_update (status_payload _ ?a ?b) (result_fields ?c ?d ?e ?f ?g ?h ?i)] =>
      destruct (result_lookup cfg a b c d e f g h i)
        as (Hok & _ & _ & _ & Happ & Hmok & _ & _ & Hrun & Hcur)
  end.
  simpl in Hok, Happ, Hmok, Hrun, Hcur.
  pose proof (apply_phase_mode cfg orc _ _ _ _ _ Hap) as Hmode.
  split.
  { destruct an.
    - apply apply_phase_attempted in Hap as (rk & sk & Hk & Hh & Hm).
      destruct rk as [[[|] msg]|e].
      + destruct Hm as [Hm _]. inversion Hm; subst. eauto.
      + destruct Hm as [Hm ->]. inversion Hm; subst. eauto.
      + destruct Hm; discriminate.
    - rewrite apply_phase_skipped in Hap. inversion Hap; subst. auto. }
  split; [exact Hsnap|]. split; [reflexivity|].
  split; [exact Happ|]. split; [exact Hmok|]. split; [exact Hrun|].
  split; [exact Hcur|]. simpl.
  split; [exact Hok|]. split; [exact Hcode|].
  intros Han Hmok' Hrun'. subst ok_mode.
  destruct Hmode as [(_ & _ & [Hno|Hno])|(_ & msg & sk & _ & _ & Hcm & _)].
  - congruence.
  - exfalso. apply (Hno msg_mode). reflexivity.
  - rewrite <- Hg in Hcm. rewrite Hcode, Hrun', Hcm, String.eqb_refl. auto.
Qed.

Lemma returned_with_eq code r :
  returned_with code r = true -> r = (Returned (code, payload_of r), snd r).
Proof.
  unfold returned_with, payload_of. destruct r as [[[c p]|e] s]; simpl; [|discriminate].
  intros H. apply Z.eqb_eq in H. subst. reflexivity.
Qed.

Lemma ok_field_spec_witness :
  payload_of run_cold_start !! "ok" = Some (PyBool true)
  /\ _current_mode (globals (snd run_cold_start)) = "on".
Proof.
  assert (returned_with 200 run_cold_start = true) as Hrun by (vm_compute; reflexivity).
  apply returned_with_eq in Hrun.
  destruct (ok_field_spec Demo.cfg (Demo.oracle (Demo.healthy false)) false true
              (Demo.fresh false "unknown") 200 _ _ eq_refl Hrun)
    as (an & ok_mode & s1 & sa & ss & st & _ & _ & _ & _ & _ & _ & _ & Hok & Hcode & _).
  destruct (stack_running Demo.cfg st && ok_mode
            && String.eqb (_current_mode (globals (snd run_cold_start)))
                 (desired_mode_of true)) eqn:Hall;
    [|discriminate].
  split; [exact Hok|].
  apply andb_true_iff in Hall as [_ Hall]. apply String.eqb_eq in Hall. exact Hall.
Defined.

(** C6. [_current_mode] and [_last_apply_ts] are written by [ensure_ready]
    only, and there only after [set_kiosk_mode] reported success: a call
    leaves them as they were unless [set_kiosk_mode], reached through
    supervisor and probe commands alone, answered true, in which case the
    remembered mode is the desired one and the timestamp is the time of that
    answer. In terms of results: with [applied] and [mode_ok] both true the
    remembered mode is the desired one; in every other result (apply
    skipped, apply failed, busy) both are untouched. The other operations
    ([build_status_payload], [desktop_stack], [set_kiosk_mode]) never write
    them. *)
Theorem mode_state_written_only_on_success (cfg : Config) (orc : Oracle) :
  (forall force want s r s',
      ensure_ready cfg orc force want s = (r, s') ->
      (_current_mode (globals s') = _current_mode (globals s)
       /\ _last_apply_ts (globals s') = _last_apply_ts (globals s))
      \/ exists sk msg sk',
           service_step cfg s sk
           /\ set_kiosk_mode cfg orc (desired_mode_of want) sk = (Returned (true, msg), sk')
           /\ _current_mode (globals s') = desired_mode_of want
           /\ _last_apply_ts (globals s') = now (world sk'))
  /\ (forall force want s code payload s',
         ensure_ready cfg orc force want s = (Returned (code, payload), s') ->
         (payload !! "applied" = Some (PyBool true)
          /\ payload !! "mode_ok" = Some (PyBool true) ->
          _current_mode (globals s') = desired_mode_of want)
         /\ (~ (payload !! "applied" = Some (PyBool true)
                /\ payload !! "mode_ok" = Some (PyBool true)) ->
             _current_mode (globals s') = _current_mode (globals s)
             /\ _last_apply_ts (globals s') = _last_apply_ts (globals s)))
  /\ (forall s, globals (snd (build_status_payload cfg orc s)) = globals s)
  /\ (forall action s,
         _current_mode (globals (snd (desktop_stack cfg orc action s)))
           = _current_mode (globals s)
         /\ _last_apply_ts (globals (snd (desktop_stack cfg orc action s)))
            = _last_apply_ts (globals s))
  /\ (forall mode s, globals (snd (set_kiosk_mode cfg orc mode s)) = globals s).
Proof.
  split; [|split; [|split; [|split]]].
  - intros force want s r s' H.
    destruct (_switch_lock (globals s)) eqn:Hl.
    { left. apply ensure_ready_busy_step in H; [|exact Hl].
      split; [apply (ss_mode _ _ _ H) | apply (ss_apply_ts _ _ _ H)]. }
    destruct (ensure_ready_run cfg orc _ _ _ _ _ Hl H)
      as [(e & _ & Hstep)|(st0 & s1 & ra & s2 & _ & Hs1 & Hap & Hra)].
    { left. split; [apply (ss_mode _ _ _ Hstep) | apply (ss_apply_ts _ _ _ Hstep)]. }
    apply run_tail in Hra.
    apply apply_phase_mode in Hap
      as [(Hm & Ht & _)|(_ & msg & sk & _ & Hk & Hm & Ht)].
    + left. rewrite (ss_mode _ _ _ Hra), (ss_apply_ts _ _ _ Hra), Hm, Ht.
      split; [apply (ss_mode _ _ _ Hs1) | apply (ss_apply_ts _ _ _ Hs1)].
    + right. exists s1, msg, sk.
      rewrite (ss_mode _ _ _ Hra), (ss_apply_ts _ _ _ Hra). auto.
  - intros force want s code payload s' H.
    destruct (_switch_lock (globals s)) eqn:Hl.
    { pose proof (ensure_ready_busy_step cfg orc _ _ _ _ _ Hl H) as Hstep.
      rewrite (ensure_ready_busy _ _ _ _ _ Hl) in H.
      destruct (supervisor_status_map cfg orc s) as [[st|e] sq]; [|discriminate].
      inversion H; subst.
      destruct (busy_lookup cfg st (globals s')) as (_ & _ & _ & _ & Ha & _).
      simpl in Ha. split.
      - intros [Happ _]. rewrite Ha in Happ. discriminate.
      - intros _. split; [apply (ss_mode _ _ _ Hstep) | apply (ss_apply_ts _ _ _ Hstep)]. }
    destruct (ensure_ready_returned cfg orc _ _ _ _ _ _ Hl H)
      as (st0 & s1 & ok_mode & msg_mode & s2 & st & s3
          & _ & Hs1 & Hap & _ & Hg & -> & _ & ->).
    cbv zeta in Hap.
    match goal with
    | |- context [dict_update (status_payload _ ?a ?b) (result_fields ?c ?d ?e ?f ?g ?h ?i)] =>
        destruct (result_lookup cfg a b c d e f g h i)
          as (_ & _ & _ & _ & Happ & Hmok & _)
    end.
    simpl in Happ, Hmok. rewrite Happ, Hmok. simpl. rewrite Hg.
    apply apply_phase_mode in Hap
      as [(Hm & Ht & Hno)|(Han & msg & sk & Hra & _ & Hm & _)].
    + split.
      * intros [Ha Ho]. inversion Ha as [Ha']. inversion Ho as [Ho']. subst ok_mode.
        destruct Hno as [Hno|Hno]; [congruence|]. exfalso. apply (Hno msg_mode). reflexivity.
      * intros _. rewrite Hm, Ht.
        split; [apply (ss_mode _ _ _ Hs1) | apply (ss_apply_ts _ _ _ Hs1)].
    + inversion Hra; subst ok_mode msg_mode. rewrite Han. split.
      * intros _. exact Hm.
      * intros Hn. exfalso. apply Hn. auto.
  - intros s. rewrite build_status_payload_eq.
    destruct (supervisor_status_map cfg orc s) as [[st|e] s1] eqn:Hq;
      apply status_effect in Hq as [Hg _]; exact Hg.
  - intros action s. pose proof (services_only_desktop_stack cfg orc action s) as Hstep.
    split; [apply (ss_mode _ _ _ Hstep) | apply (ss_apply_ts _ _ _ Hstep)].
  - intros mode s. destruct (set_kiosk_mode cfg orc mode s) as [r s1] eqn:Hk.
    apply set_kiosk_mode_effect in Hk as [Hg _]. exact Hg.
Qed.

Lemma mode_state_written_only_on_success_witness :
  _current_mode (globals (snd run_cold_start)) = "on".
Proof.
  assert (returned_with 200 run_cold_start = true) as Hrun by (vm_compute; reflexivity).
  apply returned_with_eq in Hrun.
  destruct (mode_state_written_only_on_success Demo.cfg (Demo.oracle (Demo.healthy false)))
    as (_ & Hres & _).
  destruct (Hres false true (Demo.fresh false "unknown") 200 _ _ Hrun) as [Hset _].
  apply Hset. split; vm_compute; reflexivity.
Defined.

(** C10. The [applied] field of a result of a call that took the lock is
    [apply_needed], that is [force or changed or current_mode != desired],
    where [changed] is true exactly when the call is forced or the opening
    status query does not show the stack running. It says whether the apply
    was attempted, not whether it succeeded. With [applied] true
    [set_kiosk_mode] ran once for the requested mode (one existence check,
    and one toggle if the script was there) and [mode_ok] and [mode_msg]
    are what it answered; with [applied] false it did not run: nothing was
    checked or toggled, the remembered mode is as before and [mode_ok] is
    true with the message [skipped]. So [mode_ok] false occurs only with
    [applied] true, and then [ok] is false; with the kiosk script missing
    every attempted apply is reported as [applied] true, [mode_ok] false,
    [ok] false. *)
Theorem applied_reports_attempt_not_success (cfg : Config) (orc : Oracle)
    force want s code payload s' :
  _switch_lock (globals s) = false ->
  ensure_ready cfg orc force want s = (Returned (code, payload), s') ->
  exists (st0 : gmap string string) (applied mode_ok ok : bool) (msg : string),
    fst (supervisor_status_map cfg orc s) = Returned st0
    /\ applied = force || (force || negb (stack_running cfg st0))
                 || negb (String.eqb (_current_mode (globals s)) (desired_mode_of want))
    /\ payload !! "changed" = Some (PyBool (force || negb (stack_running cfg st0)))
    /\ payload !! "applied" = Some (PyBool applied)
    /\ payload !! "mode_ok" = Some (PyBool mode_ok)
    /\ payload !! "mode_msg" = Some (PyStr msg)
    /\ payload !! "ok" = Some (PyBool ok)
    /\ (if applied
        then exists sk sk',
               set_kiosk_mode cfg orc (desired_mode_of want) sk
                 = (Returned (mode_ok, msg), sk')
               /\ apply_attempts s' = S (apply_attempts s)
               /\ toggle_calls cfg s' =
                  (toggle_calls cfg s
                   + (if path_exists orc (world sk) (KIOSK_SCRIPT cfg) then 1 else 0))%nat
        else mode_ok = true /\ msg = "skipped"
             /\ apply_attempts s' = apply_attempts s
             /\ toggle_calls cfg s' = toggle_calls cfg s
             /\ _current_mode (globals s') = _current_mode (globals s))
    /\ (mode_ok = false -> applied = true /\ ok = false)
    /\ (applied = true -> mode_ok = true ->
        _current_mode (globals s') = desired_mode_of want)
    /\ (applied = true ->
        (forall w, path_exists orc w (KIOSK_SCRIPT cfg) = false) ->
        mode_ok = false /\ ok = false).
Proof.
  intros Hl H.
  destruct (ensure_ready_returned cfg orc _ _ _ _ _ _ Hl H)
    as (st0 & s1 & ok_mode & msg_mode & s2 & st & s3
        & Hst0 & Hs1 & Hap & Hsnap & Hg & -> & _ & ->).
  cbv zeta in Hap.
  set (an := force || (force || negb (stack_running cfg st0))
             || negb (String.eqb (_current_mode (globals s)) (desired_mode_of want))) in *.
  match goal with
  | |- context [dict_update (status_payload _ ?a ?b) (result_fields ?c ?d ?e ?f ?g ?h ?i)] =>
      destruct (result_lookup cfg a b c d e f g h i)
        as (Hok & _ & Hch & _ & Happ & Hmok & Hmsg & _)
  end.
  simpl in Hok, Hch, Happ, Hmok, Hmsg.
  eexists st0, an, ok_mode, _, msg_mode.
  split; [exact Hst0|]. split; [reflexivity|]. split; [exact Hch|].
  split; [exact Happ|]. split; [exact Hmok|]. split; [exact Hmsg|]. split; [exact Hok|].
  pose proof (apply_phase_counts cfg orc _ _ _ _ _ Hap) as [Hcount Htog].
  pose proof (services_only_status cfg orc s2) as Hq. rewrite Hsnap in Hq. simpl in Hq.
  assert (apply_attempts (with_lock false s3) = apply_attempts s3) as Ha3 by reflexivity.
  assert (toggle_calls cfg (with_lock false s3) = toggle_calls cfg s3) as Ht3 by reflexivity.
  assert (_current_mode (globals (with_lock false s3)) = _current_mode (globals s2)) as Hm3
    by (simpl; rewrite Hg; reflexivity).
  rewrite Ha3, Ht3, Hm3.
  rewrite (service_step_attempts _ _ _ Hq), (service_step_toggles _ _ _ Hq), Hcount, Htog.
  rewrite (service_step_attempts _ _ _ Hs1), (service_step_toggles _ _ _ Hs1).
  clearbody an. clear Hcount Htog Ha3 Ht3 Hm3 Hok Hch Happ Hmok Hmsg.
  destruct an.
  - apply apply_phase_attempted in Hap as (rk & sk & Hk & _ & Hrk).
    assert (rk = Returned (ok_mode, msg_mode)
            /\ (ok_mode = true -> _current_mode (globals s2) = desired_mode_of want))
      as [-> Hset].
    { destruct rk as [[[] msg]|e].
      - destruct Hrk as [Hr Hgl]. inversion Hr; subst. split; [reflexivity|].
        intros _. rewrite Hgl. reflexivity.
      - destruct Hrk as [Hr _]. inversion Hr; subst. split; [reflexivity | discriminate].
      - destruct Hrk as [Hr _]. discriminate. }
    split.
    { exists s1, sk. split; [exact Hk|]. split; [lia|]. simpl. reflexivity. }
    split.
    { intros ->. rewrite andb_false_r. auto. }
    split; [intros _; exact Hset|].
    intros _ Hmissing.
    apply set_kiosk_mode_effect in Hk as [_ Hk]. rewrite Hmissing in Hk.
    destruct Hk as (_ & _ & Hk). inversion Hk; subst.
    rewrite andb_false_r. auto.
  - rewrite apply_phase_skipped in Hap. inversion Hap; subst.
    split.
    { split; [reflexivity|]. split; [reflexivity|]. split; [lia|]. split; [simpl; lia|].
      apply (ss_mode _ _ _ Hs1). }
    split; [discriminate|]. split; discriminate.
Qed.

Lemma applied_reports_attempt_not_success_witness :
  payload_of run_missing_script !! "applied" = Some (PyBool true)
  /\ payload_of run_missing_script !! "mode_ok" = Some (PyBool false)
  /\ payload_of run_missing_script !! "ok" = Some (PyBool false)
  /\ apply_attempts (snd run_missing_script) = 1%nat
  /\ toggle_calls Demo.cfg (snd run_missing_script) = 0%nat.
Proof.
  assert (returned_with 202 run_missing_script = true) as Hrun by (vm_compute; reflexivity).
  apply returned_with_eq in Hrun.
  destruct (applied_reports_attempt_not_success Demo.cfg (Demo.oracle Demo.no_script)
              true false (Demo.fresh false "on") 202 _ _ eq_refl Hrun)
    as (st0 & applied & mode_ok & ok & msg & _ & Han & _ & Ha & Hm & _ & Ho & Hif & _ & _
        & Hmiss).
  simpl in Han. subst applied.
  destruct (Hmiss eq_refl (fun _ => eq_refl)) as [-> ->].
  destruct Hif as (sk & sk' & _ & Hn & Ht).
  split; [exact Ha|]. split; [exact Hm|]. split; [exact Ho|].
  split; [exact Hn | exact Ht].
Defined.

(** ** Calls that meet a held lock *)




(** ** The fuel of the polling loops is never used up

    Every pass of a polling loop spawns a process, which moves the clock by
    a millisecond at least, so a loop entered with [end_ - now] units of fuel
    leaves through its [time.time() < end] test: more fuel changes
    nothing. *)

Section Fuel.

Variable cfg : Config.
Variable orc : Oracle.

Lemma run_cmd_time args timeout s p s1 :
  run_cmd orc args timeout s = (Returned p, s1) ->
  now (world s) + 1 <= now (world s1).
Proof.
  unfold run_cmd. destruct (respond orc (world s) args) as [d [q|e]];
    [destruct (timeout <? Z.pos d)|]; intros H; inversion H; subst; simpl; lia.
Qed.

Lemma sleep_time d s u s1 :
  time_sleep d s = (Returned u, s1) -> now (world s) <= now (world s1).
Proof.
  unfold time_sleep. destruct (d <? 0) eqn:Hd; intros H; inversion H; subst; simpl; lia.
Qed.

Lemma status_time s st s1 :
  supervisor_status_map cfg orc s = (Returned st, s1) ->
  now (world s) + 1 <= now (world s1).
Proof.
  unfold supervisor_status_map. intros H.
  apply bind_inv in H as [(p & s2 & Hrun & H)|(e & _ & H)]; [|discriminate].
  apply run_cmd_time in Hrun. destruct (negb _); inversion H; subst; exact Hrun.
Qed.

Lemma probe_rc_time cmd s rc s1 :
  probe_rc orc cmd s = (Returned rc, s1) -> now (world s) + 1 <= now (world s1).
Proof.
  unfold probe_rc, run_cmd. destruct (respond orc (world s) cmd) as [d [q|e]];
    [destruct (sec 3 <? Z.pos d)|destruct e];
    intros H; inversion H; subst; simpl; lia.
Qed.

Lemma run_probes_time s hit s1 :
  run_probes orc probes s = (Returned hit, s1) -> now (world s) + 1 <= now (world s1).
Proof.
  unfold probes. simpl. intros H.
  apply bind_inv in H as [(rc & s2 & H1 & H)|(e & _ & H)]; [|discriminate].
  apply probe_rc_time in H1. destruct (rc =? 0).
  - inversion H; subst. exact H1.
  - apply bind_inv in H as [(rc' & s3 & H2 & H)|(e & _ & H)]; [|discriminate].
    apply probe_rc_time in H2. destruct (rc' =? 0); inversion H; subst; lia.
Qed.

Lemma wait_stack_loop_step fuel end_ s :
  wait_stack_loop cfg orc (S fuel) end_ s =
  if now (world s) <? end_ then
    match supervisor_status_map cfg orc s with
    | (Returned st, s1) =>
        if stack_running cfg st then (Returned true, s1)
        else match time_sleep (WAIT_POLL_SEC cfg) s1 with
             | (Returned _, s2) => wait_stack_loop cfg orc fuel end_ s2
             | (Raised e, s2) => (Raised e, s2)
             end
    | (Raised e, s1) => (Raised e, s1)
    end
  else (Returned false, s).
Proof.
  cbn [wait_stack_loop]. unfold bind at 1, time_time.
  destruct (now (world s) <? end_); [|reflexivity].
  unfold bind at 1. destruct (supervisor_status_map cfg orc s) as [[st|e] s1]; [|reflexivity].
  destruct (stack_running cfg st); reflexivity.
Qed.

Lemma wait_stack_loop_fuel fuel1 fuel2 end_ s :
  end_ - now (world s) <= Z.of_nat fuel1 ->
  end_ - now (world s) <= Z.of_nat fuel2 ->
  wait_stack_loop cfg orc fuel1 end_ s = wait_stack_loop cfg orc fuel2 end_ s.
Proof.
  revert fuel2 s. induction fuel1 as [|fuel1 IH]; intros [|fuel2] s H1 H2.
  - reflexivity.
  - rewrite wait_stack_loop_step.
    assert ((now (world s) <? end_) = false) as -> by lia. reflexivity.
  - rewrite wait_stack_loop_step.
    assert ((now (world s) <? end_) = false) as -> by lia. reflexivity.
  - rewrite !wait_stack_loop_step.
    destruct (now (world s) <? end_); [|reflexivity].
    destruct (supervisor_status_map cfg orc s) as [[st|e] s1] eqn:Hq; [|reflexivity].
    apply status_time in Hq.
    destruct (stack_running cfg st); [reflexivity|].
    destruct (time_sleep (WAIT_POLL_SEC cfg) s1) as [[u|e] s2] eqn:Hs; [|reflexivity].
    apply sleep_time in Hs. apply IH; lia.
Qed.

Lemma wait_x_custom_loop_step fuel end_ s :
  wait_x_custom_loop cfg orc (S fuel) end_ s =
  if now (world s) <? end_ then
    match run_cmd orc ["/bin/sh"; "-lc"; X_READY_CMD cfg] (sec 3) s with
    | (Returned p, s1) =>
        if returncode p =? 0 then (Returned true, s1)
        else match time_sleep (X_READY_POLL_SEC cfg) s1 with
             | (Returned _, s2) => wait_x_custom_loop cfg orc fuel end_ s2
             | (Raised e, s2) => (Raised e, s2)
             end
    | (Raised e, s1) => (Raised e, s1)
    end
  else (Returned false, s).
Proof.
  cbn [wait_x_custom_loop]. unfold bind at 1, time_time.
  destruct (now (world s) <? end_); [|reflexivity].
  unfold bind at 1. destruct (run_cmd orc ["/bin/sh"; "-lc"; X_READY_CMD cfg] (sec 3) s) as [[p|e] s1]; [|reflexivity].
  destruct (returncode p =? 0); reflexivity.
Qed.

Lemma wait_x_custom_loop_fuel fuel1 fuel2 end_ s :
  end_ - now (world s) <= Z.of_nat fuel1 ->
  end_ - now (world s) <= Z.of_nat fuel2 ->
  wait_x_custom_loop cfg orc fuel1 end_ s = wait_x_custom_loop cfg orc fuel2 end_ s.
Proof.
  revert fuel2 s. induction fuel1 as [|fuel1 IH]; intros [|fuel2] s H1 H2.
  - reflexivity.
  - rewrite wait_x_custom_loop_step.
    assert ((now (world s) <? end_) = false) as -> by lia. reflexivity.
  - rewrite wait_x_custom_loop_step.
    assert ((now (world s) <? end_) = false) as -> by lia. reflexivity.
  - rewrite !wait_x_custom_loop_step.
    destruct (now (world s) <? end_); [|reflexivity].
    destruct (run_cmd orc ["/bin/sh"; "-lc"; X_READY_CMD cfg] (sec 3) s) as [[p|e] s1] eqn:Hq; [|reflexivity].
    apply run_cmd_time in Hq.
    destruct (returncode p =? 0); [reflexivity|].
    destruct (time_sleep (X_READY_POLL_SEC cfg) s1) as [[u|e] s2] eqn:Hs; [|reflexivity].
    apply sleep_time in Hs. apply IH; lia.
Qed.

Lemma wait_x_probe_loop_step fuel end_ s :
  wait_x_probe_loop cfg orc (S fuel) end_ s =
  if now (world s) <? end_ then
    match run_probes orc probes s with
    | (Returned hit, s1) =>
        if hit then (Returned true, s1)
        else match time_sleep (X_READY_POLL_SEC cfg) s1 with
             | (Returned _, s2) => wait_x_probe_loop cfg orc fuel end_ s2
             | (Raised e, s2) => (Raised e, s2)
             end
    | (Raised e, s1) => (Raised e, s1)
    end
  else (Returned false, s).
Proof.
  cbn [wait_x_probe_loop]. unfold bind at 1, time_time.
  destruct (now (world s) <? end_); [|reflexivity].
  unfold bind at 1. destruct (run_probes orc probes s) as [[hit|e] s1]; [|reflexivity].
  destruct (hit); reflexivity.
Qed.

Lemma wait_x_probe_loop_fuel fuel1 fuel2 end_ s :
  end_ - now (world s) <= Z.of_nat fuel1 ->
  end_ - now (world s) <= Z.of_nat fuel2 ->
  wait_x_probe_loop cfg orc fuel1 end_ s = wait_x_probe_loop cfg orc fuel2 end_ s.
Proof.
  revert fuel2 s. induction fuel1 as [|fuel1 IH]; intros [|fuel2] s H1 H2.
  - reflexivity.
  - rewrite wait_x_probe_loop_step.
    assert ((now (world s) <? end_) = false) as -> by lia. reflexivity.
  - rewrite wait_x_probe_loop_step.
    assert ((now (world s) <? end_) = false) as -> by lia. reflexivity.
  - rewrite !wait_x_probe_loop_step.
    destruct (now (world s) <? end_); [|reflexivity].
    destruct (run_probes orc probes s) as [[hit|e] s1] eqn:Hq; [|reflexivity].
    apply run_probes_time in Hq.
    destruct (hit); [reflexivity|].
    destruct (time_sleep (X_READY_POLL_SEC cfg) s1) as [[u|e] s2] eqn:Hs; [|reflexivity].
    apply sleep_time in Hs. apply IH; lia.
Qed.

(** [wait_stack_ready] with any larger amount of fuel is the same function. *)
Lemma wait_stack_ready_fuel max_sec fuel s :
  max_sec <= Z.of_nat fuel ->
  wait_stack_ready cfg orc max_sec s
  = wait_stack_loop cfg orc fuel (now (world s) + max_sec) s.
Proof.
  intros H. unfold wait_stack_ready, bind, time_time.
  apply wait_stack_loop_fuel; lia.
Qed.

End Fuel.

(** ** Calls whose commands answer in time *)

Section Deadlines.

Variable cfg : Config.
Variable orc : Oracle.

Lemma returns_ret {A} (a : A) : returns (ret a).
Proof. intros s. eexists _, _. reflexivity. Qed.

Lemma returns_bind {A B} (m : M A) (k : A -> M B) :
  returns m -> (forall a, returns (k a)) -> returns (bind m k).
Proof.
  intros Hm Hk s. destruct (Hm s) as (a & s1 & H1). destruct (Hk a s1) as (b & s2 & H2).
  exists b, s2. unfold bind. rewrite H1. exact H2.
Qed.

Lemma returns_time : returns time_time.
Proof. intros s. eexists _, _. reflexivity. Qed.

Lemma returns_sleep d : 0 <= d -> returns (time_sleep d).
Proof.
  intros Hd s. unfold time_sleep. assert ((d <? 0) = false) as -> by lia.
  eexists _, _. reflexivity.
Qed.

Lemma returns_read : returns read_globals.
Proof. intros s. eexists _, _. reflexivity. Qed.

Lemma returns_write f : returns (write_globals f).
Proof. intros s. eexists _, _. reflexivity. Qed.

Lemma returns_run_cmd args timeout :
  in_time orc args timeout -> returns (run_cmd orc args timeout).
Proof.
  intros Hin s. unfold run_cmd.
  destruct (Hin (world s)) as (d & p & -> & Hd).
  assert ((timeout <? Z.pos d) = false) as -> by lia.
  eexists _, _. reflexivity.
Qed.

Lemma returns_for_each {A} (body : A -> M unit) l :
  (forall x, x ∈ l -> returns (body x)) -> returns (for_each body l).
Proof.
  induction l as [|x l IH]; intros Hb; simpl.
  - apply returns_ret.
  - apply returns_bind.
    + apply Hb. left.
    + intros _. apply IH. intros y Hy. apply Hb. right. exact Hy.
Qed.

Lemma returns_probe_rc cmd : probe_answers orc cmd -> returns (probe_rc orc cmd).
Proof.
  intros Hp s. unfold probe_rc, run_cmd.
  destruct (Hp (world s)) as [(d & p & -> & Hd)|(d & ->)].
  - assert ((sec 3 <? Z.pos d) = false) as -> by lia. eexists _, _. reflexivity.
  - eexists _, _. reflexivity.
Qed.

Lemma returns_set_kiosk_mode mode :
  in_time orc [KIOSK_SCRIPT cfg; mode] (sec 20) -> returns (set_kiosk_mode cfg orc mode).
Proof.
  intros Hin. unfold set_kiosk_mode. apply returns_bind.
  - intros s. eexists _, _. reflexivity.
  - intros present. destruct (negb present); [apply returns_ret|].
    apply returns_bind; [|intros p; apply returns_ret].
    apply returns_run_cmd, Hin.
Qed.

Lemma returns_set_kiosk_mode_missing mode :
  (forall w, path_exists orc w (KIOSK_SCRIPT cfg) = false) ->
  returns (set_kiosk_mode cfg orc mode).
Proof.
  intros Hmissing s. unfold set_kiosk_mode, bind, os_path_exists.
  rewrite Hmissing. eexists _, _. reflexivity.
Qed.

(** The kiosk script exists and exceeds its deadline: [set_kiosk_mode]
    raises. *)
Lemma set_kiosk_mode_too_slow mode s :
  too_slow orc [KIOSK_SCRIPT cfg; mode] (sec 20) ->
  path_exists orc (world s) (KIOSK_SCRIPT cfg) = true ->
  fst (set_kiosk_mode cfg orc mode s) = Raised TimeoutExpired.
Proof.
  intros Hslow Hp. unfold set_kiosk_mode, bind, os_path_exists. rewrite Hp. simpl.
  unfold run_cmd. simpl.
  match goal with
  | |- context [respond orc ?w ?a] => destruct (Hslow w) as (d & p & -> & Hd)
  end.
  assert ((sec 20 <? Z.pos d) = true) as -> by lia. reflexivity.
Qed.

(** *** What a call does once the lock is taken *)

Lemma ensure_ready_opening_raises force want s e s0 :
  _switch_lock (globals s) = false ->
  supervisor_status_map cfg orc (with_lock true s) = (Raised e, s0) ->
  ensure_ready cfg orc force want s = (Raised e, with_lock false s0).
Proof.
  intros Hl Hq. rewrite (ensure_ready_free _ _ _ _ _ Hl).
  rewrite ensure_ready_locked_phases, (bind_raised _ _ _ _ _ Hq). reflexivity.
Qed.

Lemma ensure_ready_restart_raises force want s st0 s0 e s1 :
  _switch_lock (globals s) = false ->
  supervisor_status_map cfg orc (with_lock true s) = (Returned st0, s0) ->
  restart_phase cfg orc force (stack_running cfg st0) s0 = (Raised e, s1) ->
  ensure_ready cfg orc force want s = (Raised e, with_lock false s1).
Proof.
  intros Hl Hq Hr. rewrite (ensure_ready_free _ _ _ _ _ Hl).
  rewrite ensure_ready_locked_phases, (bind_returned _ _ _ _ _ Hq).
  rewrite (bind_raised _ _ _ _ _ Hr). reflexivity.
Qed.

Lemma ensure_ready_from_apply force want s st0 s0 b s1 r s' :
  _switch_lock (globals s) = false ->
  supervisor_status_map cfg orc (with_lock true s) = (Returned st0, s0) ->
  restart_phase cfg orc force (stack_running cfg st0) s0 = (Returned b, s1) ->
  ensure_ready cfg orc force want s = (r, s') ->
  exists ra s2,
    apply_phase cfg orc
      (force || b
       || negb (String.eqb (_current_mode (globals s1)) (desired_mode_of want)))
      (desired_mode_of want) s1 = (ra, s2)
    /\ service_step cfg s2 s'.
Proof.
  intros Hl Hq Hr H. rewrite (ensure_ready_free _ _ _ _ _ Hl) in H.
  destruct (ensure_ready_locked cfg orc force want (with_lock true s)) as [rb sb] eqn:Hb.
  simpl in H. inversion H; subst rb s'; clear H.
  rewrite ensure_ready_locked_phases in Hb.
  rewrite (bind_returned _ _ _ _ _ Hq) in Hb.
  rewrite (bind_returned _ _ _ _ _ Hr) in Hb.
  unfold bind at 1, read_globals at 1 in Hb. cbv zeta in Hb.
  destruct (apply_phase cfg orc
              (force || b
               || negb (String.eqb (_current_mode (globals s1)) (desired_mode_of want)))
              (desired_mode_of want) s1) as [ra s2] eqn:Hap.
  exists ra, s2. split; [reflexivity|].
  destruct ra as [applied|e].
  - rewrite (bind_returned _ _ _ _ _ Hap) in Hb.
    apply report_phase_step in Hb.
    eapply service_step_trans; [exact Hb | apply service_step_with_lock].
  - rewrite (bind_raised _ _ _ _ _ Hap) in Hb. inversion Hb; subst.
    apply service_step_with_lock.
Qed.

(** *** The supervisor and the probes answer in time *)

Hypothesis Hsup : supervisor_in_time cfg orc.
Hypothesis Hprobes : probes_in_time cfg orc.
Hypothesis Hpoll : 0 <= WAIT_POLL_SEC cfg.
Hypothesis Hxpoll : 0 <= X_READY_POLL_SEC cfg.

Lemma returns_status : returns (supervisor_status_map cfg orc).
Proof.
  unfold supervisor_status_map. apply returns_bind.
  - apply returns_run_cmd, Hsup.
  - intros p. destruct (negb _); apply returns_ret.
Qed.

Lemma returns_stop name :
  name ∈ services_stop_order cfg -> returns (supervisor_stop cfg orc name).
Proof.
  intros Hin. unfold supervisor_stop. apply returns_bind.
  - apply returns_run_cmd. destruct Hsup as (_ & Hstop & _). apply Hstop, Hin.
  - intros _. apply returns_ret.
Qed.

Lemma returns_start name :
  name ∈ services_start_order cfg -> returns (supervisor_start cfg orc name).
Proof.
  intros Hin. unfold supervisor_start. apply returns_bind.
  - apply returns_run_cmd. destruct Hsup as (_ & _ & Hstart). apply Hstart, Hin.
  - intros _. apply returns_ret.
Qed.

Lemma returns_wait_stack_ready max_sec : returns (wait_stack_ready cfg orc max_sec).
Proof.
  unfold wait_stack_ready. apply returns_bind; [apply returns_time|]. intros t.
  generalize (Z.to_nat (t + max_sec - t)). intros fuel.
  induction fuel as [|fuel IH]; simpl; [apply returns_ret|].
  apply returns_bind; [apply returns_time|]. intros t'.
  destruct (t' <? t + max_sec); [|apply returns_ret].
  apply returns_bind; [apply returns_status|]. intros st.
  destruct (stack_running cfg st); [apply returns_ret|].
  apply returns_bind; [apply returns_sleep, Hpoll | intros _; exact IH].
Qed.

Lemma returns_desktop_stack action : returns (desktop_stack cfg orc action).
Proof.
  unfold desktop_stack.
  repeat match goal with
         | |- returns (if ?b then _ else _) => destruct b
         | |- returns (bind _ _) => apply returns_bind
         | |- forall _, _ => intros _
         | |- returns (for_each (supervisor_stop _ _) _) =>
             apply returns_for_each; intros ? ?; apply returns_stop; assumption
         | |- returns (for_each (supervisor_start _ _) _) =>
             apply returns_for_each; intros ? ?; apply returns_start; assumption
         | |- returns (wait_stack_ready _ _ _) => apply returns_wait_stack_ready
         | |- returns (ret _) => apply returns_ret
         end.
Qed.

Lemma returns_wait_x_ready max_sec : returns (wait_x_ready cfg orc max_sec).
Proof.
  pose proof Hprobes as Hp. unfold probes_in_time in Hp.
  unfold wait_x_ready. destruct (PyStr.truthy (X_READY_CMD cfg)).
  - apply returns_bind; [apply returns_time|]. intros t.
    generalize (Z.to_nat (t + max_sec - t)). intros fuel.
    induction fuel as [|fuel IH]; simpl; [apply returns_ret|].
    apply returns_bind; [apply returns_time|]. intros t'.
    destruct (t' <? t + max_sec); [|apply returns_ret].
    apply returns_bind; [apply returns_run_cmd, Hp|]. intros p.
    destruct (returncode p =? 0); [apply returns_ret|].
    apply returns_bind; [apply returns_sleep, Hxpoll | intros _; exact IH].
  - apply returns_bind; [apply returns_time|]. intros t.
    generalize (Z.to_nat (t + max_sec - t)). intros fuel.
    induction fuel as [|fuel IH]; simpl; [apply returns_ret|].
    apply returns_bind; [apply returns_time|]. intros t'.
    destruct (t' <? t + max_sec); [|apply returns_ret].
    apply returns_bind.
    { unfold probes. simpl.
      apply returns_bind.
      { apply returns_probe_rc, Hp. apply list_elem_of_In. simpl. auto. }
      intros rc. destruct (rc =? 0); [apply returns_ret|].
      apply returns_bind.
      { apply returns_probe_rc, Hp. apply list_elem_of_In. simpl. auto. }
      intros rc'. destruct (rc' =? 0); apply returns_ret. }
    intros hit. destruct hit; [apply returns_ret|].
    apply returns_bind; [apply returns_sleep, Hxpoll | intros _; exact IH].
Qed.

Lemma returns_restart_phase force running :
  returns (restart_phase cfg orc force running).
Proof.
  unfold restart_phase. destruct (force || negb _); [|apply returns_ret].
  apply returns_bind; [apply returns_desktop_stack|]. intros ok_stack.
  apply returns_bind; [apply returns_time|]. intros t.
  apply returns_bind; [apply returns_write|]. intros _.
  apply returns_bind; [|intros _; apply returns_ret].
  destruct ok_stack; [|apply returns_ret].
  apply returns_bind; [apply returns_wait_x_ready | intros _; apply returns_ret].
Qed.

Lemma returns_ensure_ready_locked force want :
  returns (set_kiosk_mode cfg orc (desired_mode_of want)) ->
  returns (ensure_ready_locked cfg orc force want).
Proof.
  intros Hkiosk. rewrite ensure_ready_locked_phases.
  apply returns_bind; [apply returns_status|]. intros st.
  apply returns_bind; [apply returns_restart_phase|].
  intros restarted. apply returns_bind; [apply returns_read|]. intros g.
  apply returns_bind.
  { unfold apply_phase. destruct (force || restarted || _); [|apply returns_ret].
    apply returns_bind; [apply Hkiosk|]. intros [ok_mode msg_mode].
    apply returns_bind; [|intros _; apply returns_ret].
    destruct ok_mode; [|apply returns_ret].
    apply returns_bind; [apply returns_write|]. intros _.
    apply returns_bind; [apply returns_time|]. intros t.
    apply returns_bind; [apply returns_write|]. intros _.
    destruct (0 <? MODE_APPLY_DELAY_SEC cfg) eqn:Hd; [|apply returns_ret].
    apply returns_sleep. lia. }
  intros [ok_mode msg_mode] s. rewrite report_phase_eq.
  destruct (returns_status s) as (st' & s1 & ->). eexists _, _. reflexivity.
Qed.

Lemma returns_ensure_ready force want :
  returns (set_kiosk_mode cfg orc (desired_mode_of want)) ->
  returns (ensure_ready cfg orc force want).
Proof.
  intros Hkiosk s. destruct (_switch_lock (globals s)) eqn:Hl.
  - rewrite (ensure_ready_busy _ _ _ _ _ Hl).
    destruct (returns_status s) as (st & s1 & ->). eexists _, _. reflexivity.
  - rewrite (ensure_ready_free _ _ _ _ _ Hl).
    destruct (returns_ensure_ready_locked force want Hkiosk (with_lock true s))
      as (a & s1 & ->).
    eexists _, _. reflexivity.
Qed.

(** A forced call gets to the apply step, and runs it with
    [apply_needed] true. *)
Lemma forced_call_reaches_apply want s r s' :
  _switch_lock (globals s) = false ->
  ensure_ready cfg orc true want s = (r, s') ->
  exists s1 ra s2,
    service_step cfg s s1
    /\ apply_phase cfg orc true (desired_mode_of want) s1 = (ra, s2)
    /\ service_step cfg s2 s'.
Proof.
  intros Hl H.
  destruct (returns_status (with_lock true s)) as (st0 & s0 & Hq).
  destruct (returns_restart_phase true (stack_running cfg st0) s0) as (b & s1 & Hr).
  destruct (ensure_ready_from_apply _ _ _ _ _ _ _ _ _ Hl Hq Hr H) as (ra & s2 & Hap & Htail).
  exists s1, ra, s2. split; [|split; [exact Hap | exact Htail]].
  pose proof (services_only_status cfg orc (with_lock true s)) as H0. rewrite Hq in H0.
  pose proof (services_only_restart_phase cfg orc true (stack_running cfg st0) s0) as H1.
  rewrite Hr in H1. simpl in H0, H1.
  eapply service_step_trans; [apply (service_step_with_lock cfg true s)|].
  eapply service_step_trans; eassumption.
Qed.

End Deadlines.

(** The demonstration oracles answer in time when their durations say so. *)
Lemma demo_supervisor_in_time (sc : Demo.scenario) :
  Z.pos (Demo.status_ms sc) <= sec 5 ->
  Z.pos (Demo.late_status_ms sc) <= sec 5 ->
  Z.pos (Demo.stop_ms sc) <= sec 10 ->
  supervisor_in_time Demo.cfg (Demo.oracle sc).
Proof.
  intros H1 H2 H3. split; [|split].
  - intros w. eexists _, _. split; [reflexivity|].
    destruct (Demo.apply_seen (history w)); assumption.
  - intros name _ w. eexists _, _. split; [reflexivity | exact H3].
  - intros name _ w. eexists _, _. split; [reflexivity|]. vm_compute. discriminate.
Qed.

Lemma demo_probes_in_time (sc : Demo.scenario) : probes_in_time Demo.cfg (Demo.oracle sc).
Proof.
  unfold probes_in_time. change (PyStr.truthy (X_READY_CMD Demo.cfg)) with false.
  cbv iota. intros cmd Hin w. left. apply list_elem_of_In in Hin.
  destruct Hin as [<-|[<-|[]]]; eexists _, _;
    (split; [reflexivity|]); vm_compute; discriminate.
Qed.

Lemma demo_toggle_in_time (sc : Demo.scenario) want :
  Z.pos (Demo.toggle_ms sc) <= sec 20 ->
  toggle_in_time Demo.cfg (Demo.oracle sc) want.
Proof.
  intros H w. destruct want; eexists _, _; (split; [reflexivity | exact H]).
Qed.

(** ** The kiosk script is missing *)

(** With the script missing, an apply needed and the closing status query
    exceeding its deadline, the call does not return a 202 result: it
    raises. *)
Lemma missing_script_call_can_raise :
  _switch_lock (globals (Demo.fresh false "unknown")) = false
  /\ path_exists (Demo.oracle Demo.no_script_slow_report)
       (world (Demo.fresh false "unknown")) (KIOSK_SCRIPT Demo.cfg) = false
  /\ _current_mode (globals (Demo.fresh false "unknown")) <> desired_mode_of true
  /\ fst (ensure_ready Demo.cfg (Demo.oracle Demo.no_script_slow_report) false true
            (Demo.fresh false "unknown")) = Raised TimeoutExpired.
Proof.
  split; [reflexivity|]. split; [reflexivity|]. split; [discriminate|].
  vm_compute. reflexivity.
Qed.

Lemma needs_apply_true cfg orc force want s st0 :
  needs_apply cfg orc force want s ->
  fst (supervisor_status_map cfg orc s) = Returned st0 ->
  force || (force || negb (stack_running cfg st0))
  || negb (String.eqb (_current_mode (globals s)) (desired_mode_of want)) = true.
Proof.
  intros [->|[Hne|(st & sq & Hq & Hdown)]] Hst0.
  - reflexivity.
  - apply String.eqb_neq in Hne. rewrite Hne. apply orb_true_r.
  - rewrite Hq in Hst0. inversion Hst0; subst. rewrite Hdown.
    destruct force; reflexivity.
Qed.

(** C5, amended. When the kiosk script does not exist, [set_kiosk_mode]
    answers false with the message [missing_script:<path>] after the
    existence check alone, spawning nothing. A call that took the lock then
    leaves [_current_mode] (and [_last_apply_ts]) as before and spawns no
    toggle, whatever its outcome; if it needs an apply and returns, the
    result is status 202 with [ok] false, [mode_ok] false and [current_mode]
    the value from before the call. The call returns whenever the supervisor
    commands and the probes of the display it issues answer within their
    deadlines and the poll intervals are not negative. *)
Theorem missing_script_spec (cfg : Config) (orc : Oracle) :
  (forall w, path_exists orc w (KIOSK_SCRIPT cfg) = false) ->
  (forall mode s,
      set_kiosk_mode cfg orc mode s =
      (Returned (false, "missing_script:" ++ KIOSK_SCRIPT cfg),
       {| globals := globals s;
          world := {| now := now (world s);
                      history := PathExists (KIOSK_SCRIPT cfg) :: history (world s) |} |}))
  /\ (forall force want s r s',
         _switch_lock (globals s) = false ->
         ensure_ready cfg orc force want s = (r, s') ->
         _current_mode (globals s') = _current_mode (globals s)
         /\ _last_apply_ts (globals s') = _last_apply_ts (globals s)
         /\ toggle_calls cfg s' = toggle_calls cfg s
         /\ (forall code payload,
                r = Returned (code, payload) ->
                needs_apply cfg orc force want s ->
                code = 202
                /\ payload !! "ok" = Some (PyBool false)
                /\ payload !! "mode_ok" = Some (PyBool false)
                /\ payload !! "applied" = Some (PyBool true)
                /\ payload !! "mode_msg"
                   = Some (PyStr ("missing_script:" ++ KIOSK_SCRIPT cfg))
                /\ payload !! "current_mode" = Some (PyStr (_current_mode (globals s))))
         /\ (supervisor_in_time cfg orc ->
             probes_in_time cfg orc ->
             0 <= WAIT_POLL_SEC cfg ->
             0 <= X_READY_POLL_SEC cfg ->
             exists res, r = Returned res)).
Proof.
  intros Hmissing.
  assert (forall mode s,
             set_kiosk_mode cfg orc mode s =
             (Returned (false, "missing_script:" ++ KIOSK_SCRIPT cfg),
              {| globals := globals s;
                 world := {| now := now (world s);
                             history := PathExists (KIOSK_SCRIPT cfg) :: history (world s) |} |}))
    as Hset.
  { intros mode s. unfold set_kiosk_mode, bind, os_path_exists.
    rewrite Hmissing. reflexivity. }
  split; [exact Hset|].
  intros force want s r s' Hl H.
  assert (supervisor_in_time cfg orc -> probes_in_time cfg orc ->
          0 <= WAIT_POLL_SEC cfg -> 0 <= X_READY_POLL_SEC cfg ->
          exists res, r = Returned res) as Hreturns.
  { intros Hsup Hprobes Hpoll Hxpoll.
    destruct (returns_ensure_ready cfg orc Hsup Hprobes Hpoll Hxpoll force want
                (returns_set_kiosk_mode_missing cfg orc _ Hmissing) s)
      as (res & s1 & Hret).
    rewrite Hret in H. inversion H; subst. eauto. }
  destruct (ensure_ready_run cfg orc _ _ _ _ _ Hl H)
    as [(e & -> & Hstep)|(st0 & s1 & ra & s2 & Hst0 & Hs1 & Hap & Hra)].
  { split; [apply (ss_mode _ _ _ Hstep)|]. split; [apply (ss_apply_ts _ _ _ Hstep)|].
    split; [apply (service_step_toggles _ _ _ Hstep)|].
    split; [intros; discriminate | exact Hreturns]. }
  cbv zeta in Hap, Hra.
  set (an := force || (force || negb (stack_running cfg st0))
             || negb (String.eqb (_current_mode (globals s)) (desired_mode_of want))) in *.
  pose proof (run_tail cfg orc _ _ _ _ _ _ _ Hra) as Htail.
  pose proof (apply_phase_counts cfg orc _ _ _ _ _ Hap) as [_ Hcount].
  rewrite Hmissing, andb_false_r, Nat.add_0_r in Hcount.
  assert (_current_mode (globals s2) = _current_mode (globals s1)
          /\ _last_apply_ts (globals s2) = _last_apply_ts (globals s1)) as [Hm Ht].
  { pose proof (apply_phase_mode cfg orc _ _ _ _ _ Hap)
      as [(Hm & Ht & _)|(_ & msg & sk & _ & Hk & _)]; [auto|].
    rewrite Hset in Hk. discriminate. }
  split; [rewrite (ss_mode _ _ _ Htail), Hm; apply (ss_mode _ _ _ Hs1)|].
  split; [rewrite (ss_apply_ts _ _ _ Htail), Ht; apply (ss_apply_ts _ _ _ Hs1)|].
  split; [rewrite (service_step_toggles _ _ _ Htail), Hcount;
          apply (service_step_toggles _ _ _ Hs1)|].
  split; [|exact Hreturns]. clear Hreturns.
  intros code payload -> Hneed.
  pose proof (needs_apply_true _ _ _ _ _ _ Hneed Hst0) as Han. fold an in Han.
  clearbody an. subst an.
  apply apply_phase_attempted in Hap as (rk & sk & Hk & _ & Hrk).
  rewrite Hset in Hk. inversion Hk; subst rk sk. destruct Hrk as [-> ->].
  destruct Hra as (s3 & Hrep & ->). rewrite report_phase_eq in Hrep.
  match type of Hrep with
  | context [supervisor_status_map cfg orc ?x] =>
      destruct (supervisor_status_map cfg orc x) as [[st|e] s3'] eqn:Hsnap; [|discriminate]
  end.
  apply status_effect in Hsnap as [Hg _].
  cbv zeta in Hrep. rewrite andb_false_r in Hrep. cbn [andb] in Hrep.
  inversion Hrep; subst.
  match goal with
  | |- context [dict_update (status_payload _ ?a ?b) (result_fields ?c ?d ?e ?f ?g ?h ?i)] =>
      destruct (result_lookup cfg a b c d e f g h i)
        as (Hok & _ & _ & _ & Happ & Hmok & Hmsg & _ & _ & Hcur)
  end.
  simpl in Hok, Happ, Hmok, Hmsg, Hcur.
  assert (_current_mode (globals s3) = _current_mode (globals s)) as Hc3.
  { rewrite Hg. simpl. apply (ss_mode _ _ _ Hs1). }
  split; [reflexivity|]. split; [exact Hok|]. split; [exact Hmok|].
  split; [exact Happ|]. split; [exact Hmsg|]. rewrite <- Hc3. exact Hcur.
Qed.

Lemma missing_script_spec_witness :
  payload_of run_missing_script !! "mode_ok" = Some (PyBool false)
  /\ _current_mode (globals (snd run_missing_script)) = "on"
  /\ exists res, fst run_missing_script = Returned res.
Proof.
  assert (returned_with 202 run_missing_script = true) as Hrun by (vm_compute; reflexivity).
  apply returned_with_eq in Hrun.
  destruct (missing_script_spec Demo.cfg (Demo.oracle Demo.no_script) (fun _ => eq_refl))
    as [_ Hcall].
  destruct (Hcall true false (Demo.fresh false "on") _ _ eq_refl (surjective_pairing _))
    as (Hmode & _ & _ & Hres & Hret).
  split; [|split; [exact Hmode|]].
  - destruct (Hres 202 (payload_of run_missing_script)) as (_ & _ & Hmok & _).
    + rewrite Hrun. reflexivity.
    + left. reflexivity.
    + exact Hmok.
  - apply Hret.
    + apply demo_supervisor_in_time; vm_compute; discriminate.
    + apply demo_probes_in_time.
    + vm_compute. discriminate.
    + vm_compute. discriminate.
Defined.

(** ** Forced calls *)

(** A forced call with the script present spawns no toggle when
    [supervisorctl stop] exceeds its deadline: the call raises during the
    restart. *)
Lemma forced_call_without_toggle :
  _switch_lock (globals (Demo.fresh false "off")) = false
  /\ path_exists (Demo.oracle Demo.slow_stop)
       (world (Demo.fresh false "off")) (KIOSK_SCRIPT Demo.cfg) = true
  /\ fst (ensure_ready Demo.cfg (Demo.oracle Demo.slow_stop) true true
            (Demo.fresh false "off")) = Raised TimeoutExpired
  /\ toggle_calls Demo.cfg
       (snd (ensure_ready Demo.cfg (Demo.oracle Demo.slow_stop) true true
               (Demo.fresh false "off"))) = 0%nat.
Proof. repeat split; vm_compute; reflexivity. Qed.

(** C9, amended. In a forced call that took the lock, with the kiosk script
    present, the mode toggle is spawned at most once, whatever the
    remembered mode, and exactly once whenever the call returns. It is
    spawned exactly once, whatever the outcome of the call, whenever the
    supervisor commands and the probes of the display answer within their
    deadlines and the poll intervals are not negative. It is spawned zero
    times when the opening status query raises, and when [desktop_stack]
    raises during the restart (a stop, a start or a status poll that cannot
    be spawned or exceeds its deadline): the call then raises that
    exception. *)
Theorem forced_call_toggles_once (cfg : Config) (orc : Oracle) want s r s' :
  (forall w, path_exists orc w (KIOSK_SCRIPT cfg) = true) ->
  _switch_lock (globals s) = false ->
  ensure_ready cfg orc true want s = (r, s') ->
  (toggle_calls cfg s' = toggle_calls cfg s
   \/ toggle_calls cfg s' = S (toggle_calls cfg s))
  /\ ((exists res, r = Returned res) ->
      toggle_calls cfg s' = S (toggle_calls cfg s)
      /\ apply_attempts s' = S (apply_attempts s))
  /\ (supervisor_in_time cfg orc ->
      probes_in_time cfg orc ->
      0 <= WAIT_POLL_SEC cfg ->
      0 <= X_READY_POLL_SEC cfg ->
      toggle_calls cfg s' = S (toggle_calls cfg s)
      /\ apply_attempts s' = S (apply_attempts s))
  /\ (forall e,
         fst (supervisor_status_map cfg orc (with_lock true s)) = Raised e ->
         r = Raised e /\ toggle_calls cfg s' = toggle_calls cfg s)
  /\ (forall st0 s0 e sd,
         supervisor_status_map cfg orc (with_lock true s) = (Returned st0, s0) ->
         desktop_stack cfg orc "restart" s0 = (Raised e, sd) ->
         r = Raised e /\ toggle_calls cfg s' = toggle_calls cfg s).
Proof.
  intros Hpresent Hl H.
  assert (forall s1 ra s2,
             service_step cfg s s1 ->
             apply_phase cfg orc true (desired_mode_of want) s1 = (ra, s2) ->
             service_step cfg s2 s' ->
             toggle_calls cfg s' = S (toggle_calls cfg s)
             /\ apply_attempts s' = S (apply_attempts s)) as Honce.
  { intros s1 ra s2 Hs1 Hap Htail.
    apply (apply_phase_counts cfg orc true) in Hap as [Ha Ht].
    rewrite Hpresent in Ht. simpl in Ht.
    rewrite (service_step_toggles _ _ _ Htail), (service_step_attempts _ _ _ Htail), Ha, Ht.
    rewrite (service_step_toggles _ _ _ Hs1), (service_step_attempts _ _ _ Hs1). lia. }
  assert (toggle_calls cfg (with_lock true s) = toggle_calls cfg s) as Hlock by reflexivity.
  split; [|split; [|split; [|split]]].
  - destruct (ensure_ready_run cfg orc _ _ _ _ _ Hl H)
      as [(e & -> & Hstep)|(st0 & s1 & ra & s2 & _ & Hs1 & Hap & Hra)].
    + left. apply (service_step_toggles _ _ _ Hstep).
    + right. cbv zeta in Hap, Hra. apply run_tail in Hra.
      apply (Honce _ _ _ Hs1 Hap Hra).
  - intros [res ->].
    destruct (ensure_ready_run cfg orc _ _ _ _ _ Hl H)
      as [(e & He & _)|(st0 & s1 & ra & s2 & _ & Hs1 & Hap & Hra)]; [discriminate|].
    cbv zeta in Hap, Hra. apply run_tail in Hra.
    apply (Honce _ _ _ Hs1 Hap Hra).
  - intros Hsup Hprobes Hpoll Hxpoll.
    destruct (forced_call_reaches_apply cfg orc Hsup Hprobes Hpoll Hxpoll _ _ _ _ Hl H)
      as (s1 & ra & s2 & Hs1 & Hap & Htail).
    apply (Honce _ _ _ Hs1 Hap Htail).
  - intros e He.
    destruct (supervisor_status_map cfg orc (with_lock true s)) as [rq s0] eqn:Hq.
    simpl in He. subst rq.
    rewrite (ensure_ready_opening_raises cfg orc _ _ _ _ _ Hl Hq) in H.
    inversion H; subst. split; [reflexivity|].
    pose proof (services_only_status cfg orc (with_lock true s)) as H0.
    rewrite Hq in H0. simpl in H0.
    assert (toggle_calls cfg (with_lock false s0) = toggle_calls cfg s0) as -> by reflexivity.
    rewrite (service_step_toggles _ _ _ H0). exact Hlock.
  - intros st0 s0 e sd Hq Hd.
    assert (restart_phase cfg orc true (stack_running cfg st0) s0 = (Raised e, sd)) as Hr.
    { unfold restart_phase. cbn [orb]. apply bind_raised. exact Hd. }
    rewrite (ensure_ready_restart_raises cfg orc _ _ _ _ _ _ _ Hl Hq Hr) in H.
    inversion H; subst. split; [reflexivity|].
    pose proof (services_only_status cfg orc (with_lock true s)) as H0.
    rewrite Hq in H0. simpl in H0.
    pose proof (services_only_desktop_stack cfg orc "restart" s0) as H1.
    rewrite Hd in H1. simpl in H1.
    assert (toggle_calls cfg (with_lock false sd) = toggle_calls cfg sd) as -> by reflexivity.
    rewrite (service_step_toggles _ _ _ H1), (service_step_toggles _ _ _ H0). exact Hlock.
Qed.

Lemma forced_call_toggles_once_witness :
  toggle_calls Demo.cfg (snd run_forced) = 1%nat.
Proof.
  assert (returned_with 200 run_forced = true) as Hrun by (vm_compute; reflexivity).
  apply returned_with_eq in Hrun.
  destruct (forced_call_toggles_once Demo.cfg (Demo.oracle (Demo.healthy true)) true
              (Demo.fresh false "on") _ _ (fun _ => eq_refl) eq_refl Hrun)
    as (_ & Hret & _).
  destruct Hret as [Ht _]; [eauto | exact Ht].
Defined.

(** ** Timeouts *)

(** A call that took the lock, with the stack up and the script present,
    raises [TimeoutExpired] to its caller when the kiosk script exceeds its
    deadline. *)
Lemma ensure_ready_can_raise :
  _switch_lock (globals (Demo.fresh false "unknown")) = false
  /\ fst (ensure_ready Demo.cfg (Demo.oracle Demo.slow_toggle) false true
            (Demo.fresh false "unknown")) = Raised TimeoutExpired.
Proof. split; vm_compute; reflexivity. Qed.

Lemma message_listed (ok_all rn : bool) :
  (if ok_all then "ready" else if negb rn then "starting" else "applying")
  ∈ ["ready"; "starting"; "applying"; "switch_in_progress"].
Proof. apply list_elem_of_In. destruct ok_all, rn; simpl; auto. Qed.

(** C4, amended. A command that exceeds its deadline is not folded into
    [ok]: [run_cmd] raises [TimeoutExpired] and [ensure_ready] lets it
    through to its caller. That is so whenever the first status query of
    the call exceeds its five seconds, and whenever the call runs the kiosk
    script and the script exceeds its twenty seconds; the remembered mode is
    then as before. The lock taken by the call is released on every path,
    raising or not; every result that is returned is well formed; and the
    call returns whenever every command it issues answers within its own
    deadline (five seconds for the status query, ten for a stop or a start,
    three for a probe of the display, twenty for the kiosk script) and the
    poll intervals are not negative. *)
Theorem ensure_ready_result_or_exception (cfg : Config) (orc : Oracle)
    force want s r s' :
  ensure_ready cfg orc force want s = (r, s') ->
  (_switch_lock (globals s) = false -> _switch_lock (globals s') = false)
  /\ (forall res, r = Returned res -> well_formed_result res)
  /\ (forall d p,
         respond orc (world s) [SUPERVISORCTL cfg; "status"] = (d, Exits p) ->
         sec 5 < Z.pos d ->
         r = Raised TimeoutExpired)
  /\ (_switch_lock (globals s) = false ->
      too_slow orc [KIOSK_SCRIPT cfg; desired_mode_of want] (sec 20) ->
      toggle_calls cfg s' = S (toggle_calls cfg s) ->
      r = Raised TimeoutExpired
      /\ _current_mode (globals s') = _current_mode (globals s))
  /\ (supervisor_in_time cfg orc ->
      probes_in_time cfg orc ->
      toggle_in_time cfg orc want ->
      0 <= WAIT_POLL_SEC cfg ->
      0 <= X_READY_POLL_SEC cfg ->
      exists res, r = Returned res).
Proof.
  intros H. split; [|split; [|split; [|split]]].
  - intros Hl. rewrite (ensure_ready_free _ _ _ _ _ Hl) in H.
    inversion H; subst. reflexivity.
  - intros [code payload] ->. destruct (_switch_lock (globals s)) eqn:Hl.
    + rewrite (ensure_ready_busy _ _ _ _ _ Hl) in H.
      destruct (supervisor_status_map cfg orc s) as [[st|e] s1]; [|discriminate].
      inversion H; subst.
      destruct (busy_lookup cfg st (globals s'))
        as (Ho & Hb & Hc & Hm & _ & _ & Hr & Hcur).
      simpl in Ho, Hb, Hc, Hm, Hr, Hcur.
      exists false, true, false, "switch_in_progress".
      repeat split; try assumption; try (eexists; eassumption).
      apply list_elem_of_In. simpl. auto.
    + destruct (ensure_ready_returned cfg orc _ _ _ _ _ _ Hl H)
        as (st0 & s1 & ok_mode & msg_mode & s2 & st & s3
            & _ & _ & _ & _ & _ & _ & Hcode & ->).
      match goal with
      | |- context [dict_update (status_payload _ ?a ?b) (result_fields ?c ?d ?e ?f ?g ?h ?i)] =>
          destruct (result_lookup cfg a b c d e f g h i)
            as (Ho & Hb & Hc & _ & _ & _ & _ & Hm & Hr & Hcur)
      end.
      simpl in Ho, Hb, Hc, Hm, Hr, Hcur.
      eexists _, false, _, _.
      split; [exact Ho|]. split; [exact Hb|]. split; [exact Hc|]. split; [exact Hm|].
      split; [apply message_listed|]. split; [exact Hcode|].
      split; eexists; eassumption.
  - intros d p Hresp Hd.
    assert (forall s0, world s0 = world s ->
              exists s1, supervisor_status_map cfg orc s0 = (Raised TimeoutExpired, s1))
      as Hslow.
    { intros s0 Hw. unfold supervisor_status_map, bind, run_cmd. rewrite Hw, Hresp.
      assert ((sec 5 <? Z.pos d) = true) as -> by lia. eexists. reflexivity. }
    destruct (_switch_lock (globals s)) eqn:Hl.
    + rewrite (ensure_ready_busy _ _ _ _ _ Hl) in H.
      destruct (Hslow s eq_refl) as [s1 Hq]. rewrite Hq in H. inversion H. reflexivity.
    + rewrite (ensure_ready_free _ _ _ _ _ Hl) in H.
      destruct (Hslow (with_lock true s) eq_refl) as [s1 Hq].
      rewrite ensure_ready_locked_phases in H.
      rewrite (bind_raised _ _ _ _ _ Hq) in H. inversion H. reflexivity.
  - intros Hl Hslow Htog.
    destruct (ensure_ready_run cfg orc _ _ _ _ _ Hl H)
      as [(e & _ & Hstep)|(st0 & s1 & ra & s2 & _ & Hs1 & Hap & Hra)].
    { apply service_step_toggles in Hstep. lia. }
    cbv zeta in Hap, Hra.
    pose proof (run_tail cfg orc _ _ _ _ _ _ _ Hra) as Htail.
    pose proof (apply_phase_counts cfg orc _ _ _ _ _ Hap) as [_ Hcount].
    rewrite (service_step_toggles _ _ _ Htail), Hcount,
      (service_step_toggles _ _ _ Hs1) in Htog.
    match type of Hap with
    | apply_phase _ _ ?an _ _ = _ => destruct an eqn:Han
    end.
    2:{ simpl in Htog. lia. }
    destruct (path_exists orc (world s1) (KIOSK_SCRIPT cfg)) eqn:Hp;
      [|simpl in Htog; lia].
    pose proof (set_kiosk_mode_too_slow cfg orc _ s1 Hslow Hp) as Hk.
    pose proof (apply_phase_mode cfg orc _ _ _ _ _ Hap) as Hmode.
    apply apply_phase_attempted in Hap as (rk & sk & Hset & _ & Hrk).
    rewrite Hset in Hk. simpl in Hk. subst rk. destruct Hrk as [-> ->].
    destruct Hra as [-> ->]. split; [reflexivity|].
    destruct Hmode as [(Hm & _)|(_ & msg & sk' & Hr & _)]; [|discriminate].
    change (_current_mode (globals (with_lock false sk)))
      with (_current_mode (globals sk)).
    rewrite Hm. apply (ss_mode _ _ _ Hs1).
  - intros Hsup Hprobes Htoggle Hpoll Hxpoll.
    destruct (returns_ensure_ready cfg orc Hsup Hprobes Hpoll Hxpoll force want
                (returns_set_kiosk_mode cfg orc _ Htoggle) s)
      as (res & s1 & Hret).
    rewrite Hret in H. inversion H; subst. eauto.
Qed.

Lemma ensure_ready_result_or_exception_witness :
  well_formed_result (200, payload_of run_unhurried)
  /\ _switch_lock (globals (snd run_unhurried)) = false
  /\ exists res, fst run_unhurried = Returned res.
Proof.
  assert (returned_with 200 run_unhurried = true) as Hrun by (vm_compute; reflexivity).
  apply returned_with_eq in Hrun.
  destruct (ensure_ready_result_or_exception Demo.cfg (Demo.oracle unhurried)
              true true (Demo.fresh false "off") _ _ (surjective_pairing _))
    as (Hlock & Hwf & _ & _ & Hret).
  split; [|split].
  - apply Hwf. rewrite Hrun. reflexivity.
  - apply Hlock. reflexivity.
  - apply Hret.
    + apply demo_supervisor_in_time; vm_compute; discriminate.
    + apply demo_probes_in_time.
    + apply demo_toggle_in_time. vm_compute. discriminate.
    + vm_compute. discriminate.
    + vm_compute. discriminate.
Defined.

(** * Further properties *)

(** ** Event classes of the operations *)

Lemma only_events_refl P s : only_events P s s.
Proof. exists []. auto. Qed.

Lemma only_events_trans P s1 s2 s3 :
  only_events P s1 s2 -> only_events P s2 s3 -> only_events P s1 s3.
Proof.
  intros (e1 & H1 & A1) (e2 & H2 & A2). exists (e2 ++ e1)%list. split.
  - rewrite H2, H1. apply app_assoc.
  - rewrite forallb_app, A1, A2. reflexivity.
Qed.

Lemma only_events_weaken (P Q : event -> bool) s s' :
  (forall e, P e = true -> Q e = true) -> only_events P s s' -> only_events Q s s'.
Proof.
  intros HPQ (evs & H & A). exists evs. split; [exact H|].
  apply forallb_forall. intros e He.
  apply HPQ. rewrite forallb_forall in A. apply A. exact He.
Qed.

Lemma only_events_count P f s s' :
  (forall e, P e = true -> f e = false) ->
  only_events P s s' ->
  count_events f (history (world s')) = count_events f (history (world s)).
Proof.
  intros HPf (evs & H & A). rewrite H, count_events_app.
  rewrite (count_events_none _ _ _ A HPf). reflexivity.
Qed.

Lemma emits_weaken {A} (P Q : event -> bool) (m : M A) :
  (forall e, P e = true -> Q e = true) -> emits P m -> emits Q m.
Proof. intros HPQ Hm s. eapply only_events_weaken; [exact HPQ | apply Hm]. Qed.

Lemma emits_ret {A} P (a : A) : emits P (ret a).
Proof. intros s. apply only_events_refl. Qed.

Lemma emits_bind {A B} P (m : M A) (k : A -> M B) :
  emits P m -> (forall a, emits P (k a)) -> emits P (bind m k).
Proof.
  intros Hm Hk s. unfold bind. specialize (Hm s).
  destruct (m s) as [[a|e] s1]; simpl in *; [|exact Hm].
  eapply only_events_trans; [exact Hm | apply Hk].
Qed.

Lemma emits_time P : emits P time_time.
Proof. intros s. apply only_events_refl. Qed.

Lemma emits_sleep P d : emits P (time_sleep d).
Proof.
  intros s. unfold time_sleep. destruct (d <? 0); simpl; exists []; auto.
Qed.

Lemma emits_read P : emits P read_globals.
Proof. intros s. apply only_events_refl. Qed.

Lemma emits_write P f : emits P (write_globals f).
Proof. intros s. exists []. auto. Qed.

Lemma emits_run_cmd (P : event -> bool) orc args timeout :
  P (Spawn args timeout) = true -> emits P (run_cmd orc args timeout).
Proof.
  intros HP s. unfold run_cmd.
  destruct (respond orc (world s) args) as [d [p|e]];
    [destruct (timeout <? Z.pos d)|]; simpl;
    (exists [Spawn args timeout]; simpl; rewrite HP; auto).
Qed.

Lemma emits_for_each {A} P (body : A -> M unit) l :
  (forall x, x ∈ l -> emits P (body x)) -> emits P (for_each body l).
Proof.
  induction l as [|x l IH]; intros Hb; simpl.
  - apply emits_ret.
  - apply emits_bind.
    + apply Hb. left.
    + intros _. apply IH. intros y Hy. apply Hb. right. exact Hy.
Qed.

Section EventClasses.

Variable cfg : Config.
Variable orc : Oracle.

Lemma is_status_event : is_status cfg (status_event cfg) = true.
Proof. apply bool_decide_eq_true. reflexivity. Qed.

Lemma is_stop_event name : is_stop cfg (stop_event cfg name) = true.
Proof. apply bool_decide_eq_true. reflexivity. Qed.

Lemma is_start_event name : is_start cfg (start_event cfg name) = true.
Proof. apply bool_decide_eq_true. reflexivity. Qed.

Lemma is_stop_true e : is_stop cfg e = true -> exists name, e = stop_event cfg name.
Proof.
  destruct e as [[|a [|b [|c [|]]]] t|]; simpl; try discriminate.
  intros H. apply bool_decide_eq_true in H. eauto.
Qed.

Lemma is_start_true e : is_start cfg e = true -> exists name, e = start_event cfg name.
Proof.
  destruct e as [[|a [|b [|c [|]]]] t|]; simpl; try discriminate.
  intros H. apply bool_decide_eq_true in H. eauto.
Qed.

Lemma emits_status : emits (is_status cfg) (supervisor_status_map cfg orc).
Proof.
  unfold supervisor_status_map. apply emits_bind.
  - apply emits_run_cmd, is_status_event.
  - intros p. destruct (negb _); apply emits_ret.
Qed.

Lemma emits_wait_stack_loop fuel end_ :
  emits (is_status cfg) (wait_stack_loop cfg orc fuel end_).
Proof.
  induction fuel as [|fuel IH]; simpl.
  - apply emits_ret.
  - apply emits_bind; [apply emits_time|]. intros t.
    destruct (t <? end_); [|apply emits_ret].
    apply emits_bind; [apply emits_status|]. intros st.
    destruct (stack_running cfg st); [apply emits_ret|].
    apply emits_bind; [apply emits_sleep | intros _; exact IH].
Qed.

Lemma emits_wait_stack_ready max_sec :
  emits (is_status cfg) (wait_stack_ready cfg orc max_sec).
Proof.
  unfold wait_stack_ready. apply emits_bind; [apply emits_time|].
  intros t. apply emits_wait_stack_loop.
Qed.

Lemma emits_stop name : emits (is_stop cfg) (supervisor_stop cfg orc name).
Proof.
  unfold supervisor_stop. apply emits_bind.
  - apply emits_run_cmd. apply (is_stop_event name).
  - intros _. apply emits_ret.
Qed.

Lemma emits_start name : emits (is_start cfg) (supervisor_start cfg orc name).
Proof.
  unfold supervisor_start. apply emits_bind.
  - apply emits_run_cmd. apply (is_start_event name).
  - intros _. apply emits_ret.
Qed.

Lemma emits_probe_rc P cmd :
  P (Spawn cmd (sec 3)) = true -> emits P (probe_rc orc cmd).
Proof.
  intros HP s. unfold probe_rc.
  pose proof (emits_run_cmd P orc cmd (sec 3) HP s) as H.
  destruct (run_cmd orc cmd (sec 3) s) as [[p|[]] s1]; exact H.
Qed.

Lemma emits_wait_x_ready max_sec :
  emits (is_x_probe cfg) (wait_x_ready cfg orc max_sec).
Proof.
  unfold wait_x_ready, is_x_probe. destruct (PyStr.truthy (X_READY_CMD cfg)).
  - apply emits_bind; [apply emits_time|]. intros t.
    generalize (Z.to_nat (t + max_sec - t)). intros fuel.
    induction fuel as [|fuel IH]; simpl; [apply emits_ret|].
    apply emits_bind; [apply emits_time|]. intros t'.
    destruct (t' <? t + max_sec); [|apply emits_ret].
    apply emits_bind.
    { apply emits_run_cmd. apply bool_decide_eq_true. reflexivity. }
    intros p. destruct (returncode p =? 0); [apply emits_ret|].
    apply emits_bind; [apply emits_sleep | intros _; exact IH].
  - apply emits_bind; [apply emits_time|]. intros t.
    generalize (Z.to_nat (t + max_sec - t)). intros fuel.
    induction fuel as [|fuel IH]; simpl; [apply emits_ret|].
    apply emits_bind; [apply emits_time|]. intros t'.
    destruct (t' <? t + max_sec); [|apply emits_ret].
    apply emits_bind.
    { unfold probes. simpl.
      apply emits_bind; [apply emits_probe_rc; reflexivity|]. intros rc.
      destruct (rc =? 0); [apply emits_ret|].
      apply emits_bind; [apply emits_probe_rc; reflexivity|]. intros rc'.
      destruct (rc' =? 0); apply emits_ret. }
    intros hit. destruct hit; [apply emits_ret|].
    apply emits_bind; [apply emits_sleep | intros _; exact IH].
Qed.

End EventClasses.

(** ** Waiting for the stack *)

Section Waiting.

Variable cfg : Config.
Variable orc : Oracle.

Lemma sleep_effect d s u s' :
  time_sleep d s = (Returned u, s') ->
  0 <= d /\ globals s' = globals s
  /\ history (world s') = history (world s)
  /\ now (world s') = now (world s) + d.
Proof.
  unfold time_sleep. destruct (d <? 0) eqn:Hd; intros H; inversion H; subst; simpl.
  repeat split; auto. lia.
Qed.

Lemma sleep_globals d s r s' :
  time_sleep d s = (r, s') -> globals s' = globals s.
Proof.
  unfold time_sleep. destruct (d <? 0); intros H; inversion H; subst; reflexivity.
Qed.

Lemma wait_stack_loop_spec fuel end_ s r s' :
  wait_stack_loop cfg orc fuel end_ s = (r, s') ->
  globals s' = globals s
  /\ (r = Returned true ->
      exists sq st,
        supervisor_status_map cfg orc sq = (Returned st, s')
        /\ stack_running cfg st = true)
  /\ (r = Returned false -> end_ - now (world s) <= Z.of_nat fuel ->
      end_ <= now (world s')).
Proof.
  revert s. induction fuel as [|fuel IH]; intros s.
  - simpl. intros H. inversion H; subst.
    split; [reflexivity|]. split; [discriminate|]. intros _ Hf. simpl in Hf. lia.
  - rewrite wait_stack_loop_step.
    destruct (now (world s) <? end_) eqn:Hlt.
    2:{ intros H. inversion H; subst.
        split; [reflexivity|]. split; [discriminate|]. intros _ _. lia. }
    destruct (supervisor_status_map cfg orc s) as [[st|e] s1] eqn:Hq.
    2:{ intros H. inversion H; subst.
        apply status_effect in Hq as [Hg _].
        split; [exact Hg|]. split; discriminate. }
    pose proof (status_effect _ _ _ _ _ Hq) as [Hg _].
    pose proof (status_time _ _ _ _ _ Hq) as Ht.
    destruct (stack_running cfg st) eqn:Hrun.
    { intros H. inversion H; subst.
      split; [exact Hg|]. split; [eauto | discriminate]. }
    destruct (time_sleep (WAIT_POLL_SEC cfg) s1) as [[u|e] s2] eqn:Hs.
    2:{ intros H. inversion H; subst. apply sleep_globals in Hs.
        split; [congruence|]. split; discriminate. }
    apply sleep_effect in Hs as (Hd & Hg2 & _ & Hn2).
    intros H. destruct (IH _ H) as (Hg' & Htrue & Hfalse).
    split; [congruence|]. split; [exact Htrue|].
    intros Hr Hf. apply Hfalse; [exact Hr | lia].
Qed.

Lemma wait_stack_loop_polls fuel end_ s r s' :
  wait_stack_loop cfg orc fuel end_ s = (r, s') ->
  exists evs,
    events_since s s' evs
    /\ (evs = [] \/ (Z.of_nat (length evs) - 1) * WAIT_POLL_SEC cfg < end_ - now (world s)).
Proof.
  revert s. induction fuel as [|fuel IH]; intros s.
  - simpl. intros H. inversion H; subst. exists []. split; [reflexivity | auto].
  - rewrite wait_stack_loop_step.
    destruct (now (world s) <? end_) eqn:Hlt.
    2:{ intros H. inversion H; subst. exists []. split; [reflexivity | auto]. }
    assert (forall s1, history (world s1) = status_event cfg :: history (world s) ->
              exists evs, events_since s s1 evs
                /\ (evs = [] \/ (Z.of_nat (length evs) - 1) * WAIT_POLL_SEC cfg
                                < end_ - now (world s))) as Hone.
    { intros s1 Hh. exists [status_event cfg]. split; [exact Hh|]. right. simpl. lia. }
    destruct (supervisor_status_map cfg orc s) as [[st|e] s1] eqn:Hq.
    2:{ intros H. inversion H; subst. apply status_effect in Hq as [_ Hh]. auto. }
    pose proof (status_effect _ _ _ _ _ Hq) as [_ Hh].
    pose proof (status_time _ _ _ _ _ Hq) as Ht.
    destruct (stack_running cfg st).
    { intros H. inversion H; subst. auto. }
    destruct (time_sleep (WAIT_POLL_SEC cfg) s1) as [[u|e] s2] eqn:Hs.
    2:{ intros H. inversion H; subst. apply Hone.
        unfold time_sleep in Hs. destruct (_ <? 0); inversion Hs; subst; exact Hh. }
    apply sleep_effect in Hs as (Hd & _ & Hh2 & Hn2).
    intros H. destruct (IH _ H) as (evs & Hev & Hbound).
    exists (evs ++ [status_event cfg])%list. split.
    + unfold events_since in *. rewrite Hev, Hh2, Hh, <- app_assoc. reflexivity.
    + right. rewrite length_app. simpl.
      destruct Hbound as [->|Hb]; simpl; [lia|]. nia.
Qed.

End Waiting.

(** X1. [wait_stack_ready] touches no global and issues status queries only.
    It answers true only when the status query it has just made shows the
    stack running, and false only once the deadline has passed; with a wait
    that is not positive it answers false at once, with no query and no
    sleep. *)
Theorem wait_stack_ready_spec (cfg : Config) (orc : Oracle) max_sec s r s' :
  wait_stack_ready cfg orc max_sec s = (r, s') ->
  globals s' = globals s
  /\ only_events (is_status cfg) s s'
  /\ (max_sec <= 0 -> r = Returned false /\ s' = s)
  /\ (r = Returned false -> now (world s) + max_sec <= now (world s'))
  /\ (r = Returned true ->
      exists sq st,
        supervisor_status_map cfg orc sq = (Returned st, s')
        /\ stack_running cfg st = true).
Proof.
  intros H.
  pose proof (emits_wait_stack_ready cfg orc max_sec s) as Hev. rewrite H in Hev.
  unfold wait_stack_ready, bind, time_time in H.
  destruct (wait_stack_loop_spec cfg orc _ _ _ _ _ H) as (Hg & Htrue & Hfalse).
  split; [exact Hg|]. split; [exact Hev|]. split; [|split; [|exact Htrue]].
  - intros Hle.
    assert (Z.to_nat (now (world s) + max_sec - now (world s)) = 0%nat) as Hz by lia.
    rewrite Hz in H. simpl in H. inversion H; subst. auto.
  - intros Hr. apply Hfalse; [exact Hr | lia].
Qed.

Lemma wait_stack_ready_spec_witness :
  fst (wait_stack_ready Demo.cfg (Demo.oracle (Demo.healthy false)) 500
         (Demo.fresh false "on")) = Returned false
  /\ 1500 <= now (world (snd (wait_stack_ready Demo.cfg (Demo.oracle (Demo.healthy false))
                                500 (Demo.fresh false "on")))).
Proof.
  assert (fst (wait_stack_ready Demo.cfg (Demo.oracle (Demo.healthy false)) 500
                 (Demo.fresh false "on")) = Returned false) as Hr
    by (vm_compute; reflexivity).
  split; [exact Hr|].
  destruct (wait_stack_ready_spec Demo.cfg (Demo.oracle (Demo.healthy false)) 500
              (Demo.fresh false "on") _ _ (surjective_pairing _))
    as (_ & _ & _ & Hfalse & _).
  apply Hfalse in Hr. exact Hr.
Defined.

(** X2. The number of status queries of one [wait_stack_ready] is bounded by
    the wait and the poll interval: if it made [n] queries, [n] is zero or
    [(n - 1) * WAIT_POLL_SEC < max_sec]. *)
Theorem wait_stack_ready_polls (cfg : Config) (orc : Oracle) max_sec s r s' :
  wait_stack_ready cfg orc max_sec s = (r, s') ->
  exists evs,
    events_since s s' evs
    /\ forallb (is_status cfg) evs = true
    /\ (evs = [] \/ (Z.of_nat (length evs) - 1) * WAIT_POLL_SEC cfg < max_sec).
Proof.
  intros H.
  pose proof (emits_wait_stack_ready cfg orc max_sec s) as (evs' & Hev' & Hall).
  rewrite H in Hev'. simpl in Hev'.
  unfold wait_stack_ready, bind, time_time in H.
  destruct (wait_stack_loop_polls cfg orc _ _ _ _ _ H) as (evs & Hev & Hb).
  assert (evs' = evs) as ->.
  { unfold events_since in Hev. rewrite Hev in Hev'. apply app_inv_tail in Hev'. auto. }
  exists evs. split; [exact Hev|]. split; [exact Hall|].
  destruct Hb as [->|Hb]; [auto|]. right. lia.
Qed.

Lemma wait_stack_ready_polls_witness :
  exists evs,
    events_since (Demo.fresh false "on")
      (snd (wait_stack_ready Demo.cfg (Demo.oracle (Demo.healthy false)) 500
              (Demo.fresh false "on"))) evs
    /\ (Z.of_nat (length evs) - 1) * 200 < 500.
Proof.
  destruct (wait_stack_ready_polls Demo.cfg (Demo.oracle (Demo.healthy false)) 500
              (Demo.fresh false "on") _ _ (surjective_pairing _))
    as (evs & Hev & _ & Hb).
  exists evs. split; [exact Hev|].
  destruct Hb as [->|Hb]; [simpl; lia | exact Hb].
Defined.

(** ** The order of the supervisor commands *)

Section Ordering.

Variable cfg : Config.
Variable orc : Oracle.

Lemma run_cmd_effect args timeout s p s' :
  run_cmd orc args timeout s = (Returned p, s') ->
  globals s' = globals s
  /\ history (world s') = Spawn args timeout :: history (world s).
Proof.
  unfold run_cmd. destruct (respond orc (world s) args) as [d [q|e]];
    [destruct (timeout <? Z.pos d)|]; intros H; inversion H; subst; simpl; auto.
Qed.

Lemma for_each_stop_effect l s u s' :
  for_each (supervisor_stop cfg orc) l s = (Returned u, s') ->
  globals s' = globals s
  /\ events_since s s' (rev (map (stop_event cfg) l)).
Proof.
  revert s. induction l as [|x l IH]; intros s; simpl.
  - intros H. inversion H; subst. split; reflexivity.
  - intros H. apply bind_inv in H as [([] & s1 & Hx & H)|(e & _ & H)]; [|discriminate].
    unfold supervisor_stop in Hx.
    apply bind_inv in Hx as [(p & s0 & Hrun & Hx)|(e & _ & Hx)]; [|discriminate].
    inversion Hx; subst s0. apply run_cmd_effect in Hrun as [Hg Hh].
    destruct (IH _ H) as [Hg' Hev]. split; [congruence|].
    unfold events_since in *. rewrite Hev, Hh, <- app_assoc. reflexivity.
Qed.

Lemma for_each_start_effect l s u s' :
  for_each (supervisor_start cfg orc) l s = (Returned u, s') ->
  globals s' = globals s
  /\ events_since s s' (rev (map (start_event cfg) l)).
Proof.
  revert s. induction l as [|x l IH]; intros s; simpl.
  - intros H. inversion H; subst. split; reflexivity.
  - intros H. apply bind_inv in H as [([] & s1 & Hx & H)|(e & _ & H)]; [|discriminate].
    unfold supervisor_start in Hx.
    apply bind_inv in Hx as [(p & s0 & Hrun & Hx)|(e & _ & Hx)]; [|discriminate].
    inversion Hx; subst s0. apply run_cmd_effect in Hrun as [Hg Hh].
    destruct (IH _ H) as [Hg' Hev]. split; [congruence|].
    unfold events_since in *. rewrite Hev, Hh, <- app_assoc. reflexivity.
Qed.

Lemma wait_stack_ready_effect max_sec s r s' :
  wait_stack_ready cfg orc max_sec s = (r, s') ->
  globals s' = globals s
  /\ exists polls, forallb (is_status cfg) polls = true /\ events_since s s' polls.
Proof.
  intros H. pose proof (emits_wait_stack_ready cfg orc max_sec s) as (evs & Hev & Hall).
  rewrite H in Hev. simpl in Hev.
  unfold wait_stack_ready, bind, time_time in H.
  apply wait_stack_loop_spec in H as [Hg _]. eauto.
Qed.

Lemma desktop_stack_effect action s b s' :
  desktop_stack cfg orc action s = (Returned b, s') ->
  globals s' = globals s
  /\ if String.eqb (normal_action action) "stop"
     then b = true
          /\ events_since s s' (rev (map (stop_event cfg) (services_stop_order cfg)))
     else exists polls,
            forallb (is_status cfg) polls = true
            /\ events_since s s'
                 (polls
                  ++ rev (map (start_event cfg) (services_start_order cfg))
                  ++ (if String.eqb (normal_action action) "start" then []
                      else rev (map (stop_event cfg) (services_stop_order cfg))))%list.
Proof.
  unfold desktop_stack. fold (normal_action action).
  destruct (String.eqb (normal_action action) "stop").
  { intros H. apply bind_inv in H as [([] & s1 & H1 & H)|(e & _ & H)]; [|discriminate].
    inversion H; subst. apply for_each_stop_effect in H1 as [Hg Hev]. auto. }
  destruct (String.eqb (normal_action action) "start").
  { intros H. apply bind_inv in H as [([] & s1 & H1 & H)|(e & _ & H)]; [|discriminate].
    apply for_each_start_effect in H1 as [Hg1 Hev1].
    apply wait_stack_ready_effect in H as (Hg2 & polls & Hall & Hev2).
    split; [congruence|]. exists polls. split; [exact Hall|].
    unfold events_since in *. rewrite Hev2, Hev1, app_nil_r, <- ?app_assoc. reflexivity. }
  intros H. apply bind_inv in H as [([] & s1 & H1 & H)|(e & _ & H)]; [|discriminate].
  apply bind_inv in H as [([] & s2 & H2 & H)|(e & _ & H)]; [|discriminate].
  apply for_each_stop_effect in H1 as [Hg1 Hev1].
  apply for_each_start_effect in H2 as [Hg2 Hev2].
  apply wait_stack_ready_effect in H as (Hg3 & polls & Hall & Hev3).
  split; [congruence|]. exists polls. split; [exact Hall|].
  unfold events_since in *. rewrite Hev3, Hev2, Hev1, <- ?app_assoc. reflexivity.
Qed.

Lemma wait_x_ready_effect max_sec s r s' :
  wait_x_ready cfg orc max_sec s = (r, s') ->
  exists probes, forallb (is_x_probe cfg) probes = true /\ events_since s s' probes.
Proof.
  intros H. pose proof (emits_wait_x_ready cfg orc max_sec s) as (evs & Hev & Hall).
  rewrite H in Hev. eauto.
Qed.

Lemma wait_x_ready_globals max_sec s r s' :
  wait_x_ready cfg orc max_sec s = (r, s') -> globals s' = globals s.
Proof.
  assert (forall end_ fuel s r s',
             wait_x_custom_loop cfg orc fuel end_ s = (r, s') -> globals s' = globals s)
    as Hcustom.
  { intros end_ fuel. induction fuel as [|fuel IH]; intros s0 r0 s0'.
    - simpl. intros H. inversion H; reflexivity.
    - rewrite wait_x_custom_loop_step. destruct (_ <? _); [|intros H; inversion H; auto].
      destruct (run_cmd orc _ (sec 3) s0) as [[p|e] s1] eqn:Hrun.
      + apply run_cmd_effect in Hrun as [Hg _].
        destruct (returncode p =? 0); [intros H; inversion H; subst; auto|].
        destruct (time_sleep _ s1) as [[u|e] s2] eqn:Hs; apply sleep_globals in Hs.
        * intros H. apply IH in H. congruence.
        * intros H. inversion H; subst. congruence.
      + intros H. inversion H; subst.
        unfold run_cmd in Hrun. destruct (respond orc _ _) as [d [q|e']];
          [destruct (sec 3 <? Z.pos d)|]; inversion Hrun; subst; reflexivity. }
  assert (forall s r s', run_probes orc probes s = (r, s') -> globals s' = globals s)
    as Hprobes.
  { assert (forall cmd s r s', probe_rc orc cmd s = (r, s') -> globals s' = globals s)
      as Hone.
    { intros cmd s0 r0 s0'. unfold probe_rc, run_cmd.
      destruct (respond orc _ _) as [d [q|e']];
        [destruct (sec 3 <? Z.pos d)|destruct e'];
        intros H; inversion H; subst; reflexivity. }
    intros s0 r0 s0'. unfold probes. simpl. intros H.
    apply bind_inv in H as [(rc & s1 & H1 & H)|(e & H1 & _)].
    2:{ eapply Hone; eassumption. }
    apply Hone in H1. destruct (rc =? 0); [inversion H; subst; auto|].
    apply bind_inv in H as [(rc' & s2 & H2 & H)|(e & H2 & _)].
    2:{ apply Hone in H2. congruence. }
    apply Hone in H2. destruct (rc' =? 0); inversion H; subst; congruence. }
  assert (forall end_ fuel s r s',
             wait_x_probe_loop cfg orc fuel end_ s = (r, s') -> globals s' = globals s)
    as Hdefault.
  { intros end_ fuel. induction fuel as [|fuel IH]; intros s0 r0 s0'.
    - simpl. intros H. inversion H; reflexivity.
    - rewrite wait_x_probe_loop_step. destruct (_ <? _); [|intros H; inversion H; auto].
      destruct (run_probes orc probes s0) as [[hit|e] s1] eqn:Hrun; apply Hprobes in Hrun.
      + destruct hit; [intros H; inversion H; subst; auto|].
        destruct (time_sleep _ s1) as [[u|e] s2] eqn:Hs; apply sleep_globals in Hs.
        * intros H. apply IH in H. congruence.
        * intros H. inversion H; subst. congruence.
      + intros H. inversion H; subst. exact Hrun. }
  unfold wait_x_ready. destruct (PyStr.truthy _); unfold bind, time_time;
    [apply Hcustom | apply Hdefault].
Qed.

(** The restart phase, spelled out for the runs in which it returns. *)
Lemma restart_phase_trace force running s b s' :
  restart_phase cfg orc force running s = (Returned b, s') ->
  b = (force || negb running)
  /\ _switch_lock (globals s') = _switch_lock (globals s)
  /\ _current_mode (globals s') = _current_mode (globals s)
  /\ _last_apply_ts (globals s') = _last_apply_ts (globals s)
  /\ if force || negb running
     then exists ok_stack sd probes polls,
            desktop_stack cfg orc (if force then "restart" else "start") s
              = (Returned ok_stack, sd)
            /\ _last_switch_ts (globals s') = now (world sd)
            /\ forallb (is_x_probe cfg) probes = true
            /\ forallb (is_status cfg) polls = true
            /\ (ok_stack = false -> probes = [])
            /\ events_since s s' (restart_events cfg force probes polls)
     else s' = s.
Proof.
  intros H. pose proof (restart_phase_result _ _ _ _ _ _ _ H) as Hb.
  split; [exact Hb|]. unfold restart_phase in H.
  destruct (force || negb running) eqn:Hneed.
  2:{ inversion H; subst. auto. }
  apply bind_inv in H as [(ok_stack & sd & Hd & H)|(e & _ & H)]; [|discriminate].
  unfold bind at 1, time_time at 1, bind at 1, write_globals at 1 in H.
  apply bind_inv in H as [([] & sx & Hx & H)|(e & _ & H)]; [|discriminate].
  inversion H; subst sx b; clear H.
  pose proof (desktop_stack_effect _ _ _ _ Hd) as [Hg Hev].
  assert (String.eqb (normal_action (if force then "restart" else "start")) "stop" = false)
    as Hns by (destruct force; reflexivity).
  rewrite Hns in Hev. destruct Hev as (polls & Hall & Hev).
  assert ((if String.eqb (normal_action (if force then "restart" else "start")) "start"
           then [] else rev (map (stop_event cfg) (services_stop_order cfg)))
          = (if force then rev (map (stop_event cfg) (services_stop_order cfg)) else []))
    as Hst by (destruct force; reflexivity).
  rewrite Hst in Hev.
  destruct ok_stack.
  - apply bind_inv in Hx as [(u & sw & Hw & Hx)|(e & _ & Hx)]; [|discriminate].
    inversion Hx; subst sw.
    pose proof (wait_x_ready_globals _ _ _ _ Hw) as Hgw.
    apply wait_x_ready_effect in Hw as (probes & Hp & Hevw).
    rewrite Hgw. simpl. rewrite Hg.
    split; [reflexivity|]. split; [reflexivity|]. split; [reflexivity|].
    exists true, sd, probes, polls.
    split; [exact Hd|]. split; [reflexivity|]. split; [exact Hp|].
    split; [exact Hall|]. split; [discriminate|].
    unfold events_since, restart_events in *. rewrite Hevw. simpl. rewrite Hev.
    rewrite <- ?app_assoc. reflexivity.
  - inversion Hx; subst s'. simpl. rewrite Hg.
    split; [reflexivity|]. split; [reflexivity|]. split; [reflexivity|].
    exists false, sd, [], polls.
    split; [exact Hd|]. split; [reflexivity|]. split; [reflexivity|].
    split; [exact Hall|]. split; [reflexivity|].
    unfold events_since, restart_events in *. simpl. exact Hev.
Qed.

End Ordering.

(** ** What a call does to the services *)

Section ServiceEffects.

Variable cfg : Config.
Variable orc : Oracle.

Lemma status_leaves_services e :
  is_status cfg e = true -> leaves_services cfg e = true.
Proof. intros H. apply bool_decide_eq_true in H. subst. reflexivity. Qed.

Lemma x_probe_leaves_services e :
  is_x_probe cfg e = true -> leaves_services cfg e = true.
Proof.
  unfold is_x_probe, is_default_probe. destruct (PyStr.truthy _); intros H.
  - apply bool_decide_eq_true in H. subst. unfold leaves_services. simpl.
    rewrite !bool_decide_eq_false_2; [reflexivity| |]; intros E; inversion E.
  - apply orb_true_iff in H as [H|H]; apply bool_decide_eq_true in H; subst; reflexivity.
Qed.

Lemma start_not_stop e : is_start cfg e = true -> not_stop cfg e = true.
Proof.
  intros H. apply is_start_true in H as [name ->]. unfold not_stop. simpl.
  rewrite bool_decide_eq_false_2; [reflexivity|]. intros E; inversion E.
Qed.

Lemma leaves_services_not_stop e : leaves_services cfg e = true -> not_stop cfg e = true.
Proof. unfold leaves_services, not_stop. intros H. apply andb_true_iff in H as [H _]. exact H. Qed.

Lemma emits_try_finally {A} P (body : M A) (handler : M unit) :
  emits P body -> emits P handler -> emits P (try_finally body handler).
Proof.
  intros Hb Hh s. unfold try_finally. specialize (Hb s).
  destruct (body s) as [r s1]. specialize (Hh s1).
  destruct (handler s1) as [[u|e] s2]; simpl in *;
    eapply only_events_trans; eassumption.
Qed.

Lemma emits_set_kiosk_mode P mode :
  P (exists_event cfg) = true -> P (toggle_event cfg mode) = true ->
  emits P (set_kiosk_mode cfg orc mode).
Proof.
  intros He Ht. unfold set_kiosk_mode. apply emits_bind.
  - intros s. exists [exists_event cfg]. simpl. rewrite He. auto.
  - intros present. destruct (negb present); [apply emits_ret|].
    apply emits_bind; [apply emits_run_cmd, Ht | intros p; apply emits_ret].
Qed.

Lemma emits_apply_phase P an mode :
  P (exists_event cfg) = true -> P (toggle_event cfg mode) = true ->
  emits P (apply_phase cfg orc an mode).
Proof.
  intros He Ht. unfold apply_phase. destruct an; [|apply emits_ret].
  apply emits_bind; [apply emits_set_kiosk_mode; assumption|]. intros [ok_mode msg].
  apply emits_bind; [|intros _; apply emits_ret].
  destruct ok_mode; [|apply emits_ret].
  apply emits_bind; [apply emits_write|]. intros _.
  apply emits_bind; [apply emits_time|]. intros t.
  apply emits_bind; [apply emits_write|]. intros _.
  destruct (0 <? _); [apply emits_sleep | apply emits_ret].
Qed.

Lemma emits_build_status_payload P :
  P (status_event cfg) = true -> emits P (build_status_payload cfg orc).
Proof.
  intros Hs. unfold build_status_payload. apply emits_bind.
  - eapply emits_weaken; [|apply emits_status].
    intros e He. apply bool_decide_eq_true in He. subst. exact Hs.
  - intros st. apply emits_bind; [apply emits_read | intros g; apply emits_ret].
Qed.

Lemma emits_report_phase P restarted an desired applied :
  P (status_event cfg) = true ->
  emits P (report_phase cfg orc restarted an desired applied).
Proof.
  intros Hs. unfold report_phase. destruct applied as [ok_mode msg].
  apply emits_bind; [apply emits_build_status_payload, Hs|]. intros payload.
  apply emits_bind; [apply emits_read | intros g; apply emits_ret].
Qed.

Lemma emits_desktop_stack_start :
  emits (not_stop cfg) (desktop_stack cfg orc "start").
Proof.
  change (desktop_stack cfg orc "start")
    with (for_each (supervisor_start cfg orc) (services_start_order cfg) ;;;
          wait_stack_ready cfg orc (WAIT_MAX_SEC cfg)).
  apply emits_bind.
  - apply emits_for_each. intros name _.
    eapply emits_weaken; [apply start_not_stop | apply emits_start].
  - intros _. eapply emits_weaken; [|apply emits_wait_stack_ready].
    intros e He. apply leaves_services_not_stop, status_leaves_services, He.
Qed.

Lemma emits_restart_phase_nonforced running :
  emits (not_stop cfg) (restart_phase cfg orc false running).
Proof.
  unfold restart_phase. destruct (false || negb running); [|apply emits_ret].
  apply emits_bind; [apply emits_desktop_stack_start|]. intros ok_stack.
  apply emits_bind; [apply emits_time|]. intros t.
  apply emits_bind; [apply emits_write|]. intros _.
  apply emits_bind; [|intros _; apply emits_ret].
  destruct ok_stack; [|apply emits_ret].
  apply emits_bind; [|intros _; apply emits_ret].
  eapply emits_weaken; [|apply emits_wait_x_ready].
  intros e He. apply leaves_services_not_stop, x_probe_leaves_services, He.
Qed.

Lemma emits_after_restart P force restarted want :
  P (status_event cfg) = true -> P (exists_event cfg) = true ->
  P (toggle_event cfg (desired_mode_of want)) = true ->
  emits P
    (g <- read_globals ;;
     applied <-
       apply_phase cfg orc
         (force || restarted
          || negb (String.eqb (_current_mode g) (desired_mode_of want)))
         (desired_mode_of want) ;;
     report_phase cfg orc restarted
       (force || restarted || negb (String.eqb (_current_mode g) (desired_mode_of want)))
       (desired_mode_of want) applied).
Proof.
  intros Hs He Ht. apply emits_bind; [apply emits_read|]. intros g.
  apply emits_bind; [apply emits_apply_phase; assumption|]. intros applied.
  apply emits_report_phase, Hs.
Qed.

Lemma emits_ensure_ready_nonforced want :
  emits (not_stop cfg) (ensure_ready cfg orc false want).
Proof.
  unfold ensure_ready. apply emits_bind.
  { unfold lock_acquire_nonblocking. apply emits_bind; [apply emits_read|]. intros g.
    destruct (_switch_lock g); [apply emits_ret|].
    apply emits_bind; [apply emits_write | intros _; apply emits_ret]. }
  intros acquired. destruct (negb acquired).
  { apply emits_bind; [apply emits_build_status_payload; reflexivity|].
    intros payload. apply emits_ret. }
  apply emits_try_finally; [|apply emits_write].
  rewrite ensure_ready_locked_phases.
  apply emits_bind.
  { eapply emits_weaken; [|apply emits_status].
    intros e He. apply leaves_services_not_stop, status_leaves_services, He. }
  intros st. apply emits_bind; [apply emits_restart_phase_nonforced|]. intros restarted.
  apply emits_after_restart; destruct want; reflexivity.
Qed.

End ServiceEffects.

(** X3. A call that is not forced never stops a service, whatever its
    outcome; and when the status query shows the stack running it starts
    none either. *)
Theorem non_forced_call_never_stops (cfg : Config) (orc : Oracle) want s r s' :
  ensure_ready cfg orc false want s = (r, s') ->
  only_events (not_stop cfg) s s'
  /\ (stack_up cfg orc s -> only_events (leaves_services cfg) s s').
Proof.
  intros H. split.
  { pose proof (emits_ensure_ready_nonforced cfg orc want s) as He.
    rewrite H in He. exact He. }
  intros (st & sq & Hq & Hup).
  destruct (_switch_lock (globals s)) eqn:Hl.
  { rewrite (ensure_ready_busy _ _ _ _ _ Hl) in H.
    pose proof (emits_status cfg orc s) as He.
    eapply only_events_weaken; [apply status_leaves_services|].
    destruct (supervisor_status_map cfg orc s) as [[st'|e] s1];
      inversion H; subst; exact He. }
  rewrite (ensure_ready_free _ _ _ _ _ Hl) in H. inversion H; subst r s'; clear H.
  assert (only_events (leaves_services cfg) (with_lock true s)
            (snd (ensure_ready_locked cfg orc false want (with_lock true s)))) as Hbody.
  { rewrite ensure_ready_locked_phases.
    destruct (status_world cfg orc (with_lock true s) s eq_refl) as [Hfst _].
    rewrite Hq in Hfst. simpl in Hfst.
    pose proof (emits_status cfg orc (with_lock true s)) as He0.
    destruct (supervisor_status_map cfg orc (with_lock true s)) as [r0 s0] eqn:H0.
    simpl in Hfst. subst r0.
    rewrite (bind_returned _ _ _ _ _ H0).
    rewrite Hup. unfold restart_phase at 1. cbn [orb negb].
    rewrite (bind_returned _ _ s0 false s0 eq_refl).
    eapply only_events_trans.
    - eapply only_events_weaken; [apply status_leaves_services | exact He0].
    - apply (emits_after_restart cfg orc (leaves_services cfg) false false want);
        destruct want; reflexivity. }
  destruct Hbody as (evs & Hev & Hall). exists evs. split; [exact Hev | exact Hall].
Qed.

Lemma non_forced_call_never_stops_witness :
  only_events (not_stop Demo.cfg) (Demo.fresh false "unknown") (snd run_cold_start).
Proof.
  destruct (non_forced_call_never_stops Demo.cfg (Demo.oracle (Demo.healthy false)) true
              (Demo.fresh false "unknown") _ _ (surjective_pairing _)) as [H _].
  exact H.
Defined.

(** ** Results of a call, phase by phase *)

Section Results.

Variable cfg : Config.
Variable orc : Oracle.

Lemma ensure_ready_returned_phases force want s code payload s' :
  _switch_lock (globals s) = false ->
  ensure_ready cfg orc force want s = (Returned (code, payload), s') ->
  exists st0 s0 s1 ok_mode msg_mode s2 st s3,
    supervisor_status_map cfg orc (with_lock true s) = (Returned st0, s0)
    /\ let restarted := force || negb (stack_running cfg st0) in
       let apply_needed :=
         force || restarted
         || negb (String.eqb (_current_mode (globals s)) (desired_mode_of want)) in
       restart_phase cfg orc force (stack_running cfg st0) s0 = (Returned restarted, s1)
       /\ apply_phase cfg orc apply_needed (desired_mode_of want) s1
          = (Returned (ok_mode, msg_mode), s2)
       /\ supervisor_status_map cfg orc s2 = (Returned st, s3)
       /\ s' = with_lock false s3
       /\ let ok_all :=
            stack_running cfg st && ok_mode
            && String.eqb (_current_mode (globals s3)) (desired_mode_of want) in
          code = (if ok_all then 200 else 202)
          /\ payload =
             dict_update (status_payload cfg st (globals s3))
               (result_fields restarted apply_needed (desired_mode_of want)
                  ok_mode msg_mode (stack_running cfg st) ok_all).
Proof.
  intros Hl H. rewrite (ensure_ready_free _ _ _ _ _ Hl) in H.
  destruct (ensure_ready_locked cfg orc force want (with_lock true s)) as [rb sb] eqn:Hb.
  simpl in H. inversion H; subst rb s'; clear H.
  rewrite ensure_ready_locked_phases in Hb.
  apply bind_inv in Hb as [(st0 & s0 & H0 & Hb)|(e & _ & Hb)]; [|discriminate].
  apply bind_inv in Hb as [(b & s1 & H1 & Hb)|(e & _ & Hb)]; [|discriminate].
  pose proof (restart_phase_trace _ _ _ _ _ _ _ H1) as (Hbv & _ & Hm & _).
  subst b.
  pose proof (status_effect _ _ _ _ _ H0) as [Hg0 _].
  unfold bind at 1, read_globals at 1 in Hb. simpl in Hb.
  rewrite Hm, Hg0 in Hb. simpl in Hb.
  apply bind_inv in Hb as [([ok_mode msg_mode] & s2 & H2 & Hb)|(e & _ & Hb)]; [|discriminate].
  rewrite report_phase_eq in Hb.
  destruct (supervisor_status_map cfg orc s2) as [[st|e] s3] eqn:Hsnap; [|discriminate].
  simpl in Hb. inversion Hb; subst; clear Hb.
  exists st0, s0, s1, ok_mode, msg_mode, s2, st, sb. simpl. auto 10.
Qed.

Lemma apply_phase_trace an want s ok_mode msg s' :
  apply_phase cfg orc an (desired_mode_of want) s = (Returned (ok_mode, msg), s') ->
  _last_switch_ts (globals s') = _last_switch_ts (globals s)
  /\ msg <> ""
  /\ if an
     then exists apply_evs,
            events_since s s' apply_evs
            /\ (apply_evs = [exists_event cfg]
                \/ apply_evs = [toggle_event cfg (desired_mode_of want); exists_event cfg])
     else s' = s.
Proof.
  destruct an.
  2:{ rewrite apply_phase_skipped. intros H. inversion H; subst. auto. }
  intros H. apply apply_phase_attempted in H as (rk & sk & Hk & Hh & Hm).
  pose proof (set_kiosk_mode_effect _ _ _ _ _ _ Hk) as [Hg Hev].
  assert (msg <> "") as Hmsg.
  { unfold set_kiosk_mode in Hk.
    apply bind_inv in Hk as [(present & s1 & _ & Hk)|(e & _ & Hk)].
    2:{ subst rk. destruct Hm; discriminate. }
    assert (rk = Returned (ok_mode, msg)) as ->.
    { destruct rk as [[[|] m]|e]; destruct Hm as [Hm _]; inversion Hm; reflexivity. }
    destruct (negb present).
    - inversion Hk. discriminate.
    - apply bind_inv in Hk as [(p & s2 & _ & Hk)|(e & _ & Hk)]; [|discriminate].
      unfold ret in Hk. injection Hk as _ Hmsg _. subst msg.
      destruct (PyStr.truthy (if PyStr.truthy (PyStr.strip (stdout p))
                              then PyStr.strip (stdout p) else PyStr.strip (stderr p)))
        eqn:Ht; [|discriminate].
      intros E. rewrite E in Ht. discriminate. }
  split.
  { destruct rk as [[[|] m]|e].
    - destruct Hm as [_ ->]. reflexivity.
    - destruct Hm as [_ ->]. rewrite Hg. reflexivity.
    - destruct Hm; discriminate. }
  split; [exact Hmsg|].
  destruct (path_exists orc (world s) (KIOSK_SCRIPT cfg)).
  - exists [toggle_event cfg (desired_mode_of want); exists_event cfg].
    split; [|auto]. unfold events_since. rewrite Hh, Hev. reflexivity.
  - destruct Hev as (Hev & _). exists [exists_event cfg].
    split; [|auto]. unfold events_since. rewrite Hh, Hev. reflexivity.
Qed.

End Results.

(** X4. The order of the external actions of a call that took the lock and
    returned: a status query; when the call restarts ([changed]), the stops
    in stop order (forced calls only), the starts in start order, the status
    polls and then the display probes (only when the stack came up); when the
    call applies the mode ([applied]), the existence check of the script and,
    if it exists, the toggle; a closing status query. Nothing else. *)
Theorem ensure_ready_trace (cfg : Config) (orc : Oracle) force want s code payload s' :
  _switch_lock (globals s) = false ->
  ensure_ready cfg orc force want s = (Returned (code, payload), s') ->
  exists (restarted applied : bool) (probes polls apply_evs : list event),
    payload !! "changed" = Some (PyBool restarted)
    /\ payload !! "applied" = Some (PyBool applied)
    /\ forallb (is_x_probe cfg) probes = true
    /\ forallb (is_status cfg) polls = true
    /\ (apply_evs = [exists_event cfg]
        \/ apply_evs = [toggle_event cfg (desired_mode_of want); exists_event cfg])
    /\ events_since s s' (call_events cfg force restarted applied probes polls apply_evs).
Proof.
  intros Hl H.
  destruct (ensure_ready_returned_phases cfg orc _ _ _ _ _ _ Hl H)
    as (st0 & s0 & s1 & ok_mode & msg_mode & s2 & st & s3
        & H0 & H1 & H2 & Hsnap & -> & _ & ->).
  cbv zeta in H1, H2.
  set (restarted := force || negb (stack_running cfg st0)) in *.
  set (an := force || restarted
             || negb (String.eqb (_current_mode (globals s)) (desired_mode_of want))) in *.
  match goal with
  | |- context [dict_update (status_payload _ ?a ?b) (result_fields ?c ?d ?e ?f ?g ?h ?i)] =>
      destruct (result_lookup cfg a b c d e f g h i)
        as (_ & _ & Hc & _ & Happ & _)
  end.
  simpl in Hc, Happ.
  apply status_effect in H0 as [_ Hh0]. simpl in Hh0.
  apply status_effect in Hsnap as [_ Hh3].
  apply restart_phase_trace in H1 as (_ & _ & _ & _ & Hr).
  apply apply_phase_trace in H2 as (_ & _ & Ha).
  fold restarted in Hr.
  assert (exists probes polls,
             forallb (is_x_probe cfg) probes = true
             /\ forallb (is_status cfg) polls = true
             /\ events_since s0 s1
                  (if restarted then restart_events cfg force probes polls else []))
    as (probes & polls & Hp & Hq & Hev1).
  { destruct restarted.
    - destruct Hr as (ok_stack & sd & probes & polls & _ & _ & Hp & Hq & _ & Hev). eauto.
    - subst s1. exists [], []. repeat split; reflexivity. }
  assert (exists apply_evs,
             (apply_evs = [exists_event cfg]
              \/ apply_evs = [toggle_event cfg (desired_mode_of want); exists_event cfg])
             /\ events_since s1 s2 (if an then apply_evs else []))
    as (apply_evs & Hshape & Hev2).
  { destruct an.
    - destruct Ha as (evs & Hev & Hs). eauto.
    - subst s2. exists [exists_event cfg]. split; [auto | reflexivity]. }
  exists restarted, an, probes, polls, apply_evs.
  split; [exact Hc|]. split; [exact Happ|]. split; [exact Hp|]. split; [exact Hq|].
  split; [exact Hshape|].
  unfold events_since, call_events in *. simpl.
  rewrite Hh3, Hev2, Hev1, Hh0, <- ?app_assoc. reflexivity.
Qed.

Lemma ensure_ready_trace_witness :
  exists restarted applied probes polls apply_evs,
    events_since (Demo.fresh false "unknown") (snd run_cold_start)
      (call_events Demo.cfg false restarted applied probes polls apply_evs).
Proof.
  assert (returned_with 200 run_cold_start = true) as Hrun by (vm_compute; reflexivity).
  apply returned_with_eq in Hrun.
  destruct (ensure_ready_trace Demo.cfg (Demo.oracle (Demo.healthy false)) false true
              (Demo.fresh false "unknown") 200 _ _ eq_refl Hrun)
    as (restarted & applied & probes & polls & apply_evs & _ & _ & _ & _ & _ & Hev).
  eauto 10.
Defined.

(** X5. [_last_switch_ts] is written exactly by the calls that restart: in a
    result with [changed] false it is as before the call, and in a result
    with [changed] true it is the clock read when [desktop_stack] had
    returned, also when [desktop_stack] answered false (the stack did not
    come up). The [last_switch_ts] field of the result is its value after
    the call. *)
Theorem last_switch_ts_spec (cfg : Config) (orc : Oracle) force want s code payload s' :
  _switch_lock (globals s) = false ->
  ensure_ready cfg orc force want s = (Returned (code, payload), s') ->
  payload !! "last_switch_ts" = Some (PyFloat (_last_switch_ts (globals s')))
  /\ (payload !! "changed" = Some (PyBool false) ->
      _last_switch_ts (globals s') = _last_switch_ts (globals s))
  /\ (payload !! "changed" = Some (PyBool true) ->
      exists sq ok_stack sd,
        desktop_stack cfg orc (if force then "restart" else "start") sq
          = (Returned ok_stack, sd)
        /\ _last_switch_ts (globals s') = now (world sd)).
Proof.
  intros Hl H.
  destruct (ensure_ready_returned_phases cfg orc _ _ _ _ _ _ Hl H)
    as (st0 & s0 & s1 & ok_mode & msg_mode & s2 & st & s3
        & H0 & H1 & H2 & Hsnap & -> & _ & ->).
  cbv zeta in H1, H2.
  set (restarted := force || negb (stack_running cfg st0)) in *.
  match goal with
  | |- context [dict_update (status_payload _ ?a ?b) (result_fields ?c ?d ?e ?f ?g ?h ?i)] =>
      destruct (result_lookup cfg a b c d e f g h i) as (_ & _ & Hc & _);
      assert (dict_update (status_payload cfg a b) (result_fields c d e f g h i)
                !! "last_switch_ts" = Some (PyFloat (_last_switch_ts b))) as Hts
        by (unfold dict_update, result_fields, status_payload; simpl;
            simplify_map_eq; reflexivity)
  end.
  simpl in Hc. rewrite Hc.
  apply status_effect in H0 as [Hg0 _].
  apply status_effect in Hsnap as [Hg3 _].
  apply restart_phase_trace in H1 as (_ & _ & _ & _ & Hr). fold restarted in Hr.
  apply apply_phase_trace in H2 as (Hsw & _). clearbody restarted.
  assert (_last_switch_ts (globals (with_lock false s3)) = _last_switch_ts (globals s1))
    as Hlast by (simpl; rewrite Hg3; exact Hsw).
  split; [exact Hts|]. split.
  - intros E. inversion E as [E']. rewrite E' in Hr. subst s1.
    etransitivity; [exact Hlast|]. rewrite Hg0. reflexivity.
  - intros E. inversion E as [E']. rewrite E' in Hr.
    destruct Hr as (ok_stack & sd & probes & polls & Hd & Hts' & _).
    exists s0, ok_stack, sd. split; [exact Hd|].
    etransitivity; [exact Hlast | exact Hts'].
Qed.

Lemma last_switch_ts_spec_witness :
  payload_of run_cold_start !! "last_switch_ts"
  = Some (PyFloat (_last_switch_ts (globals (snd run_cold_start)))).
Proof.
  assert (returned_with 200 run_cold_start = true) as Hrun by (vm_compute; reflexivity).
  apply returned_with_eq in Hrun.
  destruct (last_switch_ts_spec Demo.cfg (Demo.oracle (Demo.healthy false)) false true
              (Demo.fresh false "unknown") 200 _ _ eq_refl Hrun) as [Hts _].
  exact Hts.
Defined.

(** X6. [desktop_stack] on a normalised action (lower case, stripped):
    [stop] stops every service in stop order and answers true; [start]
    starts every service in start order and then polls the status; every
    other action, the empty one included, is a restart: all stops, then all
    starts, then the polls. No global is written, and a true answer of a
    start or restart means that the last poll showed the stack running. *)
Theorem desktop_stack_order (cfg : Config) (orc : Oracle) action s b s' :
  desktop_stack cfg orc action s = (Returned b, s') ->
  globals s' = globals s
  /\ (if String.eqb (normal_action action) "stop"
      then b = true
           /\ events_since s s' (rev (map (stop_event cfg) (services_stop_order cfg)))
      else (exists polls,
              forallb (is_status cfg) polls = true
              /\ events_since s s'
                   (polls
                    ++ rev (map (start_event cfg) (services_start_order cfg))
                    ++ (if String.eqb (normal_action action) "start" then []
                        else rev (map (stop_event cfg) (services_stop_order cfg))))%list)
           /\ (b = true ->
               exists sq st,
                 supervisor_status_map cfg orc sq = (Returned st, s')
                 /\ stack_running cfg st = true)).
Proof.
  intros H. pose proof (desktop_stack_effect cfg orc _ _ _ _ H) as [Hg Hev].
  split; [exact Hg|].
  destruct (String.eqb (normal_action action) "stop") eqn:Hstop; [exact Hev|].
  split; [exact Hev|]. intros ->.
  assert (exists sw, wait_stack_ready cfg orc (WAIT_MAX_SEC cfg) sw = (Returned true, s'))
    as [sw Hw].
  { unfold desktop_stack in H. fold (normal_action action) in H. rewrite Hstop in H.
    destruct (String.eqb (normal_action action) "start").
    - apply bind_inv in H as [([] & s1 & _ & H)|(e & _ & H)]; [eauto | discriminate].
    - apply bind_inv in H as [([] & s1 & _ & H)|(e & _ & H)]; [|discriminate].
      apply bind_inv in H as [([] & s2 & _ & H)|(e & _ & H)]; [eauto | discriminate]. }
  unfold wait_stack_ready, bind, time_time in Hw.
  apply wait_stack_loop_spec in Hw as (_ & Htrue & _). apply Htrue. reflexivity.
Qed.

Lemma desktop_stack_order_witness :
  events_since (Demo.fresh false "on")
    (snd (desktop_stack Demo.cfg (Demo.oracle (Demo.healthy true)) " STOP "
            (Demo.fresh false "on")))
    [stop_event Demo.cfg "xfce"].
Proof.
  assert (exists b, fst (desktop_stack Demo.cfg (Demo.oracle (Demo.healthy true)) " STOP "
                           (Demo.fresh false "on")) = Returned b) as [b Hb]
    by (eexists; vm_compute; reflexivity).
  destruct (desktop_stack_order Demo.cfg (Demo.oracle (Demo.healthy true)) " STOP "
              (Demo.fresh false "on") b _
              (eq_trans (surjective_pairing _) (f_equal2 pair Hb eq_refl)))
    as [_ [_ Hev]].
  exact Hev.
Defined.

(** X7. The [message] field classifies a result of a call that took the
    lock: [ready] exactly when [ok] is true (and then the status is 200),
    [starting] exactly when the closing snapshot does not show the stack
    running, whatever became of the mode, and [applying] exactly when the
    stack runs but the call is not ok. *)
Theorem message_classifies_result (cfg : Config) (orc : Oracle)
    force want s code payload s' :
  _switch_lock (globals s) = false ->
  ensure_ready cfg orc force want s = (Returned (code, payload), s') ->
  exists (ok running : bool) (msg : string),
    payload !! "ok" = Some (PyBool ok)
    /\ payload !! "running" = Some (PyBool running)
    /\ payload !! "message" = Some (PyStr msg)
    /\ (msg = "ready" <-> ok = true)
    /\ (msg = "starting" <-> running = false)
    /\ (msg = "applying" <-> running = true /\ ok = false)
    /\ (code = 200 <-> msg = "ready")
    /\ (running = false -> ok = false).
Proof.
  intros Hl H.
  destruct (ensure_ready_returned cfg orc _ _ _ _ _ _ Hl H)
    as (st0 & s1 & ok_mode & msg_mode & s2 & st & s3
        & _ & _ & _ & _ & _ & -> & Hcode & ->).
  match goal with
  | |- context [dict_update (status_payload _ ?a ?b) (result_fields ?c ?d ?e ?f ?g ?h ?i)] =>
      destruct (result_lookup cfg a b c d e f g h i)
        as (Hok & _ & _ & _ & _ & _ & _ & Hm & Hrun & _)
  end.
  simpl in Hok, Hm, Hrun. cbv zeta in Hcode.
  eexists _, _, _. split; [exact Hok|]. split; [exact Hrun|]. split; [exact Hm|].
  rewrite Hcode.
  destruct (stack_running cfg st), ok_mode,
    (String.eqb (_current_mode (globals s3)) (desired_mode_of want));
    simpl; repeat split; intros; try discriminate; try reflexivity;
    try (match goal with H : _ /\ _ |- _ => destruct H end; discriminate).
Qed.

Lemma message_classifies_result_witness :
  payload_of run_missing_script !! "message" = Some (PyStr "applying").
Proof.
  assert (returned_with 202 run_missing_script = true) as Hrun by (vm_compute; reflexivity).
  apply returned_with_eq in Hrun.
  destruct (message_classifies_result Demo.cfg (Demo.oracle Demo.no_script)
              true false (Demo.fresh false "on") 202 _ _ eq_refl Hrun)
    as (ok & running & msg & Hok & Hr & Hm & _ & _ & Happ & _).
  assert (payload_of run_missing_script !! "ok" = Some (PyBool false)) as Hok'
    by (vm_compute; reflexivity).
  assert (payload_of run_missing_script !! "running" = Some (PyBool true)) as Hr'
    by (vm_compute; reflexivity).
  rewrite Hok' in Hok. rewrite Hr' in Hr. inversion Hok; inversion Hr; subst.
  rewrite Hm. f_equal. f_equal. apply Happ. auto.
Defined.

(** X8. The [mode_msg] field of a result of a call that took the lock is
    never the empty string: it is [skipped] when the apply was skipped (and
    then [mode_ok] is true), and otherwise the message [set_kiosk_mode]
    answered, which is the script's output, [ok], or [missing_script:...]. *)
Theorem mode_msg_never_empty (cfg : Config) (orc : Oracle)
    force want s code payload s' :
  _switch_lock (globals s) = false ->
  ensure_ready cfg orc force want s = (Returned (code, payload), s') ->
  exists (applied mode_ok : bool) (msg : string),
    payload !! "applied" = Some (PyBool applied)
    /\ payload !! "mode_ok" = Some (PyBool mode_ok)
    /\ payload !! "mode_msg" = Some (PyStr msg)
    /\ msg <> ""
    /\ if applied
       then exists sk sk',
              set_kiosk_mode cfg orc (desired_mode_of want) sk
                = (Returned (mode_ok, msg), sk')
       else msg = "skipped" /\ mode_ok = true.
Proof.
  intros Hl H.
  destruct (ensure_ready_returned cfg orc _ _ _ _ _ _ Hl H)
    as (st0 & s1 & ok_mode & msg_mode & s2 & st & s3
        & _ & _ & Hap & _ & _ & -> & _ & ->).
  cbv zeta in Hap.
  set (an := force || (force || negb (stack_running cfg st0))
             || negb (String.eqb (_current_mode (globals s)) (desired_mode_of want))) in *.
  match goal with
  | |- context [dict_update (status_payload _ ?a ?b) (result_fields ?c ?d ?e ?f ?g ?h ?i)] =>
      destruct (result_lookup cfg a b c d e f g h i)
        as (_ & _ & _ & _ & Happ & Hmok & Hmsg & _)
  end.
  simpl in Happ, Hmok, Hmsg. clearbody an.
  exists an, ok_mode, msg_mode.
  split; [exact Happ|]. split; [exact Hmok|]. split; [exact Hmsg|].
  pose proof (apply_phase_trace cfg orc _ _ _ _ _ _ Hap) as (_ & Hne & _).
  split; [exact Hne|].
  destruct an.
  - apply apply_phase_attempted in Hap as (rk & sk & Hk & _ & Hm).
    exists s1, sk. rewrite Hk. f_equal.
    destruct rk as [[[|] m]|e]; destruct Hm as [Hm _]; inversion Hm; reflexivity.
  - rewrite apply_phase_skipped in Hap. inversion Hap; subst. auto.
Qed.

Lemma mode_msg_never_empty_witness :
  exists msg, payload_of run_missing_script !! "mode_msg" = Some (PyStr msg) /\ msg <> "".
Proof.
  assert (returned_with 202 run_missing_script = true) as Hrun by (vm_compute; reflexivity).
  apply returned_with_eq in Hrun.
  destruct (mode_msg_never_empty Demo.cfg (Demo.oracle Demo.no_script)
              true false (Demo.fresh false "on") 202 _ _ eq_refl Hrun)
    as (applied & mode_ok & msg & _ & _ & Hm & Hne & _).
  eauto.
Defined.

(** ** The status payload and the fail-open policy *)

Section Payload.

Variable cfg : Config.
Variable orc : Oracle.

Lemma status_payload_services st g :
  exists svc : gmap string string,
    status_payload cfg st g !! "services" = Some (PyDict svc)
    /\ dom svc = list_to_set (services_start_order cfg)
    /\ forall name,
         name ∈ services_start_order cfg ->
         svc !! name = Some (default "UNKNOWN" (st !! name)).
Proof.
  unfold status_payload, services_start_order. simpl.
  destruct (_desktop_service_enabled cfg).
  - eexists. split; [simplify_map_eq; reflexivity|]. split.
    + rewrite dom_insert_L, dom_singleton_L. simpl.
      rewrite union_empty_r_L. apply union_comm_L.
    + intros name Hin.
      destruct (decide (name = DESKTOP_SERVICE cfg)) as [->|Hne].
      * apply lookup_insert_eq.
      * rewrite lookup_insert_ne by congruence.
        assert (name = WM_SERVICE cfg) as ->.
        { apply list_elem_of_In in Hin. simpl in Hin.
          destruct Hin as [E|[E|[]]]; congruence. }
        apply lookup_singleton_eq.
  - eexists. split; [simplify_map_eq; reflexivity|]. split.
    + rewrite dom_singleton_L. simpl. rewrite union_empty_r_L. reflexivity.
    + intros name Hin. assert (name = WM_SERVICE cfg) as ->.
      { apply list_elem_of_In in Hin. simpl in Hin. destruct Hin as [E|[]]; congruence. }
      apply lookup_singleton_eq.
Qed.

Lemma status_fails_empty s :
  status_fails cfg orc ->
  exists s1,
    supervisor_status_map cfg orc s = (Returned ∅, s1)
    /\ globals s1 = globals s
    /\ history (world s1) = status_event cfg :: history (world s).
Proof.
  intros Hf. destruct (Hf (world s)) as (d & p & Hresp & Hd & Hrc).
  destruct (supervisor_status_map cfg orc s) as [r s1] eqn:Hq.
  pose proof (status_effect _ _ _ _ _ Hq) as [Hg Hh].
  exists s1. split; [|auto].
  unfold supervisor_status_map, bind, run_cmd in Hq. rewrite Hresp in Hq.
  assert ((sec 5 <? Z.pos d) = false) as Hlt by lia. rewrite Hlt in Hq.
  assert ((returncode p =? 0) = false) as Hz by lia. rewrite Hz in Hq.
  simpl in Hq. inversion Hq; subst. reflexivity.
Qed.

End Payload.

(** X9. The payload of [build_status_payload] lists exactly the services of
    the start order, each with its state in the snapshot or [UNKNOWN] when
    the snapshot does not mention it; [running] is [stack_running] of the
    same snapshot, so an empty snapshot is reported as running with every
    service [UNKNOWN]. The globals are read, never written. *)
Theorem build_status_payload_services (cfg : Config) (orc : Oracle) s payload s' :
  build_status_payload cfg orc s = (Returned payload, s') ->
  exists (st : gmap string string) (svc : gmap string string),
    supervisor_status_map cfg orc s = (Returned st, s')
    /\ globals s' = globals s
    /\ payload !! "services" = Some (PyDict svc)
    /\ dom svc = list_to_set (services_start_order cfg)
    /\ (forall name,
           name ∈ services_start_order cfg ->
           svc !! name = Some (default "UNKNOWN" (st !! name)))
    /\ payload !! "running" = Some (PyBool (stack_running cfg st))
    /\ payload !! "current_mode" = Some (PyStr (_current_mode (globals s)))
    /\ (st = ∅ ->
        payload !! "running" = Some (PyBool true)
        /\ forall name, name ∈ services_start_order cfg -> svc !! name = Some "UNKNOWN").
Proof.
  rewrite build_status_payload_eq.
  destruct (supervisor_status_map cfg orc s) as [[st|e] s1] eqn:Hq; [|discriminate].
  intros H. inversion H; subst; clear H.
  pose proof (status_effect _ _ _ _ _ Hq) as [Hg _].
  destruct (status_payload_services cfg st (globals s')) as (svc & Hsvc & Hdom & Hlook).
  exists st, svc. split; [reflexivity|]. split; [exact Hg|]. split; [exact Hsvc|].
  split; [exact Hdom|]. split; [exact Hlook|].
  assert (status_payload cfg st (globals s') !! "running"
          = Some (PyBool (stack_running cfg st))) as Hrun
    by (unfold status_payload; simpl; simplify_map_eq; reflexivity).
  assert (status_payload cfg st (globals s') !! "current_mode"
          = Some (PyStr (_current_mode (globals s')))) as Hcur
    by (unfold status_payload; simpl; simplify_map_eq; reflexivity).
  split; [exact Hrun|]. split; [rewrite <- Hg; exact Hcur|].
  intros ->. split.
  - rewrite Hrun. reflexivity.
  - intros name Hin. rewrite (Hlook name Hin), lookup_empty. reflexivity.
Qed.

Lemma build_status_payload_services_witness :
  globals (snd (build_status_payload Demo.cfg (Demo.oracle (Demo.healthy true))
                  (Demo.fresh false "on")))
  = globals (Demo.fresh false "on").
Proof.
  assert (has_returned (fst (build_status_payload Demo.cfg (Demo.oracle (Demo.healthy true))
                               (Demo.fresh false "on"))) = true) as Hret
    by (vm_compute; reflexivity).
  destruct (build_status_payload Demo.cfg (Demo.oracle (Demo.healthy true))
              (Demo.fresh false "on")) as [[p|e] s1] eqn:Hb; [|discriminate].
  destruct (build_status_payload_services Demo.cfg (Demo.oracle (Demo.healthy true))
              (Demo.fresh false "on") p s1 Hb) as (st & svc & _ & Hg & _).
  exact Hg.
Defined.

(** X10. Fail-open, end to end. When [supervisorctl status] exits with a
    failure status, the snapshot is empty and counts as running: a call that
    is not forced, with the remembered mode already the desired one, then
    does nothing but its two status queries and answers 200 [ready] with
    [running] true, [changed] and [applied] false, and every service
    [UNKNOWN]. *)
Theorem fail_open_when_status_fails (cfg : Config) (orc : Oracle) want s :
  status_fails cfg orc ->
  _switch_lock (globals s) = false ->
  _current_mode (globals s) = desired_mode_of want ->
  stack_up cfg orc s
  /\ exists payload s' (svc : gmap string string),
       ensure_ready cfg orc false want s = (Returned (200, payload), s')
       /\ events_since s s' [status_event cfg; status_event cfg]
       /\ globals s' = globals s
       /\ payload !! "ok" = Some (PyBool true)
       /\ payload !! "message" = Some (PyStr "ready")
       /\ payload !! "running" = Some (PyBool true)
       /\ payload !! "changed" = Some (PyBool false)
       /\ payload !! "applied" = Some (PyBool false)
       /\ payload !! "services" = Some (PyDict svc)
       /\ forall name, name ∈ services_start_order cfg -> svc !! name = Some "UNKNOWN".
Proof.
  intros Hf Hl Hmode.
  assert (stack_running cfg ∅ = true) as Hempty by reflexivity.
  split.
  { destruct (status_fails_empty cfg orc s Hf) as (s1 & Hq & _). exists ∅, s1. auto. }
  destruct (status_fails_empty cfg orc (with_lock true s) Hf) as (s0 & H0 & Hg0 & Hh0).
  destruct (status_fails_empty cfg orc s0 Hf) as (s3 & H3 & Hg3 & Hh3).
  destruct (status_payload_services cfg ∅ (globals s3)) as (svc & Hsvc & _ & Hlook).
  assert (_current_mode (globals s3) = desired_mode_of want) as Hm3.
  { rewrite Hg3, Hg0. exact Hmode. }
  assert (ensure_ready_locked cfg orc false want (with_lock true s)
          = (Returned (200,
                       dict_update (status_payload cfg ∅ (globals s3))
                         (result_fields false false (desired_mode_of want) true "skipped"
                            true true)), s3)) as Hbody.
  { rewrite ensure_ready_locked_phases.
    rewrite (bind_returned _ _ _ _ _ H0). rewrite Hempty.
    unfold restart_phase at 1. cbn [orb negb].
    rewrite (bind_returned _ _ s0 false s0 eq_refl).
    unfold bind at 1, read_globals at 1.
    assert (_current_mode (globals s0) = desired_mode_of want) as Hm0
      by (rewrite Hg0; exact Hmode).
    rewrite Hm0, String.eqb_refl. cbn [orb negb].
    rewrite (bind_returned _ _ s0 (true, "skipped") s0 (apply_phase_skipped _ _ _ _)).
    rewrite report_phase_eq, H3. cbv zeta.
    rewrite Hempty, Hm3, String.eqb_refl. reflexivity. }
  exists (dict_update (status_payload cfg ∅ (globals s3))
            (result_fields false false (desired_mode_of want) true "skipped" true true)),
    (with_lock false s3), svc.
  split.
  { rewrite (ensure_ready_free _ _ _ _ _ Hl), Hbody. reflexivity. }
  split.
  { unfold events_since. simpl. rewrite Hh3, Hh0. reflexivity. }
  split.
  { simpl. rewrite Hg3, Hg0. destruct s as [[l a b c] w]. simpl in *. subst l. reflexivity. }
  destruct (result_lookup cfg ∅ (globals s3) false false (desired_mode_of want)
              true "skipped" true true)
    as (Hok & _ & Hc & _ & Ha & _ & _ & Hmsg & Hrun & _).
  simpl in Hok, Hc, Ha, Hmsg, Hrun.
  split; [exact Hok|]. split; [exact Hmsg|]. split; [exact Hrun|].
  split; [exact Hc|]. split; [exact Ha|]. split.
  - unfold dict_update, result_fields. simpl.
    rewrite lookup_union_r; [exact Hsvc|]. simplify_map_eq. reflexivity.
  - intros name Hin. rewrite (Hlook name Hin), lookup_empty. reflexivity.
Qed.

Lemma failing_status_oracle_fails : status_fails Demo.cfg failing_status_oracle.
Proof.
  intros w. exists 30%positive, {| returncode := 2; stdout := ""; stderr := "refused" |}.
  split; [reflexivity|]. split; [unfold sec; lia | discriminate].
Qed.

Lemma fail_open_when_status_fails_witness :
  stack_up Demo.cfg failing_status_oracle (Demo.fresh false "on").
Proof.
  destruct (fail_open_when_status_fails Demo.cfg failing_status_oracle true
              (Demo.fresh false "on") failing_status_oracle_fails eq_refl eq_refl)
    as [Hup _].
  exact Hup.
Defined.

(** ** Parsing the output of [supervisorctl status] *)

Lemma space_is_space : PyStr.isspace " " = true.
Proof. reflexivity. Qed.

Lemma linebreak_is_space c : PyStr.is_linebreak c = true -> PyStr.isspace c = true.
Proof.
  unfold PyStr.is_linebreak, PyStr.isspace. generalize (PyStr.code c). intros n H.
  repeat match type of H with
         | (_ || _)%bool = true => apply orb_true_iff in H as [H|H]
         | (_ && _)%bool = true => apply andb_true_iff in H as [? ?]
         end;
    repeat match goal with
           | H : (_ <=? _)%N = true |- _ => apply N.leb_le in H
           | H : (_ =? _)%N = true |- _ => apply N.eqb_eq in H
           end.
  - assert (((9 <=? n) && (n <=? 13))%N = true) as ->; [|reflexivity].
    apply andb_true_iff. split; apply N.leb_le; lia.
  - assert (((28 <=? n) && (n <=? 32))%N = true) as ->; [|rewrite ?orb_true_r; reflexivity].
    apply andb_true_iff. split; apply N.leb_le; lia.
  - subst n. reflexivity.
Qed.

Lemma no_space_no_linebreak s : no_space s = true -> no_linebreak s = true.
Proof.
  induction s as [|c r IH]; simpl; [reflexivity|]. intros H.
  apply andb_true_iff in H as [Hc Hr]. rewrite (IH Hr), andb_true_r.
  destruct (PyStr.is_linebreak c) eqn:Hl; [|reflexivity].
  apply linebreak_is_space in Hl. rewrite Hl in Hc. discriminate.
Qed.

Lemma no_linebreak_app a b :
  no_linebreak a = true -> no_linebreak b = true -> no_linebreak (a ++ b) = true.
Proof.
  induction a as [|c r IH]; simpl; [auto|]. intros H Hb.
  apply andb_true_iff in H as [Hc Hr]. rewrite Hc, IH; auto.
Qed.

(** A word followed by a blank is the first field of [split]. *)
Lemma split_word w r :
  w <> "" -> no_space w = true ->
  PyStr.split (w ++ " " ++ r) = w :: PyStr.split r.
Proof.
  induction w as [|c w IH]; [congruence|]. intros _ H. simpl in H.
  apply andb_true_iff in H as [Hc Hw]. apply negb_true_iff in Hc.
  change (String c w ++ " " ++ r) with (String c (w ++ " " ++ r)).
  cbn [PyStr.split]. rewrite Hc.
  destruct w as [|c' w'].
  - change ("" ++ " " ++ r) with (String " " r).
    cbn [PyStr.split]. rewrite space_is_space.
    destruct (PyStr.split r); reflexivity.
  - rewrite IH by (auto; discriminate).
    simpl in Hw. apply andb_true_iff in Hw as [Hc' _]. apply negb_true_iff in Hc'.
    change (String c' w' ++ " " ++ r) with (String c' (w' ++ " " ++ r)).
    cbv iota. rewrite Hc'. reflexivity.
Qed.

Lemma lstrip_word w : no_space w = true -> PyStr.lstrip w = w.
Proof.
  destruct w as [|c r]; simpl; [reflexivity|]. intros H.
  apply andb_true_iff in H as [Hc _]. apply negb_true_iff in Hc. rewrite Hc. reflexivity.
Qed.

Lemma rstrip_word w : no_space w = true -> PyStr.rstrip w = w.
Proof.
  induction w as [|c r IH]; simpl; [reflexivity|]. intros H.
  apply andb_true_iff in H as [Hc Hr]. apply negb_true_iff in Hc.
  rewrite (IH Hr), Hc. destruct r; reflexivity.
Qed.

Lemma strip_word w : no_space w = true -> PyStr.strip w = w.
Proof. intros H. unfold PyStr.strip. rewrite (lstrip_word _ H). apply rstrip_word, H. Qed.

(** A line without line boundaries, ended by a line feed, is the first line
    of [splitlines]. *)
Lemma splitlines_line l rest :
  no_linebreak l = true ->
  PyStr.splitlines (l ++ Demo.nl ++ rest) = l :: PyStr.splitlines rest.
Proof.
  induction l as [|c l IH]; intros H.
  - change ("" ++ Demo.nl ++ rest) with (String "010" rest).
    cbn [PyStr.splitlines].
    change (PyStr.is_linebreak "010") with true. cbv iota.
    destruct rest as [|c2 r2]; reflexivity.
  - simpl in H. apply andb_true_iff in H as [Hc Hl]. apply negb_true_iff in Hc.
    change (String c l ++ Demo.nl ++ rest) with (String c (l ++ Demo.nl ++ rest)).
    cbn [PyStr.splitlines]. rewrite Hc, (IH Hl). reflexivity.
Qed.

Lemma status_line_row m (r : status_row) :
  row_ok r ->
  status_line m (row_name r ++ " " ++ row_state r ++ " " ++ row_rest r)
  = <[row_name r := row_state r]> m.
Proof.
  intros (Hn & Hns & Hs & Hss & _). unfold status_line.
  rewrite (split_word _ _ Hn Hns), (split_word _ _ Hs Hss).
  rewrite (strip_word _ Hns), (strip_word _ Hss). reflexivity.
Qed.

Lemma row_line_no_linebreak (r : status_row) :
  row_ok r ->
  no_linebreak (row_name r ++ " " ++ row_state r ++ " " ++ row_rest r) = true.
Proof.
  intros (_ & Hns & _ & Hss & Hr).
  repeat apply no_linebreak_app; auto using no_space_no_linebreak.
Qed.

Lemma string_append_assoc (a b c : string) : (a ++ b) ++ c = a ++ (b ++ c).
Proof.
  induction a as [|x a IH]; [reflexivity|].
  change (String x ((a ++ b) ++ c) = String x (a ++ b ++ c)). f_equal. exact IH.
Qed.

Lemma render_row_assoc (r : status_row) rest :
  render_row r ++ rest
  = (row_name r ++ " " ++ row_state r ++ " " ++ row_rest r) ++ Demo.nl ++ rest.
Proof. unfold render_row. rewrite !string_append_assoc. reflexivity. Qed.

Lemma parse_rows_fold rows m :
  Forall row_ok rows ->
  fold_left status_line (PyStr.splitlines (render_rows rows)) m
  = fold_left (fun m r => <[row_name r := row_state r]> m) rows m.
Proof.
  intros Hok. revert m. induction Hok as [|r rows Hr _ IH]; intros m; [reflexivity|].
  cbn [render_rows]. rewrite render_row_assoc.
  rewrite (splitlines_line _ _ (row_line_no_linebreak _ Hr)).
  cbn [fold_left]. rewrite (status_line_row _ _ Hr). apply IH.
Qed.

(** X11. Parsing what [supervisorctl status] prints: for output made of
    lines [name state rest], with names and states that are non-empty and
    free of whitespace, [parse_status] maps each name to its state, the last
    line of a name winning; [stack_running] can then be read off the rows. *)
Theorem parse_status_of_rows (rows : list status_row) :
  Forall row_ok rows ->
  parse_status (render_rows rows)
  = list_to_map (rev (map (fun r => (row_name r, row_state r)) rows))
  /\ forall r,
       row_ok r ->
       parse_status (render_rows (rows ++ [r])) !! row_name r = Some (row_state r).
Proof.
  assert (forall rows (m : gmap string string),
             fold_left (fun m r => <[row_name r := row_state r]> m) rows m
             = (list_to_map (rev (map (fun r => (row_name r, row_state r)) rows))
                  : gmap string string) ∪ m)
    as Hfold.
  { intros rows0. induction rows0 as [|r rows0 IH]; intros m.
    - simpl. rewrite (left_id_L ∅ (∪)). reflexivity.
    - cbn [fold_left map rev]. rewrite IH, list_to_map_app.
      cbn [list_to_map foldr]. simpl.
      rewrite insert_empty, <- (assoc_L (∪)), <- insert_union_singleton_l.
      reflexivity. }
  intros Hok. split.
  - unfold parse_status. rewrite (parse_rows_fold _ _ Hok), Hfold.
    apply (right_id_L ∅ (∪)).
  - intros r Hr. unfold parse_status.
    rewrite parse_rows_fold by (apply Forall_app; auto).
    rewrite fold_left_app. simpl. apply lookup_insert_eq.
Qed.

Lemma parse_status_of_rows_witness :
  parse_status
    (render_rows [ {| row_name := "xfce"; row_state := "STARTING"; row_rest := "" |};
                   {| row_name := "xfce"; row_state := "RUNNING";
                      row_rest := "pid 42, uptime 0:01:00" |} ])
    !! "xfce" = Some "RUNNING".
Proof.
  destruct (parse_status_of_rows
              [ {| row_name := "xfce"; row_state := "STARTING"; row_rest := "" |} ])
    as [_ Hlast].
  { repeat constructor; discriminate. }
  apply (Hlast {| row_name := "xfce"; row_state := "RUNNING";
                  row_rest := "pid 42, uptime 0:01:00" |}).
  repeat split; discriminate.
Defined.

(** ** Probing the display *)

Section Probing.

Variable cfg : Config.
Variable orc : Oracle.

Lemma wait_x_custom_loop_spec fuel end_ s r s' :
  PyStr.truthy (X_READY_CMD cfg) = true ->
  wait_x_custom_loop cfg orc fuel end_ s = (r, s') ->
  (r = Returned true -> probe_succeeded cfg orc s')
  /\ (r = Returned false -> end_ - now (world s) <= Z.of_nat fuel ->
      end_ <= now (world s')).
Proof.
  intros Hcmd. revert s. induction fuel as [|fuel IH]; intros s.
  - simpl. intros H. inversion H; subst. split; [discriminate|].
    intros _ Hf. simpl in Hf. lia.
  - rewrite wait_x_custom_loop_step.
    destruct (now (world s) <? end_) eqn:Hlt.
    2:{ intros H. inversion H; subst. split; [discriminate|]. intros _ _. lia. }
    destruct (run_cmd orc _ (sec 3) s) as [[p|e] s1] eqn:Hrun.
    2:{ intros H. inversion H; subst. split; discriminate. }
    pose proof (run_cmd_time _ _ _ _ _ _ Hrun) as Ht.
    destruct (returncode p =? 0) eqn:Hrc.
    { intros H. inversion H; subst. split; [|discriminate]. intros _.
      exists s, ["/bin/sh"; "-lc"; X_READY_CMD cfg], p.
      split; [exact Hrun|]. split; [lia|].
      unfold is_x_probe. rewrite Hcmd. apply bool_decide_eq_true. reflexivity. }
    destruct (time_sleep (X_READY_POLL_SEC cfg) s1) as [[u|e] s2] eqn:Hs.
    2:{ intros H. inversion H; subst. split; discriminate. }
    apply sleep_effect in Hs as (Hd & _ & _ & Hn2).
    intros H. destruct (IH _ H) as (Htrue & Hfalse).
    split; [exact Htrue|]. intros Hr Hf. apply Hfalse; [exact Hr | lia].
Qed.

Lemma probe_rc_zero cmd s s1 :
  probe_rc orc cmd s = (Returned 0, s1) ->
  exists p, run_cmd orc cmd (sec 3) s = (Returned p, s1) /\ returncode p = 0.
Proof.
  unfold probe_rc. destruct (run_cmd orc cmd (sec 3) s) as [[p|[]] s2];
    intros H; inversion H; subst. eauto.
Qed.

Lemma run_probes_hit s s1 :
  PyStr.truthy (X_READY_CMD cfg) = false ->
  run_probes orc probes s = (Returned true, s1) -> probe_succeeded cfg orc s1.
Proof.
  intros Hcmd. unfold probes. simpl. intros H.
  apply bind_inv in H as [(rc & s2 & H1 & H)|(e & _ & H)]; [|discriminate].
  destruct (rc =? 0) eqn:Hrc.
  - inversion H; subst. apply Z.eqb_eq in Hrc. subst rc.
    apply probe_rc_zero in H1 as (p & Hrun & Hp).
    exists s, ["xset"; "q"], p. split; [exact Hrun|]. split; [exact Hp|].
    unfold is_x_probe. rewrite Hcmd. reflexivity.
  - apply bind_inv in H as [(rc' & s3 & H2 & H)|(e & _ & H)]; [|discriminate].
    destruct (rc' =? 0) eqn:Hrc'; [|discriminate].
    inversion H; subst. apply Z.eqb_eq in Hrc'. subst rc'.
    apply probe_rc_zero in H2 as (p & Hrun & Hp).
    exists s2, ["xdpyinfo"], p. split; [exact Hrun|]. split; [exact Hp|].
    unfold is_x_probe. rewrite Hcmd. reflexivity.
Qed.

Lemma wait_x_probe_loop_spec fuel end_ s r s' :
  PyStr.truthy (X_READY_CMD cfg) = false ->
  wait_x_probe_loop cfg orc fuel end_ s = (r, s') ->
  (r = Returned true -> probe_succeeded cfg orc s')
  /\ (r = Returned false -> end_ - now (world s) <= Z.of_nat fuel ->
      end_ <= now (world s')).
Proof.
  intros Hcmd. revert s. induction fuel as [|fuel IH]; intros s.
  - simpl. intros H. inversion H; subst. split; [discriminate|].
    intros _ Hf. simpl in Hf. lia.
  - rewrite wait_x_probe_loop_step.
    destruct (now (world s) <? end_) eqn:Hlt.
    2:{ intros H. inversion H; subst. split; [discriminate|]. intros _ _. lia. }
    destruct (run_probes orc probes s) as [[hit|e] s1] eqn:Hrun.
    2:{ intros H. inversion H; subst. split; discriminate. }
    pose proof (run_probes_time _ _ _ _ Hrun) as Ht.
    destruct hit.
    { intros H. inversion H; subst. split; [|discriminate]. intros _.
      apply (run_probes_hit _ _ Hcmd Hrun). }
    destruct (time_sleep (X_READY_POLL_SEC cfg) s1) as [[u|e] s2] eqn:Hs.
    2:{ intros H. inversion H; subst. split; discriminate. }
    apply sleep_effect in Hs as (Hd & _ & _ & Hn2).
    intros H. destruct (IH _ H) as (Htrue & Hfalse).
    split; [exact Htrue|]. intros Hr Hf. apply Hfalse; [exact Hr | lia].
Qed.

(** Without the tools one round of the default probes finds nothing, and
    does not raise. *)
Lemma run_probes_without_tools s :
  tools_missing orc ->
  exists s1,
    run_probes orc probes s = (Returned false, s1)
    /\ now (world s) + 1 <= now (world s1).
Proof.
  intros Hmiss.
  assert (forall cmd s0, In cmd probes ->
            exists s1, probe_rc orc cmd s0 = (Returned 127, s1)
                       /\ now (world s0) + 1 <= now (world s1)) as Hone.
  { intros cmd s0 Hin. destruct (Hmiss (world s0) cmd Hin) as [d Hd].
    unfold probe_rc, run_cmd. rewrite Hd. eexists. split; [reflexivity|]. simpl. lia. }
  destruct (Hone ["xset"; "q"] s) as (s1 & H1 & Ht1); [simpl; auto|].
  destruct (Hone ["xdpyinfo"] s1) as (s2 & H2 & Ht2); [simpl; auto|].
  exists s2. split; [|lia].
  unfold probes. simpl. unfold bind. rewrite H1. simpl. rewrite H2. reflexivity.
Qed.

Lemma wait_x_probe_loop_without_tools fuel end_ s :
  tools_missing orc -> 0 <= X_READY_POLL_SEC cfg ->
  exists s', wait_x_probe_loop cfg orc fuel end_ s = (Returned false, s').
Proof.
  intros Hmiss Hpoll. revert s. induction fuel as [|fuel IH]; intros s.
  - simpl. eexists. reflexivity.
  - rewrite wait_x_probe_loop_step.
    destruct (now (world s) <? end_); [|eexists; reflexivity].
    destruct (run_probes_without_tools s Hmiss) as (s1 & -> & _).
    unfold time_sleep at 1.
    assert ((X_READY_POLL_SEC cfg <? 0) = false) as -> by lia.
    apply IH.
Qed.

End Probing.

(** X12. [wait_x_ready] touches no global and runs probes of the display
    only: the custom command when one is configured, the two default probes
    otherwise. It answers true only when the probe it has just run exited
    with status 0, and false only once the deadline has passed; with a wait
    that is not positive it answers false at once, without a probe. *)
Theorem wait_x_ready_spec (cfg : Config) (orc : Oracle) max_sec s r s' :
  wait_x_ready cfg orc max_sec s = (r, s') ->
  globals s' = globals s
  /\ only_events (is_x_probe cfg) s s'
  /\ (max_sec <= 0 -> r = Returned false /\ s' = s)
  /\ (r = Returned false -> now (world s) + max_sec <= now (world s'))
  /\ (r = Returned true -> probe_succeeded cfg orc s').
Proof.
  intros H.
  pose proof (emits_wait_x_ready cfg orc max_sec s) as Hev. rewrite H in Hev.
  pose proof (wait_x_ready_globals cfg orc _ _ _ _ H) as Hg.
  split; [exact Hg|]. split; [exact Hev|].
  unfold wait_x_ready in H.
  destruct (PyStr.truthy (X_READY_CMD cfg)) eqn:Hcmd;
    unfold bind, time_time in H.
  - destruct (wait_x_custom_loop_spec cfg orc _ _ _ _ _ Hcmd H) as (Htrue & Hfalse).
    split; [|split; [|exact Htrue]].
    + intros Hle.
      assert (Z.to_nat (now (world s) + max_sec - now (world s)) = 0%nat) as Hz by lia.
      rewrite Hz in H. simpl in H. inversion H; subst. auto.
    + intros Hr. apply Hfalse; [exact Hr | lia].
  - destruct (wait_x_probe_loop_spec cfg orc _ _ _ _ _ Hcmd H) as (Htrue & Hfalse).
    split; [|split; [|exact Htrue]].
    + intros Hle.
      assert (Z.to_nat (now (world s) + max_sec - now (world s)) = 0%nat) as Hz by lia.
      rewrite Hz in H. simpl in H. inversion H; subst. auto.
    + intros Hr. apply Hfalse; [exact Hr | lia].
Qed.

Lemma wait_x_ready_spec_witness :
  fst (wait_x_ready Demo.cfg (Demo.oracle (Demo.healthy true)) 500
         (Demo.fresh false "on")) = Returned true
  /\ probe_succeeded Demo.cfg (Demo.oracle (Demo.healthy true))
       (snd (wait_x_ready Demo.cfg (Demo.oracle (Demo.healthy true)) 500
               (Demo.fresh false "on"))).
Proof.
  assert (fst (wait_x_ready Demo.cfg (Demo.oracle (Demo.healthy true)) 500
                 (Demo.fresh false "on")) = Returned true) as Hr
    by (vm_compute; reflexivity).
  split; [exact Hr|].
  destruct (wait_x_ready_spec Demo.cfg (Demo.oracle (Demo.healthy true)) 500
              (Demo.fresh false "on") _ _ (surjective_pairing _))
    as (_ & _ & _ & _ & Htrue).
  apply Htrue, Hr.
Defined.

(** X13. Without a custom readiness command and with neither [xset] nor
    [xdpyinfo] installed, [wait_x_ready] does not raise: every round counts
    both probes as failed, so the call answers false, and only after the
    whole wait has passed. *)
Theorem wait_x_ready_without_tools (cfg : Config) (orc : Oracle) max_sec s :
  X_READY_CMD cfg = "" ->
  tools_missing orc ->
  0 <= X_READY_POLL_SEC cfg ->
  exists s',
    wait_x_ready cfg orc max_sec s = (Returned false, s')
    /\ globals s' = globals s
    /\ only_events is_default_probe s s'
    /\ now (world s) + max_sec <= now (world s').
Proof.
  intros Hcmd Hmiss Hpoll.
  assert (PyStr.truthy (X_READY_CMD cfg) = false) as Htr by (rewrite Hcmd; reflexivity).
  assert (exists s', wait_x_ready cfg orc max_sec s = (Returned false, s')) as [s' H].
  { unfold wait_x_ready. rewrite Htr. unfold bind, time_time.
    apply wait_x_probe_loop_without_tools; assumption. }
  exists s'. split; [exact H|].
  pose proof (emits_wait_x_ready cfg orc max_sec s) as Hev. rewrite H in Hev.
  unfold is_x_probe in Hev. rewrite Htr in Hev.
  split; [exact (wait_x_ready_globals cfg orc _ _ _ _ H)|]. split; [exact Hev|].
  unfold wait_x_ready in H. rewrite Htr in H. unfold bind, time_time in H.
  destruct (wait_x_probe_loop_spec cfg orc _ _ _ _ _ Htr H) as (_ & Hfalse).
  apply Hfalse; [reflexivity | lia].
Qed.

Lemma wait_x_ready_without_tools_witness :
  exists s',
    wait_x_ready Demo.cfg no_tools_oracle 500 (Demo.fresh false "on")
    = (Returned false, s')
    /\ 1500 <= now (world s').
Proof.
  destruct (wait_x_ready_without_tools Demo.cfg no_tools_oracle 500
              (Demo.fresh false "on")) as (s' & H & _ & _ & Ht).
  - reflexivity.
  - intros w cmd [<-|[<-|[]]]; eexists; reflexivity.
  - vm_compute. discriminate.
  - exists s'. split; [exact H | exact Ht].
Defined.

(** ** The HTTP front: texts and the client log *)

Lemma string_length_append (a b : string) :
  String.length (a ++ b) = (String.length a + String.length b)%nat.
Proof.
  induction a as [|c a IH]; [reflexivity|].
  change (S (String.length (a ++ b)) = S (String.length a + String.length b)).
  rewrite IH. reflexivity.
Qed.

Lemma str_take_length k s : (String.length (str_take k s) <= k)%nat.
Proof.
  revert s. induction k as [|k IH]; intros [|c r]; simpl; try lia.
  specialize (IH r). lia.
Qed.

(** X14. [_clip]: a text of at most [n] characters is kept; a longer one
    becomes a prefix of it followed by three dots. The result has at most
    [max(n, 3)] characters, so the bound [n] is kept for [n >= 3] only: for
    a smaller [n] every longer text becomes the three dots. The absent text
    is the empty one. *)
Theorem clip_length (s : option string) (n : Z) :
  Z.of_nat (String.length (_clip s n)) <= Z.max n 3
  /\ (s = None -> _clip s n = "")
  /\ (forall t, s = Some t -> Z.of_nat (String.length t) <= n -> _clip s n = t)
  /\ (forall t, s = Some t -> n < Z.of_nat (String.length t) ->
      _clip s n = str_take (Z.to_nat (n - 3)) t ++ "..."
      /\ (n <= 3 -> _clip s n = "...")).
Proof.
  split; [|split; [|split]].
  - destruct s as [t|]; simpl; [|lia].
    destruct (Z.of_nat (String.length t) <=? n) eqn:Hle; [lia|].
    rewrite string_length_append.
    pose proof (str_take_length (Z.to_nat (Z.max 0 (n - 3))) t) as Hk.
    change (String.length "...") with 3%nat. lia.
  - intros ->. reflexivity.
  - intros t -> Hle. simpl.
    assert ((Z.of_nat (String.length t) <=? n) = true) as -> by lia. reflexivity.
  - intros t -> Hlt. simpl.
    assert ((Z.of_nat (String.length t) <=? n) = false) as -> by lia.
    assert (Z.to_nat (Z.max 0 (n - 3)) = Z.to_nat (n - 3)) as -> by lia.
    split; [reflexivity|]. intros Hn.
    assert (Z.to_nat (n - 3) = 0%nat) as -> by lia. reflexivity.
Qed.

Lemma split_on_head sep w :
  forallb (fun c => negb (Ascii.eqb c sep)) (list_ascii_of_string w) = true ->
  (forall rest, hd "" (split_on sep (w ++ String sep rest)) = w)
  /\ hd "" (split_on sep w) = w.
Proof.
  induction w as [|c w IH]; intros H.
  - split; [|reflexivity]. intros rest.
    change ("" ++ String sep rest) with (String sep rest). simpl.
    rewrite Ascii.eqb_refl. reflexivity.
  - simpl in H. apply andb_true_iff in H as [Hc Hw]. apply negb_true_iff in Hc.
    destruct (IH Hw) as [IH1 IH2]. split.
    + intros rest. specialize (IH1 rest).
      change (String c w ++ String sep rest) with (String c (w ++ String sep rest)).
      simpl. rewrite Hc.
      destruct (split_on sep (w ++ String sep rest)) as [|w0 ws]; simpl in *; congruence.
    + simpl. rewrite Hc.
      destruct (split_on sep w) as [|w0 ws]; simpl in *; congruence.
Qed.

(** X15. Behind a proxy the client address is the first entry of
    [X-Forwarded-For], stripped: for a non-empty header that is [w], or [w]
    followed by a comma and anything, with no comma in [w], [_client_ip]
    answers [w.strip()], whatever [X-Real-IP] and the peer address are; a
    blank first entry gives the empty address. *)
Theorem client_ip_forwarded (req : Request) (xff w : string) :
  headers req "X-Forwarded-For" = Some xff ->
  xff <> "" ->
  no_comma w = true ->
  (xff = w \/ exists rest, xff = w ++ "," ++ rest) ->
  _client_ip req = PyStr.strip w.
Proof.
  intros Hh Hne Hw Hx. unfold _client_ip, headers_get. rewrite Hh. simpl.
  assert (PyStr.truthy xff = true) as -> by (destruct xff; [congruence | reflexivity]).
  destruct (split_on_head "," w Hw) as [H1 H2].
  destruct Hx as [->|[rest ->]]; [rewrite H2; reflexivity|].
  change ("," ++ rest) with (String "," rest). rewrite (H1 rest). reflexivity.
Qed.

Lemma client_ip_forwarded_witness :
  _client_ip (demo_request "/mode" []) = "10.0.0.7".
Proof.
  apply (client_ip_forwarded (demo_request "/mode" [])
           " 10.0.0.7 , 192.168.1.1" " 10.0.0.7 ").
  - reflexivity.
  - discriminate.
  - reflexivity.
  - right. exists " 192.168.1.1". reflexivity.
Defined.

Lemma cleanup_lookup ttl now (seen : gmap string Z) key :
  0 <= ttl -> seen !! key = Some now -> cleanup ttl now seen !! key = Some now.
Proof.
  intros Httl Hk. unfold cleanup. destruct (2000 <? _); [|exact Hk].
  apply map_lookup_filter_Some_2; [exact Hk|]. simpl. lia.
Qed.

(** X16. One line per client and window: when a call of
    [_maybe_log_client] has printed a line, a later call for the same
    client (same address and user agent, whatever the path) that finds the
    table as the first call left it, less than [LOG_CLIENT_TTL_SEC] later,
    prints nothing and changes nothing. *)
Theorem repeat_within_ttl_is_silent (lc : LogConfig) (req req' : Request)
    (path path' : string) (f f' : bool) (sv sv2 : Server) :
  printed (_maybe_log_client lc req path f sv) <> printed sv ->
  client_key req' = client_key req ->
  _seen_clients sv2 = _seen_clients (_maybe_log_client lc req path f sv) ->
  now (world (sys sv)) <= now (world (sys sv2)) ->
  now (world (sys sv2)) < now (world (sys sv)) + LOG_CLIENT_TTL_SEC lc ->
  _maybe_log_client lc req' path' f' sv2 = sv2.
Proof.
  intros Hlogged Hkey Hseen Hle Hlt.
  unfold _maybe_log_client in Hlogged, Hseen.
  unfold _maybe_log_client.
  destruct (negb (LOG_CLIENT lc)); [reflexivity|].
  fold (client_key req) in Hlogged, Hseen. fold (client_key req'). rewrite Hkey.
  destruct (now (world (sys sv)) - default 0 (_seen_clients sv !! client_key req)
            <? LOG_CLIENT_TTL_SEC lc); [congruence|].
  simpl in Hseen. rewrite Hseen.
  rewrite (cleanup_lookup _ _ _ (client_key req)); [|lia|apply lookup_insert_eq].
  simpl.
  assert ((now (world (sys sv2)) - now (world (sys sv)) <? LOG_CLIENT_TTL_SEC lc) = true)
    as -> by lia.
  reflexivity.
Qed.

Lemma repeat_within_ttl_is_silent_witness :
  let sv1 := _maybe_log_client demo_log_config (demo_request "/kiosk" ["1"]) "/kiosk" true
               (demo_server false "on") in
  let sv2 := set_sys {| globals := globals (sys sv1);
                        world := advance 119999 (world (sys sv1)) |} sv1 in
  _maybe_log_client demo_log_config (demo_request "/mode" []) "/mode" false sv2 = sv2.
Proof.
  intros sv1 sv2.
  apply (repeat_within_ttl_is_silent demo_log_config (demo_request "/kiosk" ["1"])
           (demo_request "/mode" []) "/kiosk" "/mode" true false
           (demo_server false "on") sv2).
  - intros H. vm_compute in H. discriminate H.
  - vm_compute. reflexivity.
  - reflexivity.
  - vm_compute. discriminate.
  - vm_compute. reflexivity.
Defined.

(** X17. The table of seen clients grows by at most one entry per call, a
    call that prints nothing leaves it alone, and after a call that printed
    a line it either has at most 2000 entries or holds no entry older than
    the window: the cleanup bounds the table by the number of clients of
    one window, not by 2000. *)
Theorem seen_clients_pruned (lc : LogConfig) (req : Request) (path : string)
    (f : bool) (sv : Server) :
  let sv1 := _maybe_log_client lc req path f sv in
  (size (_seen_clients sv1) <= S (size (_seen_clients sv)))%nat
  /\ (printed sv1 = printed sv -> sv1 = sv)
  /\ (printed sv1 <> printed sv ->
      (size (_seen_clients sv1) <= 2000)%nat
      \/ map_Forall
           (fun _ ts => now (world (sys sv)) - LOG_CLIENT_TTL_SEC lc <= ts)
           (_seen_clients sv1)).
Proof.
  unfold _maybe_log_client.
  destruct (negb (LOG_CLIENT lc)); [simpl; split; [lia|]; split; [auto|congruence]|].
  fold (client_key req).
  destruct (now (world (sys sv)) - default 0 (_seen_clients sv !! client_key req)
            <? LOG_CLIENT_TTL_SEC lc); [simpl; split; [lia|]; split; [auto|congruence]|].
  simpl.
  set (seen := <[client_key req := now (world (sys sv))]> (_seen_clients sv)).
  assert (size seen <= S (size (_seen_clients sv)))%nat as Hsz.
  { unfold seen. rewrite map_size_insert.
    destruct (_seen_clients sv !! client_key req); simpl; lia. }
  split; [|split].
  - unfold cleanup. destruct (2000 <? _); [|exact Hsz].
    etransitivity; [apply map_size_filter | exact Hsz].
  - intros H. exfalso. revert H. generalize (printed sv). intros l H.
    apply (f_equal (@List.length LogLine)) in H. simpl in H. lia.
  - intros _. unfold cleanup. destruct (2000 <? Z.of_nat (size seen)) eqn:Hbig.
    + right. intros k ts Hk. apply map_lookup_filter_Some_1_2 in Hk. exact Hk.
    + left. lia.
Qed.

(** ** The HTTP front: requests *)

Lemma keeps_globals_ret {A} (a : A) : keeps_globals (ret a).
Proof. intros s. reflexivity. Qed.

Lemma keeps_globals_bind {A B} (m : M A) (k : A -> M B) :
  keeps_globals m -> (forall a, keeps_globals (k a)) -> keeps_globals (bind m k).
Proof.
  intros Hm Hk s. unfold bind. specialize (Hm s).
  destruct (m s) as [[a|e] s1]; simpl in *; [|exact Hm].
  rewrite Hk. exact Hm.
Qed.

Lemma keeps_globals_time : keeps_globals time_time.
Proof. intros s. reflexivity. Qed.

Lemma keeps_globals_sleep d : keeps_globals (time_sleep d).
Proof. intros s. unfold time_sleep. destruct (d <? 0); reflexivity. Qed.

Lemma keeps_globals_run_cmd orc args timeout : keeps_globals (run_cmd orc args timeout).
Proof.
  intros s. unfold run_cmd.
  destruct (respond orc (world s) args) as [d [p|e]];
    [destruct (timeout <? Z.pos d)|]; reflexivity.
Qed.

Lemma keeps_globals_for_each {A} (body : A -> M unit) l :
  (forall x, keeps_globals (body x)) -> keeps_globals (for_each body l).
Proof.
  intros Hb. induction l as [|x l IH]; simpl.
  - apply keeps_globals_ret.
  - apply keeps_globals_bind; [apply Hb | intros _; exact IH].
Qed.

Lemma update_lookup (d u : gmap string pyval) k v :
  u !! k = Some v -> dict_update d u !! k = Some v.
Proof. intros H. unfold dict_update. apply lookup_union_Some_l, H. Qed.

Section Requests.

Variable cfg : Config.
Variable orc : Oracle.
Variable lc : LogConfig.
Variable str_exn : exn -> string.

Lemma keeps_globals_status : keeps_globals (supervisor_status_map cfg orc).
Proof.
  unfold supervisor_status_map. apply keeps_globals_bind.
  - apply keeps_globals_run_cmd.
  - intros p. destruct (negb _); apply keeps_globals_ret.
Qed.

Lemma keeps_globals_wait_stack_ready max_sec :
  keeps_globals (wait_stack_ready cfg orc max_sec).
Proof.
  unfold wait_stack_ready. apply keeps_globals_bind; [apply keeps_globals_time|].
  intros t. generalize (Z.to_nat (t + max_sec - t)). intros fuel.
  induction fuel as [|fuel IH]; simpl; [apply keeps_globals_ret|].
  apply keeps_globals_bind; [apply keeps_globals_time|]. intros t'.
  destruct (t' <? t + max_sec); [|apply keeps_globals_ret].
  apply keeps_globals_bind; [apply keeps_globals_status|]. intros st.
  destruct (stack_running cfg st); [apply keeps_globals_ret|].
  apply keeps_globals_bind; [apply keeps_globals_sleep | intros _; exact IH].
Qed.

Lemma keeps_globals_stop name : keeps_globals (supervisor_stop cfg orc name).
Proof.
  unfold supervisor_stop. apply keeps_globals_bind;
    [apply keeps_globals_run_cmd | intros _; apply keeps_globals_ret].
Qed.

Lemma keeps_globals_start name : keeps_globals (supervisor_start cfg orc name).
Proof.
  unfold supervisor_start. apply keeps_globals_bind;
    [apply keeps_globals_run_cmd | intros _; apply keeps_globals_ret].
Qed.

Lemma keeps_globals_desktop_stack action : keeps_globals (desktop_stack cfg orc action).
Proof.
  unfold desktop_stack.
  repeat match goal with
         | |- keeps_globals (if ?b then _ else _) => destruct b
         | |- keeps_globals (bind _ _) => apply keeps_globals_bind
         | |- forall _, _ => intros _
         | |- keeps_globals (for_each (supervisor_stop _ _) _) =>
             apply keeps_globals_for_each; intros ?; apply keeps_globals_stop
         | |- keeps_globals (for_each (supervisor_start _ _) _) =>
             apply keeps_globals_for_each; intros ?; apply keeps_globals_start
         | |- keeps_globals (wait_stack_ready _ _ _) => apply keeps_globals_wait_stack_ready
         | |- keeps_globals (ret _) => apply keeps_globals_ret
         end.
Qed.

Lemma keeps_globals_build_status_payload : keeps_globals (build_status_payload cfg orc).
Proof.
  intros s. rewrite build_status_payload_eq.
  pose proof (keeps_globals_status s) as H.
  destruct (supervisor_status_map cfg orc s) as [[st|e] s1]; exact H.
Qed.

Lemma ensure_ready_lock force want s :
  _switch_lock (globals (snd (ensure_ready cfg orc force want s)))
  = _switch_lock (globals s).
Proof.
  destruct (_switch_lock (globals s)) eqn:Hl.
  - rewrite (ensure_ready_busy cfg orc _ _ _ Hl).
    pose proof (keeps_globals_status s) as H.
    destruct (supervisor_status_map cfg orc s) as [[st|e] s1]; simpl in *;
      rewrite H; exact Hl.
  - rewrite (ensure_ready_free cfg orc _ _ _ Hl). reflexivity.
Qed.


Lemma log_sys req path f sv : sys (_maybe_log_client lc req path f sv) = sys sv.
Proof.
  unfold _maybe_log_client. destruct (negb _); [reflexivity|].
  destruct (_ <? _); reflexivity.
Qed.

Lemma log_sent req path f sv : sent (_maybe_log_client lc req path f sv) = sent sv.
Proof.
  unfold _maybe_log_client. destruct (negb _); [reflexivity|].
  destruct (_ <? _); reflexivity.
Qed.

(** A request, route by route: [sv0] is the server once the client is
    logged. *)
Lemma do_GET_routes req sv :
  let sv0 := _maybe_log_client lc req (url_path req) (force_of req) sv in
  let answer code payload s := _send_json code payload (set_sys s sv0) in
  let failure e s :=
    _send_json 500
      (list_to_map [("ok", PyBool false); ("error", PyStr "exception");
                    ("message", PyStr (str_exn e))]) (set_sys s sv0) in
  (url_path req ∈ status_paths
   /\ do_GET cfg orc lc str_exn req sv =
      match build_status_payload cfg orc (sys sv) with
      | (Returned payload, s) =>
          answer 200 (dict_update payload (list_to_map [("ok", PyBool true)])) s
      | (Raised e, s) => failure e s
      end)
  \/ (url_path req ∈ mode_paths
      /\ exists want,
           want = bool_decide (url_path req ∈ ["/kiosk"; "/hide"])
           /\ do_GET cfg orc lc str_exn req sv =
              match ensure_ready cfg orc (force_of req) want (sys sv) with
              | (Returned (code, payload), s) => answer code payload s
              | (Raised e, s) => failure e s
              end)
  \/ (url_path req ∈ restart_paths
      /\ (url_path req ∉ mode_paths)
      /\ do_GET cfg orc lc str_exn req sv =
         match desktop_stack cfg orc "restart" (sys sv) with
         | (Returned _, s1) =>
             match build_status_payload cfg orc s1 with
             | (Returned payload, s) =>
                 answer 200
                   (dict_update payload
                      (list_to_map [("ok", PyBool true); ("message", PyStr "restarted")]))
                   s
             | (Raised e, s) => failure e s
             end
         | (Raised e, s1) => failure e s1
         end)
  \/ ((url_path req ∉ (status_paths ++ mode_paths ++ restart_paths)%list)
      /\ do_GET cfg orc lc str_exn req sv =
         _send_json 404
           (list_to_map [("ok", PyBool false); ("error", PyStr "not_found");
                         ("path", PyStr (url_path req))]) sv0).
Proof.
  intros sv0 answer failure. unfold do_GET, do_GET_body. fold sv0.
  unfold lift. rewrite !(log_sys req _ _ sv : sys sv0 = sys sv).
  destruct (bool_decide (url_path req ∈ ["/"; "/debug"; "/mode"])) eqn:H1.
  { left. apply bool_decide_eq_true in H1. split; [exact H1|].
    destruct (build_status_payload cfg orc (sys sv)) as [[p|e] s]; reflexivity. }
  apply bool_decide_eq_false in H1.
  destruct (bool_decide (url_path req ∈ ["/kiosk"; "/hide"])) eqn:H2.
  { right. left. apply bool_decide_eq_true in H2. split.
    - unfold mode_paths. apply list_elem_of_In. apply list_elem_of_In in H2.
      simpl in *. tauto.
    - exists true. split; [reflexivity|].
      destruct (ensure_ready cfg orc (force_of req) true (sys sv)) as [[[c p]|e] s];
        reflexivity. }
  apply bool_decide_eq_false in H2.
  destruct (bool_decide (url_path req ∈ ["/show"; "/desktop"])) eqn:H3.
  { right. left. apply bool_decide_eq_true in H3. split.
    - unfold mode_paths. apply list_elem_of_In. apply list_elem_of_In in H3.
      simpl in *. tauto.
    - exists false. split; [reflexivity|].
      destruct (ensure_ready cfg orc (force_of req) false (sys sv)) as [[[c p]|e] s];
        reflexivity. }
  apply bool_decide_eq_false in H3.
  assert (url_path req ∉ mode_paths) as Hm.
  { unfold mode_paths. rewrite list_elem_of_In in *. simpl in *. tauto. }
  destruct (bool_decide (url_path req ∈ ["/restart"; "/reset"])) eqn:H4.
  { right. right. left. apply bool_decide_eq_true in H4.
    split; [exact H4|]. split; [exact Hm|].
    destruct (desktop_stack cfg orc "restart" (sys sv)) as [[b|e] s1]; [|reflexivity].
    simpl. destruct (build_status_payload cfg orc s1) as [[p|e] s]; reflexivity. }
  apply bool_decide_eq_false in H4.
  right. right. right. split; [|reflexivity].
  unfold status_paths, restart_paths. rewrite !elem_of_app. tauto.
Qed.

End Requests.


(** X19. Every request leaves the switch lock as it found it: a mode
    request that took the lock has released it when the request is
    answered, also when the program raised inside the locked section, and
    no other route touches the lock. *)
Theorem do_GET_keeps_lock (cfg : Config) (orc : Oracle) (lc : LogConfig)
    (str_exn : exn -> string) (req : Request) (sv : Server) :
  _switch_lock (globals (sys (do_GET cfg orc lc str_exn req sv)))
  = _switch_lock (globals (sys sv)).
Proof.
  pose proof (log_sys lc req (url_path req) (force_of req) sv) as Hsys.
  destruct (do_GET_routes cfg orc lc str_exn req sv)
    as [[Hp ->]|[(Hp & want & _ & ->)|[(Hp & _ & ->)|[Hp ->]]]].
  - pose proof (keeps_globals_build_status_payload cfg orc (sys sv)) as H.
    destruct (build_status_payload cfg orc (sys sv)) as [[payload|e] s];
      simpl in *; rewrite H; reflexivity.
  - pose proof (ensure_ready_lock cfg orc (force_of req) want (sys sv)) as H.
    destruct (ensure_ready cfg orc (force_of req) want (sys sv))
      as [[[code payload]|e] s]; simpl in *; exact H.
  - pose proof (keeps_globals_desktop_stack cfg orc "restart" (sys sv)) as H1.
    destruct (desktop_stack cfg orc "restart" (sys sv)) as [[b|e] s1]; simpl in H1.
    + pose proof (keeps_globals_build_status_payload cfg orc s1) as H2.
      destruct (build_status_payload cfg orc s1) as [[payload|e] s];
        simpl in *; rewrite H2, H1; reflexivity.
    + simpl. rewrite H1. reflexivity.
  - simpl. rewrite Hsys. reflexivity.
Qed.





(** X22. Status 200 on a mode route means what the header of the source
    promises: the answer to [/kiosk], [/hide], [/show] or [/desktop] is 200
    only if the switch lock was free, the closing status shows the stack
    running, the mode step succeeded or was skipped, and the mode
    remembered after the request is the one the route asks for ([on] for
    [/kiosk] and [/hide], [off] for the other two). *)
Theorem mode_route_200 (cfg : Config) (orc : Oracle) (lc : LogConfig)
    (str_exn : exn -> string) (req : Request) (sv : Server) (payload : gmap string pyval) :
  url_path req ∈ mode_paths ->
  let sv' := do_GET cfg orc lc str_exn req sv in
  let mode := desired_mode_of (bool_decide (url_path req ∈ ["/kiosk"; "/hide"])) in
  sent sv' = (200, payload) :: sent sv ->
  _switch_lock (globals (sys sv)) = false
  /\ _current_mode (globals (sys sv')) = mode
  /\ payload !! "current_mode" = Some (PyStr mode)
  /\ payload !! "requested_mode" = Some (PyStr mode)
  /\ payload !! "running" = Some (PyBool true)
  /\ payload !! "mode_ok" = Some (PyBool true)
  /\ payload !! "message" = Some (PyStr "ready").
Proof.
  intros Hp sv' mode. subst sv'.
  pose proof (log_sent lc req (url_path req) (force_of req) sv) as Hsent.
  destruct (do_GET_routes cfg orc lc str_exn req sv)
    as [[Hs _]|[(_ & want & Hwant & ->)|[(_ & Hn & _)|[Hn _]]]].
  1:{ exfalso. unfold status_paths, mode_paths in *.
      rewrite list_elem_of_In in *. simpl in *.
      repeat match goal with H : _ \/ _ |- _ => destruct H as [H|H] end;
        congruence || contradiction. }
  2:{ contradiction. }
  2:{ exfalso. apply Hn. rewrite !elem_of_app. auto. }
  fold mode. subst mode. rewrite <- Hwant. clear Hwant.
  destruct (ensure_ready cfg orc (force_of req) want (sys sv))
    as [[[code p]|e] s] eqn:Hrun; simpl; rewrite Hsent; intros Hc; inversion Hc.
  subst code p. clear Hc.
  destruct (_switch_lock (globals (sys sv))) eqn:Hl.
  { rewrite (ensure_ready_busy cfg orc _ _ _ Hl) in Hrun.
    destruct (supervisor_status_map cfg orc (sys sv)) as [[st|e] s1]; discriminate. }
  split; [reflexivity|].
  destruct (ensure_ready_returned cfg orc _ _ _ _ _ _ Hl Hrun)
    as (st0 & s1 & ok_mode & msg_mode & s2 & st & s3 & _ & _ & Hrest).
  cbv zeta in Hrest. destruct Hrest as (_ & _ & _ & Hs' & Hcode & Hpay).
  destruct (stack_running cfg st) eqn:Hrn; [|discriminate Hcode].
  destruct ok_mode; [|discriminate Hcode].
  destruct (String.eqb (_current_mode (globals s3)) (desired_mode_of want)) eqn:Hmode;
    [|discriminate Hcode].
  apply String.eqb_eq in Hmode. simpl in Hpay.
  assert (_current_mode (globals s) = desired_mode_of want) as Hcur
    by (rewrite Hs'; exact Hmode).
  split; [exact Hcur|]. subst payload.
  split.
  { unfold dict_update. rewrite lookup_union_r by reflexivity.
    change (status_payload cfg st (globals s3) !! "current_mode")
      with (Some (PyStr (_current_mode (globals s3)))).
    rewrite Hmode. reflexivity. }
  split; [apply update_lookup; reflexivity|].
  split.
  { unfold dict_update. rewrite lookup_union_r by reflexivity.
    change (status_payload cfg st (globals s3) !! "running")
      with (Some (PyBool (stack_running cfg st))).
    rewrite Hrn. reflexivity. }
  split; apply update_lookup; reflexivity.
Qed.

Lemma mode_route_200_witness :
  _current_mode
    (globals (sys (do_GET Demo.cfg (Demo.oracle (Demo.healthy true)) demo_log_config
                     demo_str_exn (demo_request "/show" ["1"]) (demo_server false "on"))))
  = "off".
Proof.
  assert (returned_with 200
            (ensure_ready Demo.cfg (Demo.oracle (Demo.healthy true)) true false
               (sys (demo_server false "on"))) = true) as Hrun
    by (vm_compute; reflexivity).
  apply returned_with_eq in Hrun.
  assert (exists payload,
             sent (do_GET Demo.cfg (Demo.oracle (Demo.healthy true)) demo_log_config
                     demo_str_exn (demo_request "/show" ["1"]) (demo_server false "on"))
             = (200, payload) :: sent (demo_server false "on")) as [payload Hs].
  { unfold do_GET, do_GET_body.
    change (url_path (demo_request "/show" ["1"])) with "/show".
    change (force_of (demo_request "/show" ["1"])) with true.
    change (bool_decide ("/show" ∈ ["/"; "/debug"; "/mode"])) with false.
    change (bool_decide ("/show" ∈ ["/kiosk"; "/hide"])) with false.
    change (bool_decide ("/show" ∈ ["/show"; "/desktop"])) with true.
    cbv iota. unfold lift.
    rewrite (log_sys demo_log_config (demo_request "/show" ["1"]) "/show" true
               (demo_server false "on")).
    rewrite Hrun. eexists. simpl.
    rewrite (log_sent demo_log_config (demo_request "/show" ["1"]) "/show" true
               (demo_server false "on")).
    reflexivity. }
  destruct (mode_route_200 Demo.cfg (Demo.oracle (Demo.healthy true)) demo_log_config
              demo_str_exn (demo_request "/show" ["1"]) (demo_server false "on") payload)
    as (_ & Hmode & _).
  - apply list_elem_of_In. simpl. auto 10.
  - exact Hs.
  - exact Hmode.
Defined.
